(** * bug_release.py: severity reconstruction and weekly aggregation

    A shallow embedding of [scripts/bug_release.py].  The script walks the
    change history of every fetched Bugzilla bug, derives three severities
    (highest before release, at release, highest after release), flags bugs
    whose severity group was raised after the release, and counts each bug
    in a table indexed by severity group and ISO week of creation.

    Python values are modelled as follows: integers are [Z], strings are
    [string], a variable holding [None] or an integer is [option Z], dicts
    with dynamic keys are [gmap]s, and a computation that may raise is a
    value of [py A] = [exn + A]. *)

From Stdlib Require Import ZArith Lia List String DecimalString.
From stdpp Require Import gmap strings list fin_maps sorting.

Local Open Scope string_scope.
Local Open Scope list_scope.
Local Open Scope Z_scope.

(** ** Exceptions *)

Inductive exn : Set :=
| ValueError   (* list.index on a missing element *)
| TypeError    (* comparison with None, subscript of None or of an int *)
| KeyError     (* dict subscript on a missing key *)
| IndexError   (* list subscript out of range *)
| OSError.     (* open() of a file that does not exist *)

Definition py (A : Type) : Type := (exn + A)%type.

Definition ret {A} (a : A) : py A := inr a.
Definition raise {A} (e : exn) : py A := inl e.

Definition bind {A B} (m : py A) (k : A -> py B) : py B :=
  match m with
  | inl e => inl e
  | inr a => k a
  end.

Notation "'let*' x ':=' e 'in' k" := (bind e (fun x => k))
  (at level 10, x name, e at level 100, k at level 200, only parsing).

Definition returns {A} (m : py A) : bool :=
  match m with inr _ => true | inl _ => false end.

(** ** Python built-ins used by the script *)

(** [l.index(x)]: position of the first element equal to [x]. *)
Fixpoint index_from (l : list string) (x : string) (i : Z) : py Z :=
  match l with
  | [] => raise ValueError
  | y :: l' => if String.eqb y x then ret i else index_from l' x (i + 1)
  end.

Definition index (l : list string) (x : string) : py Z := index_from l x 0.

(** [l[i]] for an integer [i]; negative subscripts count from the end. *)
Definition getitem {A} (l : list A) (i : Z) : py A :=
  let n := Z.of_nat (length l) in
  let j := if i <? 0 then i + n else i in
  if (0 <=? j) && (j <? n)
  then match l !! Z.to_nat j with
       | Some x => ret x
       | None => raise IndexError
       end
  else raise IndexError.

(** [l[v]] where the variable [v] may still hold [None]. *)
Definition getitem_var {A} (l : list A) (v : option Z) : py A :=
  match v with
  | None => raise TypeError
  | Some i => getitem l i
  end.

(** [d[k]] for a dict written as a literal. *)
Fixpoint dict_get (d : list (string * string)) (k : string) : py string :=
  match d with
  | [] => raise KeyError
  | (k', v) :: d' => if String.eqb k' k then ret v else dict_get d' k
  end.

(** [max(a, b)] where [b] is an integer and [a] is a variable that may
    hold [None].  Python 3 has no ordering between [None] and [int]:
    the comparison [b > a] raises. *)
Definition py_max (a : option Z) (b : Z) : py Z :=
  match a with
  | None => raise TypeError
  | Some x => ret (Z.max x b)
  end.

(** [str(n)] and the format [WFMT = '{}-{:02d}']. *)
Definition str (n : Z) : string := NilZero.string_of_int (Z.to_int n).

Definition pad02 (n : Z) : string :=
  if (0 <=? n) && (n <? 10) then String.append "0" (str n) else str n.

Definition WFMT_format (y w : Z) : string :=
  String.append (str y) (String.append "-" (pad02 w)).

(** ** Constants of the script *)

Definition SEVERITIES : list (string * string) :=
  [ ("blocker", "blocker+critical+major");
    ("critical", "blocker+critical+major");
    ("major", "blocker+critical+major");
    ("normal", "normal");
    ("minor", "minor+trivial");
    ("trivial", "minor+trivial");
    ("enhancement", "enhancement") ].

Definition SEVERITIES_LIST : list string :=
  [ "enhancement"; "trivial"; "minor"; "normal"; "major"; "critical";
    "blocker" ].

Definition SEVERITIES_GROUP_LIST : list string :=
  [ "enhancement"; "minor+trivial"; "normal"; "blocker+critical+major" ].

(** ** Calendar

    [datetime.isocalendar] of the standard library, on the date part of a
    timestamp. *)

Record date := Date { year : Z; month : Z; day : Z }.

Definition is_leap (y : Z) : bool :=
  (y mod 4 =? 0) && (negb (y mod 100 =? 0) || (y mod 400 =? 0)).

Definition days_before_year (y : Z) : Z :=
  let p := y - 1 in p * 365 + p / 4 - p / 100 + p / 400.

Definition DAYS_BEFORE_MONTH : list Z :=
  [ 0; 31; 59; 90; 120; 151; 181; 212; 243; 273; 304; 334 ].

Definition days_before_month (y m : Z) : Z :=
  nth (Z.to_nat (m - 1)) DAYS_BEFORE_MONTH 0
  + (if (2 <? m) && is_leap y then 1 else 0).

Definition ymd2ord (d : date) : Z :=
  days_before_year (year d) + days_before_month (year d) (month d) + day d.

Definition isoweek1monday (y : Z) : Z :=
  let firstday := ymd2ord (Date y 1 1) in
  let firstweekday := (firstday + 6) mod 7 in
  let week1monday := firstday - firstweekday in
  if 3 <? firstweekday then week1monday + 7 else week1monday.

(** Returns (ISO year, ISO week, ISO weekday). *)
Definition isocalendar (d : date) : Z * Z * Z :=
  let y := year d in
  let today := ymd2ord d in
  let w1 := isoweek1monday y in
  let week := (today - w1) / 7 in
  let wday := (today - w1) mod 7 in
  if week <? 0 then
    let w0 := isoweek1monday (y - 1) in
    (y - 1, (today - w0) / 7 + 1, (today - w0) mod 7 + 1)
  else if (52 <=? week) && (isoweek1monday (y + 1) <=? today) then
    (y + 1, 1, wday + 1)
  else
    (y, week + 1, wday + 1).

(** ** Bug records *)

Record change := Change {
  field_name : string;
  removed : string;
  added : string
}.

(** [when] is the history timestamp after [strptime] and [localize], as
    seconds on the UTC time line. *)
Record history_item := HistoryItem {
  when : Z;
  changes : list change
}.

Record bug := Bug {
  id : Z;
  summary : string;
  product : string;
  component : string;
  creation_time : date;
  severity : string;
  assigned_to_email : string;
  status_flag_version : string;  (* bug_data[status_flag_version] *)
  status_flag_successor_version : string;
  history : list history_item
}.

(** The local variables of [bug_handler] that the history walk updates. *)
Record walk := Walk {
  pre_release_phase : bool;
  severity_highest_index_before_release : option Z;
  severity_index_at_release : option Z;
  severity_highest_index_after_release : option Z;
  severity_index_last_processed : option Z
}.

Definition walk_init : walk := Walk true None None None None.

(** The three derived severities and their groups. *)
Record derived := Derived {
  sev_before_release : string;
  sev_at_release : string;
  sev_after_release : string;
  sev_group_before_release : Z;
  sev_group_at_release : Z;
  sev_group_after_release : Z
}.

Definition or_else (v : option Z) (d : Z) : Z :=
  match v with Some x => x | None => d end.

Section Reconstructor.

Variable release_date : Z.
Variable successor_release_date : Z.

(** One severity change that lies inside the window (lines 141-159). *)
Definition process_change (t old new : Z) (st : walk) : py walk :=
  let* st1 :=
    if pre_release_phase st && (t >? release_date) then
      let* m := py_max (severity_highest_index_before_release st) old in
      ret (Walk false (Some m) (Some old) (Some new)
                (severity_index_last_processed st))
    else ret st in
  if pre_release_phase st1 then
    let seed := or_else (severity_highest_index_before_release st1) old in
    let* m := py_max (Some seed) new in
    ret (Walk true (Some m) (severity_index_at_release st1)
              (severity_highest_index_after_release st1)
              (severity_index_last_processed st1))
  else
    let* a :=
      match severity_highest_index_after_release st1 with
      | None => ret new
      | Some a => py_max (Some a) new
      end in
    ret (Walk false (severity_highest_index_before_release st1)
              (severity_index_at_release st1) (Some a)
              (severity_index_last_processed st1)).

(** The inner loop over the changes of one history item (lines 123-159).
    A severity change after the successor release ends this loop only. *)
Fixpoint walk_changes (t : Z) (cs : list change) (st : walk) : py walk :=
  match cs with
  | [] => ret st
  | c :: cs' =>
    if String.eqb (field_name c) "severity" then
      let* old := index SEVERITIES_LIST (removed c) in
      let* new := index SEVERITIES_LIST (added c) in
      if t >? successor_release_date then
        ret (Walk (pre_release_phase st)
                  (severity_highest_index_before_release st)
                  (severity_index_at_release st)
                  (severity_highest_index_after_release st)
                  (Some (or_else (severity_index_last_processed st) old)))
      else
        let* st' := process_change t old new st in
        walk_changes t cs' st'
    else walk_changes t cs' st
  end.

(** The outer loop over the history (line 122). *)
Fixpoint walk_history (h : list history_item) (st : walk) : py walk :=
  match h with
  | [] => ret st
  | it :: h' =>
    let* st' := walk_changes (when it) (changes it) st in
    walk_history h' st'
  end.

(** Lines 160-168: defaults once the walk is over. *)
Definition finish (current : Z) (st : walk) : walk :=
  let last := or_else (severity_index_last_processed st) current in
  if pre_release_phase st then
    let before := or_else (severity_highest_index_before_release st) last in
    match severity_index_at_release st with
    | None => Walk true (Some before) (Some last) (Some last) (Some last)
    | Some _ =>
      Walk true (Some before) (severity_index_at_release st)
           (severity_highest_index_after_release st) (Some last)
    end
  else
    Walk false (severity_highest_index_before_release st)
         (severity_index_at_release st)
         (severity_highest_index_after_release st) (Some last).

Definition group_index (sev : string) : py Z :=
  let* g := dict_get SEVERITIES sev in
  index SEVERITIES_GROUP_LIST g.

(** Lines 169-174: from indices to severities and their groups. *)
Definition derive (st : walk) : py derived :=
  let* before :=
    getitem_var SEVERITIES_LIST (severity_highest_index_before_release st) in
  let* at_rel :=
    getitem_var SEVERITIES_LIST (severity_index_at_release st) in
  let* after :=
    getitem_var SEVERITIES_LIST (severity_highest_index_after_release st) in
  let* gb := group_index before in
  let* ga := group_index at_rel in
  let* gf := group_index after in
  ret (Derived before at_rel after gb ga gf).

(** Lines 111-174 of [bug_handler]: the severity reconstructor. *)
Definition reconstruct (b : bug) : py derived :=
  let* severity_current_index := index SEVERITIES_LIST (severity b) in
  let* st := walk_history (history b) walk_init in
  derive (finish severity_current_index st).

End Reconstructor.

(** ** The shared objects the handler mutates *)

(** A row appended to one of the two flagged-bug lists (lines 192-200 and
    209-217). *)
Record flagged := Flagged {
  flagged_id : Z;
  flagged_product : string;
  flagged_status_flag_version : string;
  flagged_status_flag_successor_version : string;
  flagged_component : string;
  flagged_assignee : string;
  flagged_summary : string
}.

Definition flagged_of (b : bug) : flagged :=
  Flagged (id b) (product b) (status_flag_version b)
          (status_flag_successor_version b) (component b)
          (assigned_to_email b) (summary b).

(** A node of [bugzilla_data_to_save]: a dict whose ['data'] entry, when
    present, is a list of raw bug records, and whose other entries are
    child nodes in insertion order. *)
#[warnings="-register-all"]
Inductive node :=
| Node (node_data : option (list bug)) (node_children : list (string * node)).

Definition node_data (n : node) : option (list bug) :=
  match n with Node d _ => d end.

Definition node_children (n : node) : list (string * node) :=
  match n with Node _ c => c end.

Definition empty_node : node := Node None [].

Fixpoint child (k : string) (cs : list (string * node)) : option node :=
  match cs with
  | [] => None
  | (k', n) :: cs' => if String.eqb k' k then Some n else child k cs'
  end.

Fixpoint set_child (k : string) (n : node) (cs : list (string * node))
  : list (string * node) :=
  match cs with
  | [] => [(k, n)]
  | (k', n') :: cs' =>
    if String.eqb k' k then (k, n) :: cs' else (k', n') :: set_child k n cs'
  end.

(** Lines 74-83. *)
Fixpoint add_bugzilla_data_to_save (node_path : list string) (d : bug)
  (n : node) : py node :=
  match node_path with
  | [] =>
    match node_data n with
    | None => raise KeyError
    | Some l => ret (Node (Some (l ++ [d])) (node_children n))
    end
  | path_step :: rest =>
    let next := match child path_step (node_children n) with
                | Some c => c
                | None => Node (Some []) []
                end in
    let* next' := add_bugzilla_data_to_save rest d next in
    ret (Node (node_data n) (set_child path_step next' (node_children n)))
  end.

(** [data_opened], the two flagged-bug lists and [bugzilla_data_to_save]. *)
Record store := Store {
  data_opened : gmap string (gmap string Z);
  sev_lowered_and_increased : list flagged;
  sev_increased_after_release : list flagged;
  bugzilla_data_to_save : node
}.

(** The second argument of [bug_handler]: either the dict built at lines
    329-334, whose ['data_opened'] entry is the shared table, or, at line
    244, the shared table itself. *)
Inductive other_data :=
| BugData (phase : string)
| DataOpened.

(** Truth value of a variable that holds [None] or a string. *)
Definition truthy (v : option string) : bool :=
  match v with
  | None => false
  | Some s => negb (String.eqb s "")
  end.

(** The cell [tbl[g][w]]. *)
Definition cell (tbl : gmap string (gmap string Z)) (g w : string) : option Z :=
  match tbl !! g with
  | None => None
  | Some r => r !! w
  end.

Definition subscript {V} (m : gmap string V) (k : string) : py V :=
  match m !! k with
  | None => raise KeyError
  | Some v => ret v
  end.

(** The key of the weekly bucket (lines 226-228). *)
Definition week_key (b : bug) : string :=
  let '(y, w, _) := isocalendar (creation_time b) in WFMT_format y w.

(** Line 229: the group the bug is counted under. *)
Definition sev_group_highest (d : derived) : py string :=
  let* m := py_max (Some (sev_group_before_release d))
                   (sev_group_after_release d) in
  getitem SEVERITIES_GROUP_LIST m.

(** Line 230: [tbl[g][t] += 1]. *)
Definition increment (tbl : gmap string (gmap string Z)) (g t : string)
  : py (gmap string (gmap string Z)) :=
  let* r := subscript tbl g in
  let* n := subscript r t in
  ret (<[g := <[t := n + 1]> r]> tbl).

(** The conditions of lines 184 and 201. *)
Definition lowered_then_raised (d : derived) : bool :=
  (sev_group_before_release d >? sev_group_at_release d)
  && (sev_group_after_release d >? sev_group_at_release d).

Definition raised_after_release (d : derived) : bool :=
  sev_group_after_release d >? sev_group_at_release d.

(** [if c: l.append(x)] *)
Definition append_if (c : bool) (l : list flagged) (x : flagged)
  : list flagged :=
  if c then l ++ [x] else l.

Section Handler.

Variable release_date : Z.
Variable successor_release_date : Z.
Variable bzdata_save_path : option string.

(** Lines 184-230 once the table that [data_opened] names is known. *)
Definition record_bug (bug_data : bug) (d : derived) (saved : node) (s : store)
  : py store :=
  let lowered :=
    append_if (lowered_then_raised d) (sev_lowered_and_increased s)
              (flagged_of bug_data) in
  let increased :=
    append_if (raised_after_release d) (sev_increased_after_release s)
              (flagged_of bug_data) in
  let t := week_key bug_data in
  let* g := sev_group_highest d in
  let* tbl := increment (data_opened s) g t in
  ret (Store tbl lowered increased saved).

(** Lines 97-230. *)
Definition bug_handler (bug_data : bug) (other : other_data) (s : store)
  : py store :=
  match other with
  | BugData phase =>
    let* saved :=
      if truthy bzdata_save_path
      then add_bugzilla_data_to_save ["opened"; phase] bug_data
             (bugzilla_data_to_save s)
      else ret (bugzilla_data_to_save s) in
    let* d := reconstruct release_date successor_release_date bug_data in
    record_bug bug_data d saved s
  | DataOpened =>
    (* [other_data] is the table: lines 98-99 subscript it with the keys
       'data_opened' and 'phase', and what they yield are rows of counts *)
    let* r := subscript (data_opened s) "data_opened" in
    let* _ := subscript (data_opened s) "phase" in
    if truthy bzdata_save_path
    then raise TypeError (* a dict as path step: unhashable *)
    else
      let* d := reconstruct release_date successor_release_date bug_data in
      let* g := sev_group_highest d in
      let* _ := subscript r g in
      raise TypeError (* subscript of a count *)
  end.

(** The handler called on every record of one batch, in order. *)
Fixpoint handle_all (bugs : list bug) (other : other_data) (s : store)
  : py store :=
  match bugs with
  | [] => ret s
  | b :: bugs' =>
    let* s' := bug_handler b other s in
    handle_all bugs' other s'
  end.

(** The records of the queries (lines 312-341), each a phase name and the
    records the tracker returned for one sub-window. *)
Fixpoint handle_queries (queries : list (string * list bug)) (s : store)
  : py store :=
  match queries with
  | [] => ret s
  | (phase, bugs) :: queries' =>
    let* s' := handle_all bugs (BugData phase) s in
    handle_queries queries' s'
  end.

End Handler.

(** ** [get_bugs] and the command line *)

Definition init_row (weeks : list string) : gmap string Z :=
  list_to_map (map (fun w => (w, 0)) weeks).

(** [{sev: {w: 0 for w in weeks} for sev in set(SEVERITIES.values())}] *)
Definition init_table (weeks : list string) : gmap string (gmap string Z) :=
  list_to_map (map (fun kv => (snd kv, init_row weeks)) SEVERITIES).

(** Subscripts of a loaded JSON document. *)
Definition node_child (n : node) (k : string) : py node :=
  match child k (node_children n) with
  | None => raise KeyError
  | Some c => ret c
  end.

Definition node_records (n : node) : py (list bug) :=
  match node_data n with
  | None => raise KeyError
  | Some l => ret l
  end.

(** Files the script reads and writes.  The report is kept as the values
    [write_csv] renders, the cache as the document [json.dumps] prints. *)
Inductive file :=
| JsonFile (doc : node)
| CsvFile (first_beta : string) (table : gmap string (gmap string Z))
          (lowered increased : list flagged).

Record args := Args {
  product_version : Z;
  (* None: the flag is absent; Some None: the flag has no path *)
  bzdata_load : option (option string);
  bzdata_save : option (option string)
}.

Definition default_bzdata_path (v : Z) : string :=
  String.append "data/bugzilla_data_" (String.append (str v) ".json").

Definition csv_path (v : Z) : string :=
  String.append "data/bugs_count_" (String.append (str v) ".csv").

(** Lines 440-448 and 453-461: the path a flag stands for. *)
Definition flag_path (v : Z) (flag : option (option string)) : option string :=
  match flag with
  | None => None
  | Some given => if truthy given then given else Some (default_bzdata_path v)
  end.

Section Script.

(** What [productdates.get_product_dates] and [get_weeks] yield for the
    version: the two cutoffs, the day of the first beta and the week keys
    from the first nightly to the release. *)
Variable release_date : Z.
Variable successor_release_date : Z.
Variable beta_start : date.
Variable weeks_opened : list string.

(** Lines 95-350.  [queries] are the records each sub-window query will
    deliver; [saved] is [bugzilla_data_to_save] on entry.  The entry
    ['first_beta'] that line 344 adds to the table is returned apart. *)
Definition get_bugs (bzdata_load_path bzdata_save_path : option string)
  (bugzilla_data_loaded : option node) (queries : list (string * list bug))
  (saved : node) : py (string * store) :=
  let s := Store (init_table weeks_opened) [] [] saved in
  let* s' :=
    if truthy bzdata_load_path then
      match bugzilla_data_loaded with
      | None => raise TypeError
      | Some doc =>
        let* opened := node_child doc "opened" in
        let* nightly := node_child opened "nightly" in
        let* records := node_records nightly in
        handle_all release_date successor_release_date bzdata_save_path
                   records DataOpened s
      end
    else
      handle_queries release_date successor_release_date bzdata_save_path
                     queries s in
  let '(y, w, _) := isocalendar beta_start in
  ret (WFMT_format y w, s').

(** Lines 427-469: the script run on a file system. *)
Definition main (a : args) (queries : list (string * list bug))
  (fs : gmap string file) : py (gmap string file) :=
  let v := product_version a in
  let bzdata_load_path := flag_path v (bzdata_load a) in
  let* bugzilla_data_loaded :=
    match bzdata_load_path with
    | None => ret None
    | Some p =>
      match fs !! p with
      | None => raise OSError
      | Some (JsonFile doc) => ret (Some doc)
      | Some (CsvFile _ _ _ _) => raise ValueError
      end
    end in
  let bzdata_save_path := flag_path v (bzdata_save a) in
  let* r := get_bugs bzdata_load_path bzdata_save_path bugzilla_data_loaded
                     queries empty_node in
  let s := snd r in
  let fs1 := <[csv_path v := CsvFile (fst r) (data_opened s)
                               (sev_lowered_and_increased s)
                               (sev_increased_after_release s)]> fs in
  if truthy bzdata_save_path
  then ret (<[default_bzdata_path v := JsonFile (bugzilla_data_to_save s)]> fs1)
  else ret fs1.

End Script.

(** ** Vocabulary of the properties *)

Definition is_severity_change (c : change) : bool :=
  String.eqb (field_name c) "severity".

(** The severity changes of a history in the order the walk meets them,
    each with the timestamp of its history item. *)
Definition severity_changes (h : list history_item) : list (Z * change) :=
  flat_map (fun it => map (pair (when it))
                          (List.filter is_severity_change (changes it))) h.

Definition is_severity (s : string) : Prop := In s SEVERITIES_LIST.

Definition change_wf (c : change) : Prop :=
  is_severity (removed c) /\ is_severity (added c).

(** Every severity named by the history is a member of the enumeration. *)
Definition history_wf (h : list history_item) : Prop :=
  Forall (fun tc => change_wf (snd tc)) (severity_changes h).

Definition bug_wf (b : bug) : Prop :=
  is_severity (severity b) /\ history_wf (history b).

(** History items in ascending order of time. *)
Fixpoint chronological (h : list history_item) : Prop :=
  match h with
  | [] => True
  | it :: h' => Forall (fun it' => when it <= when it') h' /\ chronological h'
  end.

Definition with_history (b : bug) (h : list history_item) (sev : string)
  : bug :=
  Bug (id b) (summary b) (product b) (component b) (creation_time b) sev
      (assigned_to_email b) (status_flag_version b)
      (status_flag_successor_version b) h.

Definition with_last (st : walk) (l : option Z) : walk :=
  Walk (pre_release_phase st) (severity_highest_index_before_release st)
       (severity_index_at_release st)
       (severity_highest_index_after_release st) l.

Definition lift_last (l : option Z) (r : py walk) : py walk :=
  match r with
  | inl e => inl e
  | inr st => inr (with_last st l)
  end.

(** No snapshot has been taken as long as the release is not crossed. *)
Definition before_crossing (st : walk) : Prop :=
  pre_release_phase st = true
  /\ severity_index_at_release st = None
  /\ severity_highest_index_after_release st = None.

(** Index of a member of the enumeration. *)
Definition severity_index (s : string) : Z :=
  match index SEVERITIES_LIST s with
  | inr i => i
  | inl _ => 0
  end.

(** What the changes of one item after the cutoff leave in
    [severity_index_last_processed]. *)
Definition last_after_item (l : option Z) (cs : list change) : option Z :=
  match List.filter is_severity_change cs with
  | [] => l
  | c :: _ => Some (or_else l (severity_index (removed c)))
  end.

Section Cutoff.

Variable successor_release_date : Z.

Definition out_of_window (it : history_item) : bool :=
  when it >? successor_release_date.

(** The history without the items after the successor release. *)
Definition in_window (h : list history_item) : list history_item :=
  List.filter (fun it => negb (out_of_window it)) h.

(** The history up to the first item after the successor release. *)
Fixpoint until_cutoff (h : list history_item) : list history_item :=
  match h with
  | [] => []
  | it :: h' => if out_of_window it then [] else it :: until_cutoff h'
  end.

(** The first severity change after the successor release, if any. *)
Definition first_out_of_window (h : list history_item) : option change :=
  match severity_changes (List.filter out_of_window h) with
  | [] => None
  | (_, c) :: _ => Some c
  end.

(** The severity that lines 136-138 and 160-161 fall back to. *)
Definition fallback_severity (b : bug) : string :=
  match first_out_of_window (history b) with
  | Some c => removed c
  | None => severity b
  end.

(** The record cut at the successor release: no change after the cutoff
    is left, and the fallback severity stands for the current one. *)
Definition truncated (b : bug) : bug :=
  with_history b (in_window (history b)) (fallback_severity b).

(** What a walk leaves in [severity_index_last_processed] when it started
    with [l]. *)
Definition last_after (l : option Z) (h : list history_item) : option Z :=
  match first_out_of_window h with
  | Some c => Some (or_else l (severity_index (removed c)))
  | None => l
  end.

End Cutoff.

(** ** Reports *)

(** Two stores that hold the same table and the same flagged bugs, the
    lists compared as multisets. *)
Definition same_report (s1 s2 : store) : Prop :=
  data_opened s1 = data_opened s2
  /\ Permutation (sev_lowered_and_increased s1) (sev_lowered_and_increased s2)
  /\ Permutation (sev_increased_after_release s1)
                 (sev_increased_after_release s2).

(** Two runs agree when both raise or both return the same report. *)
Definition agree (r1 r2 : py store) : Prop :=
  match r1, r2 with
  | inr s1, inr s2 => same_report s1 s2
  | inl _, inl _ => True
  | _, _ => False
  end.

(** In a document the handler has written to, every node below the root
    has its ['data'] list. *)
Definition save_ok (n : node) : Prop :=
  forall c, child "opened" (node_children n) = Some c ->
    node_data c <> None /\
    forall p c', child p (node_children c) = Some c' -> node_data c' <> None.

(** The table after [tbl[g][t] += 1], when the cell exists. *)
Definition bumped (g t : string) (tbl : gmap string (gmap string Z))
  : gmap string (gmap string Z) :=
  alter (alter (fun n => n + 1) t) g tbl.

(** When the cache is being saved, the document is one the handler can
    extend. *)
Definition saving_ok (bzdata_save_path : option string) (s : store) : Prop :=
  truthy bzdata_save_path = true -> save_ok (bugzilla_data_to_save s).

Section Counting.

Variable release_date : Z.
Variable successor_release_date : Z.

(** What a bug adds to the report: its bucket and its two flags. *)
Definition effect (b : bug) : py (string * bool * bool) :=
  let* d := reconstruct release_date successor_release_date b in
  let* g := sev_group_highest d in
  ret (g, lowered_then_raised d, raised_after_release d).

(** The handler without the cache. *)
Definition count_bug (b : bug) (s : store) : py store :=
  let* d := reconstruct release_date successor_release_date b in
  record_bug b d (bugzilla_data_to_save s) s.

Fixpoint count_all (bugs : list bug) (s : store) : py store :=
  match bugs with
  | [] => ret s
  | b :: bugs' => let* s' := count_bug b s in count_all bugs' s'
  end.

End Counting.

(** Timestamps counted in days. *)
Definition days (n : Z) : Z := n * 86400.

(** ** Sample records *)

Definition severity_change_at (t : Z) (old new : string) : history_item :=
  HistoryItem t [Change "severity" old new].

Definition sample_bug (sev : string) (h : list history_item) : bug :=
  Bug 1500000 "Crash on startup" "Core" "General" (Date 2024 1 15) sev
      "nobody@mozilla.org" "affected" "---" h.

Definition sample_store : store :=
  Store (init_table ["2024-02"; "2024-03"]) [] [] empty_node.

(** The bug of the scenario, with its timestamps in seconds. *)
Definition scenario_bug : bug :=
  sample_bug "critical"
    [ severity_change_at (days 10) "normal" "minor";
      severity_change_at (days 40) "minor" "critical" ].

Ltac in_list := repeat first [left; reflexivity | right].

Ltac wf_sample :=
  repeat first
    [ split
    | apply Forall_nil
    | apply Forall_cons
    | progress (unfold bug_wf, history_wf, change_wf, is_severity; simpl)
    | in_list ].

(** ** Vocabulary for the cache document *)

(** The node a path of subscripts leads to. *)
Fixpoint node_at (path : list string) (n : node) : option node :=
  match path with
  | [] => Some n
  | k :: rest =>
    match child k (node_children n) with
    | None => None
    | Some c => node_at rest c
    end
  end.

(** The ['data'] list of the node at a path. *)
Definition records_at (path : list string) (n : node) : option (list bug) :=
  match node_at path n with
  | None => None
  | Some c => node_data c
  end.

Definition records_or_empty (o : option (list bug)) : list bug :=
  match o with Some l => l | None => [] end.

(** The records of the queries of one phase, in the order of the queries. *)
Definition records_of_phase (p : string) (queries : list (string * list bug))
  : list bug :=
  concat (map snd (List.filter (fun q => String.eqb (fst q) p) queries)).

(** ** Vocabulary for the report *)

(** The week string of a day, as lines 227-228 and 343-344 build it. *)
Definition week_label (d : date) : string :=
  let '(y, w, _) := isocalendar d in WFMT_format y w.

(** The sum of the counts of a row and of a table. *)
Definition row_total (r : gmap string Z) : Z :=
  map_fold (fun _ n acc => n + acc) 0 r.

Definition table_total (tbl : gmap string (gmap string Z)) : Z :=
  map_fold (fun _ r acc => row_total r + acc) 0 tbl.

(** A table with a row for each of the four groups and no other row, each
    row with a count for each of the weeks and no other count. *)
Definition shaped (weeks : list string) (tbl : gmap string (gmap string Z))
  : Prop :=
  forall g,
    match tbl !! g with
    | Some r => In g SEVERITIES_GROUP_LIST
                /\ forall w, r !! w <> None <-> In w weeks
    | None => ~ In g SEVERITIES_GROUP_LIST
    end.

(** All the records of the queries, in the order of the queries. *)
Definition all_records (queries : list (string * list bug)) : list bug :=
  concat (map snd queries).

(** ** Vocabulary for the walk *)

(** A variable of the walk holds [None] or an index of the enumeration. *)
Definition idx_ok (v : option Z) : Prop :=
  match v with
  | None => True
  | Some i => 0 <= i <= 6
  end.

(** What the loop keeps true of its variables: before the release is
    crossed no snapshot exists, afterwards all three values are set. *)
Definition walk_ok (st : walk) : Prop :=
  idx_ok (severity_highest_index_before_release st)
  /\ idx_ok (severity_index_at_release st)
  /\ idx_ok (severity_highest_index_after_release st)
  /\ idx_ok (severity_index_last_processed st)
  /\ (pre_release_phase st = true ->
      severity_index_at_release st = None
      /\ severity_highest_index_after_release st = None)
  /\ (pre_release_phase st = false ->
      severity_highest_index_before_release st <> None
      /\ severity_index_at_release st <> None
      /\ severity_highest_index_after_release st <> None).

Section Flat.

Variable release_date : Z.
Variable successor_release_date : Z.

(** The walk over the severity changes alone, each with its timestamp. *)
Fixpoint walk_flat (l : list (Z * change)) (st : walk) : py walk :=
  match l with
  | [] => ret st
  | (t, c) :: l' =>
    if t >? successor_release_date then
      walk_flat l'
        (with_last st
           (Some (or_else (severity_index_last_processed st)
                          (severity_index (removed c)))))
    else
      let* st' := process_change release_date t (severity_index (removed c))
                    (severity_index (added c)) st in
      walk_flat l' st'
  end.

(** The records for which the handler returns: the reconstructor returns
    and the week of creation is one of the weeks of the table. *)
Definition handled (weeks : list string) (b : bug) : Prop :=
  returns (reconstruct release_date successor_release_date b) = true
  /\ In (week_key b) weeks.

End Flat.

(** ** The queries of lines 298-338 *)

(** [relativedelta(days=30)], in seconds. *)
Definition thirty_days : Z := 30 * 86400.

(** One query: the phase it belongs to and the bounds it puts on the
    creation time, [v1 <= creation_ts < v2]. *)
Record query := Query {
  query_phase : string;
  v1 : Z;
  v2 : Z
}.

(** The loop of lines 317-336 for one phase.  Each unit of [fuel] allows
    one test of the loop condition. *)
Fixpoint phase_queries (fuel : nat) (name : string)
  (query_start end_date : Z) : option (list query) :=
  match fuel with
  | O => None
  | S fuel' =>
    if query_start <=? end_date then
      let query_end := query_start + thirty_days in
      match phase_queries fuel' name query_end end_date with
      | None => None
      | Some qs =>
        Some (Query name query_start (Z.min query_end end_date) :: qs)
      end
    else Some []
  end.

(** Lines 298-338: the queries of the nightly phase, then those of the
    beta phase. *)
Definition make_queries (fuel : nat) (nightly_start beta_start release_date : Z)
  : option (list query) :=
  match phase_queries fuel "nightly" nightly_start beta_start with
  | None => None
  | Some qs1 =>
    match phase_queries fuel "beta" beta_start release_date with
    | None => None
    | Some qs2 => Some (qs1 ++ qs2)
    end
  end.

(** A creation time that a query asks for. *)
Definition asks_for (t : Z) (q : query) : bool :=
  (v1 q <=? t) && (t <? v2 q).

(** The fuel that lets the loop of a phase run to its end. *)
Definition fuel_for (query_start end_date : Z) : nat :=
  S (Z.to_nat ((end_date - query_start) / thirty_days + 1)).

(** ** The report of lines 356-411 *)

(** A cell handed to [csv.writer]: a string or an integer. *)
Inductive csv_cell :=
| Str (s : string)
| Num (n : Z).

(** [sorted(r.keys())]: the keys of a dict are distinct, so their sorted
    list does not depend on the order in which the dict lists them. *)
Definition sorted_keys (r : gmap string Z) : list string :=
  merge_sort String.le (map fst (map_to_list r)).

(** [[numbers[w] for w in weeks]] (line 378). *)
Fixpoint subscripts (numbers : gmap string Z) (weeks : list string)
  : py (list Z) :=
  match weeks with
  | [] => ret []
  | w :: weeks' =>
    let* n := subscript numbers w in
    let* ns := subscripts numbers weeks' in
    ret (n :: ns)
  end.

(** Lines 376-379: the rows of counts, one for each group of the loop. *)
Fixpoint count_rows (tbl : gmap string (gmap string Z)) (weeks : list string)
  (sevs : list string) : py (list (list csv_cell)) :=
  match sevs with
  | [] => ret []
  | sev :: sevs' =>
    let* numbers := subscript tbl sev in
    let* ns := subscripts numbers weeks in
    let* rows := count_rows tbl weeks sevs' in
    ret ((Str sev :: map Num ns) :: rows)
  end.

Definition REPORT_GROUPS : list string :=
  [ "blocker+critical+major"; "normal"; "minor+trivial" ].

(** Lines 385-393 and 401-409.  ['Status Version %'.format(major)] has no
    replacement field and is the string itself. *)
Definition status_header : list csv_cell :=
  [ Str "Bug ID"; Str "Product"; Str "Status Version %";
    Str "Status Version %"; Str "Component"; Str "Assignee"; Str "Summary" ].

Definition flagged_row (f : flagged) : list csv_cell :=
  [ Num (flagged_id f); Str (flagged_product f);
    Str (flagged_status_flag_version f);
    Str (flagged_status_flag_successor_version f);
    Str (flagged_component f); Str (flagged_assignee f);
    Str (flagged_summary f) ].

Definition report_head (first_beta_str : string) (weeks : list string)
  : list (list csv_cell) :=
  [ [Str "First beta"; Str first_beta_str]; []; [];
    [Str "Opened bugs by week"];
    Str "Severity" :: map Str weeks ].

Definition report_tail (lowered increased : list flagged)
  : list (list csv_cell) :=
  [ []; [];
    [Str (String.append "Bugs with severity significantly lowered before "
                        "release and increased afterwards")];
    status_header ]
  ++ map flagged_row lowered
  ++ [ []; [];
       [Str "Bugs with severity significantly increased after release"];
       status_header ]
  ++ map flagged_row increased.

(** Lines 362-411: the rows [write_csv] hands to the writer, in order,
    from what [get_bugs] returned. *)
Definition write_csv_rows (beta_start : date)
  (tbl : gmap string (gmap string Z)) (lowered increased : list flagged)
  : py (list (list csv_cell)) :=
  let first_beta_str := week_label beta_start in
  let* normal := subscript tbl "normal" in
  let weeks := sorted_keys normal in
  let* rows := count_rows tbl weeks REPORT_GROUPS in
  ret (report_head first_beta_str weeks ++ rows
       ++ report_tail lowered increased).

(** The count of a cell, zero where there is none. *)
Definition count_at (tbl : gmap string (gmap string Z)) (g w : string) : Z :=
  match cell tbl g w with Some n => n | None => 0 end.

(** ** More sample records *)

Definition other_bug : bug := sample_bug "minor" [].

(** The bug of the scenario with its changes grouped in another way and
    with changes to other fields between them. *)
Definition regrouped_bug : bug :=
  sample_bug "critical"
    [ HistoryItem (days 10) [Change "priority" "P3" "P1"];
      HistoryItem (days 10)
        [Change "severity" "normal" "minor"; Change "status" "NEW" "ASSIGNED"];
      severity_change_at (days 40) "minor" "critical" ].

Definition sample_weeks : list string := ["2024-02"; "2024-03"].

Definition sample_queries : list (string * list bug) :=
  [("nightly", [scenario_bug]); ("beta", [other_bug])].

(** A cache document with one record of the nightly phase. *)
Definition sample_doc : node :=
  Node None [("opened", Node (Some [])
                          [("nightly", Node (Some [scenario_bug]) [])])].

Definition sample_args : args := Args 125 None (Some None).

(** ** Basic facts about the built-ins and the constants *)

Lemma bind_inr_inv {A B} (m : py A) (k : A -> py B) (b : B) :
  bind m k = inr b -> exists a, m = inr a /\ k a = inr b.
Proof. destruct m as [e|a]; simpl; [discriminate|]. eauto. Qed.

Lemma index_from_spec (l : list string) (x : string) (i j : Z) :
  index_from l x i = inr j ->
  i <= j < i + Z.of_nat (length l) /\ l !! Z.to_nat (j - i) = Some x.
Proof.
  revert i. induction l as [|y l IH]; intros i; simpl; [discriminate|].
  destruct (String.eqb y x) eqn:E.
  - intros [= <-]. apply String.eqb_eq in E as ->.
    replace (i - i) with 0 by lia. split; [lia|reflexivity].
  - intros H. apply IH in H as [Hr Hl]. split; [lia|].
    replace (Z.to_nat (j - i)) with (S (Z.to_nat (j - (i + 1)))) by lia.
    exact Hl.
Qed.

(** [l[l.index(x)]] is [x]. *)
Lemma getitem_index (l : list string) (x : string) (j : Z) :
  index l x = inr j -> getitem l j = inr x.
Proof.
  intros H. apply index_from_spec in H as [Hr Hl].
  unfold getitem. rewrite Z.sub_0_r in Hl.
  destruct (j <? 0) eqn:E1; [lia|].
  replace ((0 <=? j) && (j <? Z.of_nat (length l))) with true by lia.
  rewrite Hl. reflexivity.
Qed.

Lemma is_severity_cases (s : string) :
  is_severity s ->
  s = "enhancement" \/ s = "trivial" \/ s = "minor" \/ s = "normal"
  \/ s = "major" \/ s = "critical" \/ s = "blocker".
Proof. unfold is_severity. simpl. intuition auto. Qed.

Lemma is_severity_index (s : string) :
  is_severity s -> exists i, index SEVERITIES_LIST s = inr i.
Proof.
  intros H. apply is_severity_cases in H.
  repeat (destruct H as [->|H]); try subst s; eexists; reflexivity.
Qed.

Lemma index_is_severity (s : string) (i : Z) :
  index SEVERITIES_LIST s = inr i -> is_severity s.
Proof.
  intros H. apply index_from_spec in H as [_ H].
  apply list_elem_of_lookup_2 in H. apply list_elem_of_In in H. exact H.
Qed.

(** Every member of the enumeration has a group, one of the four. *)
Lemma is_severity_group (s : string) :
  is_severity s -> exists g, group_index s = inr g /\ 0 <= g <= 3.
Proof.
  intros H. apply is_severity_cases in H.
  repeat (destruct H as [->|H]); try subst s;
    eexists; (split; [reflexivity|lia]).
Qed.

(** The calendar and the week key on known dates. *)

Example WFMT_format_2024_03 : WFMT_format 2024 3 = "2024-03".
Proof. reflexivity. Qed.

Example isocalendar_mid_january :
  isocalendar (Date 2024 1 15) = (2024, 3, 1).
Proof. reflexivity. Qed.

Example isocalendar_next_year :
  isocalendar (Date 2019 12 30) = (2020, 1, 1).
Proof. reflexivity. Qed.

Example isocalendar_previous_year :
  isocalendar (Date 2021 1 3) = (2020, 53, 7).
Proof. reflexivity. Qed.

Example week_key_scenario_bug : week_key scenario_bug = "2024-03".
Proof. reflexivity. Qed.

(** ** The history walk *)



Lemma index_severity_index (s : string) :
  is_severity s -> index SEVERITIES_LIST s = inr (severity_index s).
Proof.
  intros H. destruct (is_severity_index s H) as [i Hi].
  unfold severity_index. rewrite Hi. reflexivity.
Qed.

Lemma with_last_id (st : walk) :
  with_last st (severity_index_last_processed st) = st.
Proof. destruct st; reflexivity. Qed.

Lemma with_last_twice (st : walk) (l l' : option Z) :
  with_last (with_last st l) l' = with_last st l'.
Proof. reflexivity. Qed.

Lemma severity_changes_cons (it : history_item) (h : list history_item) :
  severity_changes (it :: h) =
  map (pair (when it)) (List.filter is_severity_change (changes it))
  ++ severity_changes h.
Proof. reflexivity. Qed.

Lemma severity_changes_app (h1 h2 : list history_item) :
  severity_changes (h1 ++ h2) = severity_changes h1 ++ severity_changes h2.
Proof. unfold severity_changes. apply flat_map_app. Qed.

Lemma history_wf_cons (it : history_item) (h : list history_item) :
  history_wf (it :: h) <->
  Forall change_wf (List.filter is_severity_change (changes it))
  /\ history_wf h.
Proof.
  unfold history_wf. rewrite severity_changes_cons, Forall_app, Forall_map.
  reflexivity.
Qed.

Lemma history_wf_app (h1 h2 : list history_item) :
  history_wf (h1 ++ h2) <-> history_wf h1 /\ history_wf h2.
Proof. unfold history_wf. rewrite severity_changes_app. apply Forall_app. Qed.

Section WalkFacts.

Variable release_date : Z.
Variable successor_release_date : Z.

(** Items without a severity change leave the walk where it is. *)
Lemma walk_changes_none (t : Z) (cs : list change) (st : walk) :
  List.filter is_severity_change cs = [] ->
  walk_changes release_date successor_release_date t cs st = inr st.
Proof.
  induction cs as [|c cs IH]; simpl; [reflexivity|].
  unfold is_severity_change at 1.
  destruct (String.eqb (field_name c) "severity"); [discriminate|exact IH].
Qed.

Lemma walk_history_none (h : list history_item) (st : walk) :
  severity_changes h = [] ->
  walk_history release_date successor_release_date h st = inr st.
Proof.
  induction h as [|it h IH]; [reflexivity|].
  rewrite severity_changes_cons. simpl. intros H.
  apply app_eq_nil in H as [H1 H2].
  apply map_eq_nil in H1. rewrite (walk_changes_none _ _ _ H1).
  simpl. exact (IH H2).
Qed.

Lemma walk_history_app (h1 h2 : list history_item) (st : walk) :
  walk_history release_date successor_release_date (h1 ++ h2) st
  = bind (walk_history release_date successor_release_date h1 st)
         (walk_history release_date successor_release_date h2).
Proof.
  revert st. induction h1 as [|it h1 IH]; intros st; simpl; [reflexivity|].
  destruct (walk_changes _ _ (when it) (changes it) st) as [e|st']; simpl;
    [reflexivity|apply IH].
Qed.

(** The walk never reads [severity_index_last_processed] inside the
    window; it only carries it along. *)
Lemma process_change_last (t old new : Z) (st : walk) (l : option Z) :
  process_change release_date t old new (with_last st l)
  = lift_last l (process_change release_date t old new st).
Proof.
  destruct st as [p b a f l0]. unfold process_change. simpl.
  destruct p; simpl.
  - destruct (t >? release_date); simpl.
    + destruct b as [b|]; simpl; reflexivity.
    + reflexivity.
  - destruct f; reflexivity.
Qed.

Lemma walk_changes_in (t : Z) (cs : list change) (st : walk) (l : option Z) :
  t <= successor_release_date ->
  walk_changes release_date successor_release_date t cs (with_last st l)
  = lift_last l (walk_changes release_date successor_release_date t cs st).
Proof.
  intros Ht. revert st. induction cs as [|c cs IH]; intros st; simpl;
    [reflexivity|].
  destruct (String.eqb (field_name c) "severity"); [|apply IH].
  destruct (index SEVERITIES_LIST (removed c)) as [e|old]; simpl;
    [reflexivity|].
  destruct (index SEVERITIES_LIST (added c)) as [e|new]; simpl; [reflexivity|].
  replace (t >? successor_release_date) with false by lia.
  rewrite process_change_last.
  destruct (process_change release_date t old new st) as [e|st']; simpl;
    [reflexivity|].
  apply IH.
Qed.


Lemma walk_changes_out (t : Z) (cs : list change) (st : walk) :
  t > successor_release_date ->
  Forall change_wf (List.filter is_severity_change cs) ->
  walk_changes release_date successor_release_date t cs st
  = inr (with_last st (last_after_item (severity_index_last_processed st) cs)).
Proof.
  intros Ht. unfold last_after_item.
  induction cs as [|c cs IH]; simpl; intros Hwf.
  - rewrite with_last_id. reflexivity.
  - unfold is_severity_change in Hwf |- * at 1.
    destruct (String.eqb (field_name c) "severity"); [|exact (IH Hwf)].
    apply Forall_cons_iff in Hwf as [[Ho Hn] _].
    rewrite (index_severity_index _ Ho), (index_severity_index _ Hn). simpl.
    replace (t >? successor_release_date) with true by lia.
    reflexivity.
Qed.


Lemma first_out_of_window_in (it : history_item) (h : list history_item) :
  out_of_window successor_release_date it = false ->
  first_out_of_window successor_release_date (it :: h)
  = first_out_of_window successor_release_date h.
Proof.
  intros H. unfold first_out_of_window. simpl. rewrite H. reflexivity.
Qed.

Lemma last_after_out (l : option Z) (it : history_item)
  (h : list history_item) :
  out_of_window successor_release_date it = true ->
  last_after successor_release_date (last_after_item l (changes it)) h
  = last_after successor_release_date l (it :: h).
Proof.
  intros H. unfold last_after, last_after_item, first_out_of_window.
  simpl. rewrite H. rewrite severity_changes_cons.
  destruct (List.filter is_severity_change (changes it)) as [|c cs]; simpl;
    [reflexivity|].
  destruct (severity_changes _) as [|[t' c'] r]; reflexivity.
Qed.

(** The walk over a history is the walk over its in-window part; the
    items after the cutoff only set [severity_index_last_processed]. *)
Lemma walk_history_cut (h : list history_item) (st : walk) (l : option Z) :
  history_wf h ->
  walk_history release_date successor_release_date h (with_last st l)
  = lift_last (last_after successor_release_date l h)
      (walk_history release_date successor_release_date
         (in_window successor_release_date h) st).
Proof.
  revert st l. induction h as [|it h IH]; intros st l Hwf.
  - reflexivity.
  - apply history_wf_cons in Hwf as [Hit Hwf].
    unfold in_window. simpl.
    destruct (out_of_window successor_release_date it) eqn:E; simpl.
    + unfold out_of_window in E.
      rewrite walk_changes_out; [|lia|exact Hit].
      simpl. rewrite with_last_twice, IH by exact Hwf.
      rewrite last_after_out by exact E. reflexivity.
    + unfold out_of_window in E.
      rewrite walk_changes_in by lia.
      unfold last_after. rewrite first_out_of_window_in by exact E.
      destruct (walk_changes _ _ (when it) (changes it) st) as [e|st']; simpl;
        [reflexivity|].
      apply IH. exact Hwf.
Qed.

End WalkFacts.

(** ** The reconstructor *)

Lemma history_wf_filter (f : history_item -> bool) (h : list history_item) :
  history_wf h -> history_wf (List.filter f h).
Proof.
  induction h as [|it h IH]; simpl; [tauto|].
  intros H. apply history_wf_cons in H as [H1 H2].
  destruct (f it); [apply history_wf_cons; split|]; auto.
Qed.

Lemma finish_last (cur : Z) (st : walk) (l : option Z) :
  finish cur (with_last st l) = finish (or_else l cur) (with_last st None).
Proof. destruct st as [p b a f l0]. reflexivity. Qed.

Lemma derive_same (i : Z) (s : string) :
  index SEVERITIES_LIST s = inr i ->
  exists g, 0 <= g <= 3 /\
    derive (Walk true (Some i) (Some i) (Some i) (Some i))
    = inr (Derived s s s g g g).
Proof.
  intros Hi. destruct (is_severity_group s (index_is_severity _ _ Hi))
    as (g & Hg & Hr).
  exists g. split; [exact Hr|].
  unfold derive. simpl. rewrite (getitem_index _ _ _ Hi). simpl.
  rewrite Hg. reflexivity.
Qed.

Section ReconstructorFacts.

Variable release_date : Z.
Variable successor_release_date : Z.

Lemma in_window_idem (h : list history_item) :
  in_window successor_release_date (in_window successor_release_date h)
  = in_window successor_release_date h.
Proof.
  unfold in_window. induction h as [|it h IH]; simpl; [reflexivity|].
  destruct (out_of_window successor_release_date it) eqn:E; simpl;
    [exact IH|]. rewrite E. simpl. f_equal. exact IH.
Qed.

Lemma out_of_in_window (h : list history_item) :
  List.filter (out_of_window successor_release_date)
              (in_window successor_release_date h) = [].
Proof.
  unfold in_window. induction h as [|it h IH]; simpl; [reflexivity|].
  destruct (out_of_window successor_release_date it) eqn:E; simpl;
    [exact IH|]. rewrite E. exact IH.
Qed.

Lemma fallback_is_severity (b : bug) :
  bug_wf b -> is_severity (fallback_severity successor_release_date b).
Proof.
  intros [Hs Hh]. unfold fallback_severity, first_out_of_window.
  apply (history_wf_filter (out_of_window successor_release_date)) in Hh.
  unfold history_wf in Hh.
  destruct (severity_changes _) as [|[t c] r]; [exact Hs|].
  apply Forall_cons_iff in Hh as [[Ho _] _]. exact Ho.
Qed.

(** The reconstructor on a record and on the record cut at the successor
    release. *)
Lemma reconstruct_cut (b : bug) :
  bug_wf b ->
  reconstruct release_date successor_release_date b
  = reconstruct release_date successor_release_date
      (truncated successor_release_date b).
Proof.
  intros Hwf. pose proof (fallback_is_severity b Hwf) as Hf.
  destruct Hwf as [Hs Hh].
  unfold reconstruct, truncated. simpl.
  rewrite (index_severity_index _ Hs), (index_severity_index _ Hf). simpl.
  change walk_init with (with_last walk_init None).
  rewrite (walk_history_cut _ _ (history b)) by exact Hh.
  rewrite (walk_history_cut _ _ (in_window _ (history b)))
    by (apply history_wf_filter; exact Hh).
  rewrite in_window_idem.
  unfold last_after at 2. unfold first_out_of_window at 1.
  rewrite out_of_in_window. simpl.
  destruct (walk_history _ _ _ walk_init) as [e|st]; simpl; [reflexivity|].
  rewrite finish_last. f_equal. f_equal.
  unfold last_after, fallback_severity.
  destruct (first_out_of_window _ _); reflexivity.
Qed.

(** A record without severity changes. *)
Lemma reconstruct_none (b : bug) :
  is_severity (severity b) ->
  severity_changes (history b) = [] ->
  exists g, 0 <= g <= 3 /\
    reconstruct release_date successor_release_date b
    = inr (Derived (severity b) (severity b) (severity b) g g g).
Proof.
  intros Hs Hn. destruct (is_severity_index _ Hs) as [i Hi].
  unfold reconstruct. rewrite Hi. simpl.
  rewrite walk_history_none by exact Hn. simpl.
  apply derive_same. exact Hi.
Qed.

(** When every severity change lies after the cutoff, none is left in
    the window and the first of them is the first out-of-window change. *)
Lemma all_out_of_window (h : list history_item) :
  Forall (fun tc => fst tc > successor_release_date) (severity_changes h) ->
  severity_changes (in_window successor_release_date h) = []
  /\ severity_changes (List.filter (out_of_window successor_release_date) h)
     = severity_changes h.
Proof.
  unfold in_window. induction h as [|it h IH]; [split; reflexivity|].
  rewrite severity_changes_cons, Forall_app, Forall_map. intros [H1 H2].
  destruct (IH H2) as [IH1 IH2]. cbn [List.filter].
  destruct (out_of_window successor_release_date it) eqn:E; cbn [negb].
  - rewrite severity_changes_cons, IH2. split; [exact IH1|reflexivity].
  - rewrite severity_changes_cons, IH1, IH2.
    destruct (List.filter is_severity_change (changes it)) as [|c cs];
      [split; reflexivity|].
    apply Forall_cons_iff in H1 as [H1 _]. simpl in H1.
    unfold out_of_window in E. lia.
Qed.

(** C7.  A bug whose history holds no severity change gets its current
    severity as severity before release, at release and after release;
    the current severity is a member of the enumeration. *)
Theorem no_change_gives_current_severity (b : bug) :
  is_severity (severity b) ->
  severity_changes (history b) = [] ->
  exists d, reconstruct release_date successor_release_date b = inr d
    /\ sev_before_release d = severity b
    /\ sev_at_release d = severity b
    /\ sev_after_release d = severity b.
Proof.
  intros Hs Hn. destruct (reconstruct_none b Hs Hn) as (g & _ & Hr).
  eexists. split; [exact Hr|]. simpl. auto.
Qed.

(** C6.  When the history holds severity changes and all of them are
    timestamped after the successor release, the three derived severities
    are the old value of the first of these changes. *)
Theorem all_changes_after_cutoff (b : bug) (t : Z) (c : change)
  (rest : list (Z * change)) :
  bug_wf b ->
  severity_changes (history b) = (t, c) :: rest ->
  Forall (fun tc => fst tc > successor_release_date)
         (severity_changes (history b)) ->
  exists d, reconstruct release_date successor_release_date b = inr d
    /\ sev_before_release d = removed c
    /\ sev_at_release d = removed c
    /\ sev_after_release d = removed c.
Proof.
  intros Hwf Hc Hall. rewrite (reconstruct_cut b Hwf).
  destruct (all_out_of_window _ Hall) as [Hin Hout].
  pose proof (fallback_is_severity b Hwf) as Hf.
  assert (Hfb : fallback_severity successor_release_date b = removed c).
  { unfold fallback_severity, first_out_of_window. rewrite Hout, Hc.
    reflexivity. }
  destruct (reconstruct_none (truncated successor_release_date b))
    as (g & _ & Hr); [exact Hf|exact Hin|].
  eexists. split; [exact Hr|]. simpl. auto.
Qed.

Lemma in_window_until_cutoff (h : list history_item) :
  chronological h ->
  in_window successor_release_date h = until_cutoff successor_release_date h.
Proof.
  unfold in_window. induction h as [|it h IH]; simpl; [reflexivity|].
  intros [Hle Hc]. destruct (out_of_window successor_release_date it) eqn:E;
    simpl; [|f_equal; exact (IH Hc)].
  clear IH Hc. induction h as [|it' h IH]; simpl; [reflexivity|].
  apply Forall_cons_iff in Hle as [H1 H2].
  replace (out_of_window successor_release_date it') with true
    by (unfold out_of_window in *; lia).
  simpl. exact (IH H2).
Qed.

(** C2.  The severity changes after the successor release contribute to
    none of the derived values: the reconstructor returns on a record what
    it returns on the record cut at the cutoff, in which no such change is
    left and the old value of the first of them stands for the current
    severity.  The items that follow an out-of-window item are still
    walked, so the cut removes the out-of-window items wherever they are;
    in a history in order of time this is the cut at the first of them. *)
Theorem changes_after_cutoff_do_not_contribute (b : bug) :
  bug_wf b ->
  reconstruct release_date successor_release_date b
  = reconstruct release_date successor_release_date
      (with_history b (in_window successor_release_date (history b))
                    (fallback_severity successor_release_date b))
  /\ (chronological (history b) ->
      in_window successor_release_date (history b)
      = until_cutoff successor_release_date (history b)).
Proof.
  intros Hwf. split; [exact (reconstruct_cut b Hwf)|].
  apply in_window_until_cutoff.
Qed.

(** *** Changes before and at the release *)

Lemma process_change_pre (t old new : Z) (st : walk) :
  t <= release_date ->
  pre_release_phase st = true ->
  process_change release_date t old new st
  = inr (Walk true
           (Some (Z.max (or_else (severity_highest_index_before_release st) old)
                        new))
           (severity_index_at_release st)
           (severity_highest_index_after_release st)
           (severity_index_last_processed st)).
Proof.
  intros Ht Hp. destruct st as [p b a f l]. simpl in Hp. subst p.
  unfold process_change. simpl.
  replace (t >? release_date) with false by lia. reflexivity.
Qed.

Lemma walk_changes_app (t : Z) (cs1 cs2 : list change) (st : walk) :
  t <= successor_release_date ->
  walk_changes release_date successor_release_date t (cs1 ++ cs2) st
  = bind (walk_changes release_date successor_release_date t cs1 st)
         (walk_changes release_date successor_release_date t cs2).
Proof.
  intros Ht. revert st. induction cs1 as [|c cs1 IH]; intros st; simpl;
    [reflexivity|].
  destruct (String.eqb (field_name c) "severity"); [|apply IH].
  destruct (index SEVERITIES_LIST (removed c)) as [e|old]; simpl;
    [reflexivity|].
  destruct (index SEVERITIES_LIST (added c)) as [e|new]; simpl; [reflexivity|].
  replace (t >? successor_release_date) with false by lia.
  destruct (process_change release_date t old new st) as [e|st']; simpl;
    [reflexivity|apply IH].
Qed.

Lemma walk_changes_severity (t : Z) (c : change) (cs : list change)
  (st : walk) :
  t <= successor_release_date ->
  is_severity_change c = true ->
  change_wf c ->
  walk_changes release_date successor_release_date t (c :: cs) st
  = bind (process_change release_date t (severity_index (removed c))
                         (severity_index (added c)) st)
         (walk_changes release_date successor_release_date t cs).
Proof.
  intros Ht Hc [Ho Hn]. simpl. unfold is_severity_change in Hc. rewrite Hc.
  rewrite (index_severity_index _ Ho), (index_severity_index _ Hn). simpl.
  replace (t >? successor_release_date) with false by lia. reflexivity.
Qed.


Lemma walk_changes_pre (t : Z) (cs : list change) (st : walk) :
  t <= release_date -> release_date <= successor_release_date ->
  Forall change_wf (List.filter is_severity_change cs) ->
  before_crossing st ->
  exists st', walk_changes release_date successor_release_date t cs st = inr st'
    /\ before_crossing st'.
Proof.
  intros Ht Hrs. revert st. induction cs as [|c cs IH]; intros st Hwf Hst.
  - exists st. split; [reflexivity|exact Hst].
  - simpl in Hwf. destruct (is_severity_change c) eqn:Hc.
    + apply Forall_cons_iff in Hwf as [Hcw Hwf].
      rewrite walk_changes_severity by (lia || assumption).
      rewrite process_change_pre by (lia || apply Hst). simpl.
      apply IH; [exact Hwf|]. destruct Hst as (_ & Ha & Hf).
      repeat split; assumption.
    + simpl. unfold is_severity_change in Hc. rewrite Hc. apply IH; assumption.
Qed.

Lemma walk_history_pre (h : list history_item) (st : walk) :
  release_date <= successor_release_date ->
  Forall (fun it => when it <= release_date) h ->
  history_wf h ->
  before_crossing st ->
  exists st', walk_history release_date successor_release_date h st = inr st'
    /\ before_crossing st'.
Proof.
  intros Hrs. revert st. induction h as [|it h IH]; intros st Ht Hwf Hst.
  - exists st. split; [reflexivity|exact Hst].
  - apply Forall_cons_iff in Ht as [Ht1 Ht2].
    apply history_wf_cons in Hwf as [Hw1 Hw2].
    destruct (walk_changes_pre (when it) (changes it) st) as (st1 & H1 & Hb);
      try assumption.
    simpl. rewrite H1. simpl. apply IH; assumption.
Qed.

Lemma filter_severity_app (cs1 cs2 : list change) :
  List.filter is_severity_change (cs1 ++ cs2)
  = List.filter is_severity_change cs1 ++ List.filter is_severity_change cs2.
Proof. apply List.filter_app. Qed.

(** C5.  A severity change timestamped exactly at the release is handled
    as a pre-release change.  In the walk over a history whose earlier
    items are not later than the release, the change [c] is met in a state
    [st] that has not crossed the release; processing it keeps the walk in
    the pre-release phase, takes no at-release snapshot, and sets the
    running maximum before release to the maximum of its seed and the new
    value of [c].  The walk over the whole history continues from that
    state. *)
Theorem change_at_release_is_pre_release
  (pre : list history_item) (cs : list change) (c : change)
  (cs' : list change) (post : list history_item) :
  release_date <= successor_release_date ->
  Forall (fun it => when it <= release_date) pre ->
  history_wf (pre ++ [HistoryItem release_date (cs ++ [c])]) ->
  is_severity_change c = true ->
  exists st st',
    walk_history release_date successor_release_date
      (pre ++ [HistoryItem release_date cs]) walk_init = inr st
    /\ process_change release_date release_date
         (severity_index (removed c)) (severity_index (added c)) st = inr st'
    /\ pre_release_phase st' = true
    /\ severity_index_at_release st' = None
    /\ severity_highest_index_after_release st' = None
    /\ severity_highest_index_before_release st'
       = Some (Z.max (or_else (severity_highest_index_before_release st)
                              (severity_index (removed c)))
                     (severity_index (added c)))
    /\ walk_history release_date successor_release_date
         (pre ++ HistoryItem release_date (cs ++ c :: cs') :: post) walk_init
       = bind (walk_changes release_date successor_release_date
                 release_date cs' st')
              (walk_history release_date successor_release_date post).
Proof.
  intros Hrs Hpre Hwf Hc.
  apply history_wf_app in Hwf as [Hw1 Hw2].
  apply history_wf_cons in Hw2 as [Hw2 _]. simpl in Hw2.
  rewrite filter_severity_app, Forall_app in Hw2. destruct Hw2 as [Hcs Hcw].
  simpl in Hcw. rewrite Hc in Hcw. apply Forall_cons_iff in Hcw as [Hcw _].
  destruct (walk_history_pre pre walk_init) as (st0 & H0 & Hb0);
    [assumption..|repeat split|].
  destruct (walk_changes_pre release_date cs st0) as (st & H1 & Hb);
    [lia|assumption..|].
  pose proof Hb as (Hp & Ha & Hf).
  eexists st, _. split; [|split; [apply process_change_pre; [lia|exact Hp]|]].
  - rewrite walk_history_app, H0. simpl. rewrite H1. reflexivity.
  - simpl. repeat split; try assumption.
    rewrite walk_history_app, H0. cbn [bind walk_history when changes].
    rewrite walk_changes_app, H1 by lia. cbn [bind].
    rewrite walk_changes_severity by (lia || assumption).
    rewrite process_change_pre by (lia || exact Hp). cbn [bind].
    rewrite Ha, Hf. reflexivity.
Qed.

(** *** A first change after the release *)

Lemma walk_changes_first_after (t : Z) (cs cs0 : list change) (c : change)
  (st : walk) :
  List.filter is_severity_change cs = c :: cs0 ->
  change_wf c ->
  t <= successor_release_date -> t > release_date ->
  pre_release_phase st = true ->
  severity_highest_index_before_release st = None ->
  walk_changes release_date successor_release_date t cs st = inl TypeError.
Proof.
  intros Hf Hw Hts Htr Hp Hb. induction cs as [|c1 cs IH]; [discriminate|].
  simpl in Hf. destruct (is_severity_change c1) eqn:Hc1.
  - injection Hf as -> _. rewrite walk_changes_severity by (lia || assumption).
    unfold process_change. rewrite Hp, Hb.
    replace (t >? release_date) with true by lia. reflexivity.
  - simpl. unfold is_severity_change in Hc1. rewrite Hc1. exact (IH Hf).
Qed.

Lemma walk_history_first_after (h : list history_item) (t : Z) (c : change)
  (rest : list (Z * change)) (st : walk) :
  Forall (fun it => when it <= successor_release_date) h ->
  severity_changes h = (t, c) :: rest ->
  change_wf c ->
  t > release_date ->
  pre_release_phase st = true ->
  severity_highest_index_before_release st = None ->
  walk_history release_date successor_release_date h st = inl TypeError.
Proof.
  intros Hin Hsc Hw Ht Hp Hb. induction h as [|it h IH]; [discriminate|].
  apply Forall_cons_iff in Hin as [Hi1 Hi2].
  rewrite severity_changes_cons in Hsc. simpl.
  destruct (List.filter is_severity_change (changes it)) as [|c0 cs0] eqn:Hf.
  - rewrite walk_changes_none by exact Hf. simpl in *. apply IH; assumption.
  - simpl in Hsc. injection Hsc as <- -> _.
    rewrite (walk_changes_first_after _ _ _ _ _ Hf) by (lia || assumption).
    reflexivity.
Qed.

Lemma in_window_when (h : list history_item) :
  Forall (fun it => when it <= successor_release_date)
         (in_window successor_release_date h).
Proof.
  unfold in_window. induction h as [|it h IH]; simpl; [constructor|].
  destruct (out_of_window successor_release_date it) eqn:E; simpl;
    [exact IH|].
  constructor; [unfold out_of_window in E; lia|exact IH].
Qed.

(** C1.  A bug whose first severity change inside the window is
    timestamped after the release: the severity before release should be
    the old value of that change.  Line 145 takes the maximum of [None] and
    the old index instead, and the reconstructor raises [TypeError]. *)
Theorem first_change_after_release_raises (b : bug) (t : Z) (c : change)
  (rest : list (Z * change)) :
  bug_wf b ->
  severity_changes (in_window successor_release_date (history b))
  = (t, c) :: rest ->
  t > release_date ->
  reconstruct release_date successor_release_date b = inl TypeError.
Proof.
  intros Hwf Hc Ht. rewrite (reconstruct_cut b Hwf).
  pose proof (fallback_is_severity b Hwf) as Hf.
  unfold reconstruct, truncated. simpl.
  rewrite (index_severity_index _ Hf). simpl.
  rewrite (walk_history_first_after _ t c rest); try reflexivity;
    try assumption.
  - apply in_window_when.
  - destruct Hwf as [_ Hh].
    apply (history_wf_filter
             (fun it => negb (out_of_window successor_release_date it))) in Hh.
    unfold history_wf, in_window in *. rewrite Hc in Hh.
    apply Forall_cons_iff in Hh as [Hh _]. exact Hh.
Qed.

End ReconstructorFacts.

(** ** The aggregate table *)


Lemma insert_as_alter {V} (f : V -> V) (k : string) (v : V)
  (m : gmap string V) :
  m !! k = Some v -> <[k := f v]> m = alter f k m.
Proof.
  intros H. apply map_eq. intros k'. rewrite lookup_insert, lookup_alter.
  destruct (decide (k = k')) as [<-|]; [rewrite H|]; reflexivity.
Qed.

Lemma increment_cell (tbl : gmap string (gmap string Z)) (g t : string) :
  increment tbl g t
  = match cell tbl g t with
    | Some _ => inr (bumped g t tbl)
    | None => inl KeyError
    end.
Proof.
  unfold increment, cell, subscript, bumped.
  destruct (tbl !! g) as [r|] eqn:Hr; simpl; [|reflexivity].
  destruct (r !! t) as [n|] eqn:Hn; simpl; [|reflexivity].
  unfold ret. f_equal.
  rewrite (insert_as_alter (fun n => n + 1) t n r Hn).
  apply (insert_as_alter (alter (fun n => n + 1) t) g r tbl Hr).
Qed.

Lemma cell_bumped (tbl : gmap string (gmap string Z)) (g t g' t' : string) :
  cell (bumped g t tbl) g' t'
  = if decide ((g', t') = (g, t))
    then (fun n => n + 1) <$> cell tbl g t
    else cell tbl g' t'.
Proof.
  unfold cell, bumped. rewrite lookup_alter.
  destruct (decide (g = g')) as [<-|Hg].
  - destruct (tbl !! g) as [r|]; simpl.
    + rewrite lookup_alter. destruct (decide (t = t')) as [<-|Ht].
      * rewrite decide_True by reflexivity. reflexivity.
      * rewrite decide_False by congruence. reflexivity.
    + destruct (decide _); reflexivity.
  - rewrite decide_False by congruence. reflexivity.
Qed.

(** Incrementing a cell neither creates nor removes a cell. *)
Lemma cell_bumped_some (tbl : gmap string (gmap string Z))
  (g t g' t' : string) :
  cell (bumped g t tbl) g' t' = None <-> cell tbl g' t' = None.
Proof.
  rewrite cell_bumped. destruct (decide _) as [[= -> ->]|]; [|reflexivity].
  destruct (cell tbl g t); simpl; split; congruence.
Qed.

Lemma alter_swap (t1 t2 : string) (r : gmap string Z) :
  alter (fun n => n + 1) t1 (alter (fun n => n + 1) t2 r)
  = alter (fun n => n + 1) t2 (alter (fun n => n + 1) t1 r).
Proof.
  destruct (decide (t1 = t2)) as [->|Hne]; [reflexivity|].
  apply alter_alter_ne. exact Hne.
Qed.

(** Two increments commute. *)
Lemma bumped_comm (tbl : gmap string (gmap string Z)) (g1 t1 g2 t2 : string) :
  bumped g1 t1 (bumped g2 t2 tbl) = bumped g2 t2 (bumped g1 t1 tbl).
Proof.
  unfold bumped. destruct (decide (g1 = g2)) as [->|Hne].
  - rewrite !alter_alter_eq. apply alter_ext. intros r _. simpl.
    apply alter_swap.
  - apply alter_alter_ne. exact Hne.
Qed.

(** ** The cache document *)

Lemma child_set_child (k k' : string) (n : node) (cs : list (string * node)) :
  child k' (set_child k n cs)
  = if String.eqb k k' then Some n else child k' cs.
Proof.
  induction cs as [|[k0 n0] cs IH]; simpl.
  - destruct (String.eqb k k'); reflexivity.
  - destruct (String.eqb k0 k) eqn:E0; simpl.
    + apply String.eqb_eq in E0 as ->. destruct (String.eqb k k'); reflexivity.
    + destruct (String.eqb k0 k') eqn:E1; [|exact IH].
      apply String.eqb_eq in E1 as ->. rewrite String.eqb_sym, E0. reflexivity.
Qed.

(** In a document that only the handler wrote to, saving returns. *)
Lemma save_returns (phase : string) (b : bug) (n : node) :
  save_ok n ->
  exists n', add_bugzilla_data_to_save ["opened"; phase] b n = inr n'
    /\ save_ok n'.
Proof.
  intros Hok. destruct n as [d cs]. unfold save_ok in Hok. simpl in *.
  destruct (child "opened" cs) as [[d1 cs1]|] eqn:H1.
  - destruct (Hok _ eq_refl) as [Hd1 Hc1]. simpl in *.
    destruct (child phase cs1) as [[d2 cs2]|] eqn:H2; simpl.
    + pose proof (Hc1 _ _ H2) as Hd2. simpl in Hd2.
      destruct d2 as [l|]; [|congruence]. simpl.
      eexists. split; [reflexivity|]. intros c. simpl.
      rewrite child_set_child, String.eqb_refl. intros [= <-]. simpl.
      split; [exact Hd1|]. intros p c'. rewrite child_set_child.
      destruct (String.eqb phase p); [intros [= <-]; discriminate|].
      apply Hc1.
    + eexists. split; [reflexivity|]. intros c. simpl.
      rewrite child_set_child, String.eqb_refl. intros [= <-]. simpl.
      split; [exact Hd1|]. intros p c'. rewrite child_set_child.
      destruct (String.eqb phase p); [intros [= <-]; discriminate|].
      apply Hc1.
  - simpl. eexists. split; [reflexivity|]. intros c. simpl.
    rewrite child_set_child, String.eqb_refl. intros [= <-]. simpl.
    split; [discriminate|]. intros p c'. simpl.
    destruct (String.eqb phase p); [intros [= <-]; discriminate|discriminate].
Qed.

Lemma save_ok_empty : save_ok empty_node.
Proof. intros c. simpl. discriminate. Qed.

(** ** The handler *)

Lemma same_report_refl (s : store) : same_report s s.
Proof. repeat split; reflexivity. Qed.

Lemma agree_refl (r : py store) : agree r r.
Proof. destruct r; simpl; [exact I|apply same_report_refl]. Qed.

Lemma agree_sym (r1 r2 : py store) : agree r1 r2 -> agree r2 r1.
Proof.
  destruct r1, r2; simpl; try tauto.
  intros (H1 & H2 & H3). repeat split; symmetry; assumption.
Qed.

Lemma agree_trans (r1 r2 r3 : py store) :
  agree r1 r2 -> agree r2 r3 -> agree r1 r3.
Proof.
  destruct r1, r2, r3; simpl; try tauto.
  intros (H1 & H2 & H3) (K1 & K2 & K3).
  repeat split; etransitivity; eassumption.
Qed.

Lemma append_if_swap (c1 c2 : bool) (l1 l2 : list flagged) (x y : flagged) :
  Permutation l1 l2 ->
  Permutation (append_if c2 (append_if c1 l1 x) y)
              (append_if c1 (append_if c2 l2 y) x).
Proof.
  intros H. destruct c1, c2; simpl; try exact H.
  - rewrite <- !app_assoc. apply Permutation_app; [exact H|]. simpl.
    apply perm_swap.
  - apply Permutation_app; [exact H|reflexivity].
  - apply Permutation_app; [exact H|reflexivity].
Qed.

Lemma append_if_perm (c : bool) (l1 l2 : list flagged) (x : flagged) :
  Permutation l1 l2 -> Permutation (append_if c l1 x) (append_if c l2 x).
Proof.
  intros H. destruct c; simpl; [|exact H].
  apply Permutation_app; [exact H|reflexivity].
Qed.

Section HandlerFacts.

Variable release_date : Z.
Variable successor_release_date : Z.
Variable bzdata_save_path : option string.

Local Abbreviation effect_of := (effect release_date successor_release_date).
Local Abbreviation count := (count_bug release_date successor_release_date).
Local Abbreviation count_list :=
  (count_all release_date successor_release_date).

Lemma record_bug_cell (b : bug) (d : derived) (saved : node) (s : store) :
  record_bug b d saved s
  = match sev_group_highest d with
    | inl e => inl e
    | inr g =>
      match cell (data_opened s) g (week_key b) with
      | None => inl KeyError
      | Some _ =>
        inr (Store (bumped g (week_key b) (data_opened s))
               (append_if (lowered_then_raised d) (sev_lowered_and_increased s)
                          (flagged_of b))
               (append_if (raised_after_release d)
                          (sev_increased_after_release s) (flagged_of b))
               saved)
      end
    end.
Proof.
  unfold record_bug. destruct (sev_group_highest d) as [e|g]; simpl;
    [reflexivity|].
  rewrite increment_cell. destruct (cell _ _ _); reflexivity.
Qed.

Lemma count_bug_effect (b : bug) (s : store) :
  count b s
  = match effect_of b with
    | inl e => inl e
    | inr (g, l, i) =>
      match cell (data_opened s) g (week_key b) with
      | None => inl KeyError
      | Some _ =>
        inr (Store (bumped g (week_key b) (data_opened s))
               (append_if l (sev_lowered_and_increased s) (flagged_of b))
               (append_if i (sev_increased_after_release s) (flagged_of b))
               (bugzilla_data_to_save s))
      end
    end.
Proof.
  unfold count_bug, effect.
  destruct (reconstruct _ _ b) as [e|d]; simpl; [reflexivity|].
  rewrite record_bug_cell.
  destruct (sev_group_highest d); reflexivity.
Qed.

(** The live handler does to the report what [count_bug] does. *)
Lemma bug_handler_count (b : bug) (phase : string) (s : store) :
  saving_ok bzdata_save_path s ->
  exists saved,
    (truthy bzdata_save_path = true -> save_ok saved)
    /\ bug_handler release_date successor_release_date bzdata_save_path
         b (BugData phase) s
       = bind (reconstruct release_date successor_release_date b)
              (fun d => record_bug b d saved s).
Proof.
  intros Hok. unfold bug_handler.
  destruct (truthy bzdata_save_path) eqn:E.
  - destruct (save_returns phase b _ (Hok E)) as (n' & Hn & Hok').
    rewrite Hn. exists n'. split; [intros _; exact Hok'|reflexivity].
  - exists (bugzilla_data_to_save s). split; [discriminate|reflexivity].
Qed.

Lemma bug_handler_agree (b : bug) (phase : string) (s1 s2 : store) :
  saving_ok bzdata_save_path s1 -> same_report s1 s2 ->
  agree (bug_handler release_date successor_release_date bzdata_save_path
           b (BugData phase) s1)
        (count b s2)
  /\ forall s1', bug_handler release_date successor_release_date
                   bzdata_save_path b (BugData phase) s1 = inr s1' ->
                 saving_ok bzdata_save_path s1'.
Proof.
  intros Hok (Ht & Hl & Hi).
  destruct (bug_handler_count b phase s1 Hok) as (saved & Hs & ->).
  unfold count_bug.
  destruct (reconstruct _ _ b) as [e|d]; simpl;
    [split; [exact I|discriminate]|].
  rewrite !record_bug_cell, <- Ht.
  destruct (sev_group_highest d) as [e|g]; [split; [exact I|discriminate]|].
  destruct (cell _ _ _); [|split; [exact I|discriminate]].
  split.
  - repeat split; simpl; [apply append_if_perm; exact Hl
                         |apply append_if_perm; exact Hi].
  - intros s1' [= <-]. exact Hs.
Qed.

Lemma count_bug_agree (b : bug) (s1 s2 : store) :
  same_report s1 s2 -> agree (count b s1) (count b s2).
Proof.
  intros (Ht & Hl & Hi). rewrite !count_bug_effect, <- Ht.
  destruct (effect_of b) as [e|[[g l] i]]; [exact I|].
  destruct (cell _ _ _); [|exact I].
  repeat split; simpl; apply append_if_perm; assumption.
Qed.

Lemma count_bug_swap (a b : bug) (s1 s2 : store) :
  same_report s1 s2 ->
  agree (bind (count a s1) (count b))
        (bind (count b s2) (count a)).
Proof.
  intros (Ht & Hl & Hi).
  rewrite (count_bug_effect a s1), (count_bug_effect b s2), <- Ht.
  destruct (effect_of a) as [ea|[[ga la] ia]] eqn:Ea;
    destruct (effect_of b) as [eb|[[gb lb] ib]] eqn:Eb; simpl.
  - exact I.
  - destruct (cell _ gb _); simpl; [|exact I].
    rewrite count_bug_effect, Ea. exact I.
  - destruct (cell _ ga _); simpl; [|exact I].
    rewrite count_bug_effect, Eb. exact I.
  - destruct (cell (data_opened s1) ga (week_key a)) as [na|] eqn:Ca;
      destruct (cell (data_opened s1) gb (week_key b)) as [nb|] eqn:Cb; simpl;
      rewrite ?count_bug_effect, ?Ea, ?Eb; simpl; try exact I.
    + destruct (cell (bumped ga _ _) gb _) eqn:C1;
        [|apply cell_bumped_some in C1; congruence].
      destruct (cell (bumped gb _ _) ga _) eqn:C2;
        [|apply cell_bumped_some in C2; congruence].
      repeat split; simpl;
        [apply bumped_comm|apply append_if_swap; exact Hl
        |apply append_if_swap; exact Hi].
    + destruct (cell (bumped ga _ _) gb _) eqn:C1; [|exact I].
      assert (cell (data_opened s1) gb (week_key b) <> None) as Hn
        by (rewrite <- cell_bumped_some, C1; discriminate).
      congruence.
    + destruct (cell (bumped gb _ _) ga _) eqn:C2; [|exact I].
      assert (cell (data_opened s1) ga (week_key a) <> None) as Hn
        by (rewrite <- cell_bumped_some, C2; discriminate).
      congruence.
Qed.

Lemma count_all_agree (l : list bug) (s1 s2 : store) :
  same_report s1 s2 -> agree (count_list l s1) (count_list l s2).
Proof.
  revert s1 s2. induction l as [|b l IH]; intros s1 s2 H; simpl; [exact H|].
  pose proof (count_bug_agree b s1 s2 H) as Hb.
  destruct (count b s1), (count b s2); simpl in *; try tauto.
  apply IH. exact Hb.
Qed.

(** The report does not depend on the order in which bugs are counted. *)
Lemma count_all_perm (l1 l2 : list bug) :
  Permutation l1 l2 ->
  forall s1 s2, same_report s1 s2 ->
    agree (count_list l1 s1) (count_list l2 s2).
Proof.
  induction 1 as [|x l1 l2 _ IH|x y l|l1 l2 l3 _ IH1 _ IH2]; intros s1 s2 Hs.
  - exact Hs.
  - simpl. pose proof (count_bug_agree x s1 s2 Hs) as Hx.
    destruct (count x s1), (count x s2); simpl in *; try tauto.
    apply IH. exact Hx.
  - pose proof (count_bug_swap y x s1 s2 Hs) as Hxy. simpl.
    destruct (count y s1) as [e1|s1']; simpl in *.
    + destruct (count x s2) as [e2|s2']; simpl in *; [exact I|].
      destruct (count y s2'); simpl in *; tauto.
    + destruct (count x s1') as [e1|s1'']; simpl in *.
      * destruct (count x s2) as [e2|s2']; simpl in *; [exact I|].
        destruct (count y s2'); simpl in *; tauto.
      * destruct (count x s2) as [e2|s2']; simpl in *; [tauto|].
        destruct (count y s2') as [e2|s2'']; simpl in *; [tauto|].
        apply count_all_agree. exact Hxy.
  - eapply agree_trans;
      [apply IH1; exact Hs|apply IH2; apply same_report_refl].
Qed.

Lemma count_all_app (l1 l2 : list bug) (s : store) :
  count_list (l1 ++ l2) s = bind (count_list l1 s) (count_list l2).
Proof.
  revert s. induction l1 as [|b l1 IH]; intros s; simpl; [reflexivity|].
  destruct (count b s); simpl; [reflexivity|apply IH].
Qed.

Lemma handle_all_agree (l : list bug) (phase : string) (s1 s2 : store) :
  saving_ok bzdata_save_path s1 -> same_report s1 s2 ->
  agree (handle_all release_date successor_release_date bzdata_save_path
           l (BugData phase) s1)
        (count_list l s2)
  /\ forall s1', handle_all release_date successor_release_date
                   bzdata_save_path l (BugData phase) s1 = inr s1' ->
                 saving_ok bzdata_save_path s1'.
Proof.
  revert s1 s2. induction l as [|b l IH]; intros s1 s2 Hok Hs;
    cbn [handle_all count_all].
  - split; [exact Hs|]. intros s1' [= <-]. exact Hok.
  - destruct (bug_handler_agree b phase s1 s2 Hok Hs) as [Ha Hk].
    destruct (bug_handler _ _ _ b _ s1) as [e|s1'],
      (count b s2) as [e'|s2'];
      simpl in *; try tauto; try (split; [exact I|discriminate]).
    apply IH; [apply Hk; reflexivity|exact Ha].
Qed.

Lemma handle_queries_agree (queries : list (string * list bug))
  (s1 s2 : store) :
  saving_ok bzdata_save_path s1 -> same_report s1 s2 ->
  agree (handle_queries release_date successor_release_date bzdata_save_path
           queries s1)
        (count_list (concat (map snd queries)) s2).
Proof.
  revert s1 s2. induction queries as [|[phase bugs] qs IH];
    intros s1 s2 Hok Hs; cbn [handle_queries map concat snd]; [exact Hs|].
  rewrite count_all_app.
  destruct (handle_all_agree bugs phase s1 s2 Hok Hs) as [Ha Hk].
  destruct (handle_all _ _ _ bugs _ s1) as [e|s1'],
    (count_list bugs s2) as [e'|s2'];
    simpl in *; try tauto.
  apply IH; [apply Hk; reflexivity|exact Ha].
Qed.

(** C8.  Feeding the sub-window batches one after another through the
    handler gives the same table and, as multisets, the same flagged bugs
    as feeding all their records as one batch; if one of the two runs
    raises, so does the other. *)
Theorem partition_invariance (queries : list (string * list bug))
  (phase : string) (whole : list bug) (s : store) :
  saving_ok bzdata_save_path s ->
  Permutation (concat (map snd queries)) whole ->
  agree (handle_queries release_date successor_release_date bzdata_save_path
           queries s)
        (handle_all release_date successor_release_date bzdata_save_path
           whole (BugData phase) s).
Proof.
  intros Hok Hp.
  eapply agree_trans;
    [apply handle_queries_agree; [exact Hok|apply same_report_refl]|].
  eapply agree_trans; [apply (count_all_perm _ _ Hp), same_report_refl|].
  apply agree_sym.
  apply (handle_all_agree whole phase s s Hok (same_report_refl s)).
Qed.

Lemma reconstruct_groups (b : bug) (d : derived) :
  reconstruct release_date successor_release_date b = inr d ->
  group_index (sev_before_release d) = inr (sev_group_before_release d)
  /\ group_index (sev_at_release d) = inr (sev_group_at_release d)
  /\ group_index (sev_after_release d) = inr (sev_group_after_release d).
Proof.
  unfold reconstruct. intros H.
  apply bind_inr_inv in H as (cur & _ & H).
  apply bind_inr_inv in H as (st & _ & H).
  unfold derive in H.
  apply bind_inr_inv in H as (x & _ & H).
  apply bind_inr_inv in H as (y & _ & H).
  apply bind_inr_inv in H as (z & _ & H).
  apply bind_inr_inv in H as (gx & Hx & H).
  apply bind_inr_inv in H as (gy & Hy & H).
  apply bind_inr_inv in H as (gz & Hz & H).
  injection H as <-. simpl. auto.
Qed.

(** What a call of the live handler that returns has done. *)
Lemma bug_handler_inv (b : bug) (phase : string) (s s' : store) :
  bug_handler release_date successor_release_date bzdata_save_path
    b (BugData phase) s = inr s' ->
  exists d g n,
    reconstruct release_date successor_release_date b = inr d
    /\ sev_group_highest d = inr g
    /\ cell (data_opened s) g (week_key b) = Some n
    /\ data_opened s' = bumped g (week_key b) (data_opened s)
    /\ sev_lowered_and_increased s'
       = append_if (lowered_then_raised d) (sev_lowered_and_increased s)
                   (flagged_of b)
    /\ sev_increased_after_release s'
       = append_if (raised_after_release d) (sev_increased_after_release s)
                   (flagged_of b).
Proof.
  unfold bug_handler. intros H.
  apply bind_inr_inv in H as (saved & _ & H).
  apply bind_inr_inv in H as (d & Hd & H).
  rewrite record_bug_cell in H.
  destruct (sev_group_highest d) as [e|g] eqn:Hg; [discriminate|].
  destruct (cell (data_opened s) g (week_key b)) as [n|] eqn:Hc;
    [|discriminate].
  injection H as <-. exists d, g, n. simpl. auto 10.
Qed.

(** Handed the table as [other_data], the handler never returns. *)
Lemma bug_handler_table_raises (b : bug) (s : store) :
  returns (bug_handler release_date successor_release_date bzdata_save_path
             b DataOpened s) = false.
Proof.
  unfold bug_handler.
  destruct (subscript (data_opened s) "data_opened") as [e|r]; [reflexivity|].
  destruct (subscript (data_opened s) "phase") as [e|r']; [reflexivity|].
  cbn [bind]. destruct (truthy bzdata_save_path); [reflexivity|].
  destruct (reconstruct _ _ b) as [e|d]; [reflexivity|]. cbn [bind].
  destruct (sev_group_highest d) as [e|g]; [reflexivity|]. cbn [bind].
  destruct (subscript r g); reflexivity.
Qed.

(** C3.  A call of the handler that returns has incremented exactly one
    cell of the table, by one: the cell of the group that is the maximum,
    in the order of the four groups, of the groups of the severity before
    and after release, and of the ISO year-week key of the creation time.
    Every other cell is as it was. *)
Theorem one_cell_incremented (b : bug) (other : other_data) (s s' : store) :
  bug_handler release_date successor_release_date bzdata_save_path
    b other s = inr s' ->
  exists d g n,
    reconstruct release_date successor_release_date b = inr d
    /\ group_index (sev_before_release d) = inr (sev_group_before_release d)
    /\ group_index (sev_after_release d) = inr (sev_group_after_release d)
    /\ getitem SEVERITIES_GROUP_LIST
         (Z.max (sev_group_before_release d) (sev_group_after_release d))
       = inr g
    /\ (let '(y, w, _) := isocalendar (creation_time b) in
        week_key b = WFMT_format y w)
    /\ cell (data_opened s) g (week_key b) = Some n
    /\ cell (data_opened s') g (week_key b) = Some (n + 1)
    /\ forall g' w', (g', w') <> (g, week_key b) ->
         cell (data_opened s') g' w' = cell (data_opened s) g' w'.
Proof.
  intros H. destruct other as [phase|].
  2: { pose proof (bug_handler_table_raises b s) as Hr. rewrite H in Hr.
       discriminate. }
  apply bug_handler_inv in H as (d & g & n & Hd & Hg & Hc & Ht & _).
  destruct (reconstruct_groups b d Hd) as (Hb & _ & Hf).
  exists d, g, n. repeat split; try assumption.
  - unfold week_key. destruct (isocalendar (creation_time b)) as [[y w] wd].
    reflexivity.
  - rewrite Ht, cell_bumped, decide_True, Hc by reflexivity. reflexivity.
  - intros g' w' Hne. rewrite Ht, cell_bumped, decide_False by exact Hne.
    reflexivity.
Qed.

End HandlerFacts.

(** ** The scenario of a severity lowered before and raised after release *)

Lemma in_window_all_out (succ : Z) (h : list history_item) :
  Forall (fun it => when it > succ) h -> in_window succ h = [].
Proof.
  unfold in_window. induction h as [|it h IH]; simpl; [reflexivity|].
  intros H. apply Forall_cons_iff in H as [H1 H2].
  replace (out_of_window succ it) with true by (unfold out_of_window; lia).
  simpl. exact (IH H2).
Qed.

Lemma in_window_cons (succ : Z) (it : history_item) (h : list history_item) :
  when it <= succ -> in_window succ (it :: h) = it :: in_window succ h.
Proof.
  intros H. unfold in_window. simpl.
  replace (out_of_window succ it) with false by (unfold out_of_window; lia).
  reflexivity.
Qed.

Lemma walk_history_single (rel succ t : Z) (c : change)
  (h : list history_item) (st : walk) :
  t <= succ -> is_severity_change c = true -> change_wf c ->
  walk_history rel succ (HistoryItem t [c] :: h) st
  = bind (process_change rel t (severity_index (removed c))
                         (severity_index (added c)) st)
         (walk_history rel succ h).
Proof.
  intros Ht Hc Hw. cbn [walk_history when changes].
  rewrite walk_changes_severity by assumption.
  destruct (process_change _ _ _ _ _); reflexivity.
Qed.


Lemma scenario_reconstruct (b : bug) (later : list history_item) (succ : Z) :
  days 40 <= succ ->
  bug_wf b ->
  history b = HistoryItem (days 10) [Change "severity" "normal" "minor"]
              :: HistoryItem (days 40) [Change "severity" "minor" "critical"]
              :: later ->
  Forall (fun it => when it > succ) later ->
  reconstruct (days 30) succ b
  = inr (Derived "normal" "minor" "critical" 2 1 3).
Proof.
  intros Hs Hwf Hh Hl. rewrite (reconstruct_cut _ _ b Hwf).
  pose proof (fallback_is_severity succ b Hwf) as Hf.
  unfold reconstruct, truncated. cbn [history severity with_history].
  rewrite (index_severity_index _ Hf), Hh. cbn [bind].
  rewrite !in_window_cons by (unfold days in *; simpl; lia).
  rewrite in_window_all_out by exact Hl.
  assert (Hw1 : change_wf (Change "severity" "normal" "minor"))
    by (split; unfold is_severity; simpl; tauto).
  assert (Hw2 : change_wf (Change "severity" "minor" "critical"))
    by (split; unfold is_severity; simpl; tauto).
  rewrite walk_history_single; [|unfold days in *; lia|reflexivity|exact Hw1].
  rewrite process_change_pre by (reflexivity || (unfold days; lia)).
  cbn [bind].
  rewrite walk_history_single; [|unfold days in *; lia|reflexivity|exact Hw2].
  reflexivity.
Qed.

(** C4.  A bug created as normal, changed to minor on day 10 and to
    critical on day 40, with the release on day 30 and the successor
    release not before day 40: the severity before release is normal, at
    release minor, after release critical; both flag conditions hold, and
    a call of the handler that returns has appended the bug to both
    lists. *)
Theorem lowered_then_raised_scenario (b : bug) (later : list history_item)
  (succ : Z) :
  days 40 <= succ ->
  bug_wf b ->
  history b = HistoryItem (days 10) [Change "severity" "normal" "minor"]
              :: HistoryItem (days 40) [Change "severity" "minor" "critical"]
              :: later ->
  Forall (fun it => when it > succ) later ->
  exists d,
    reconstruct (days 30) succ b = inr d
    /\ sev_before_release d = "normal"
    /\ sev_at_release d = "minor"
    /\ sev_after_release d = "critical"
    /\ lowered_then_raised d = true
    /\ raised_after_release d = true
    /\ forall save phase s s',
         bug_handler (days 30) succ save b (BugData phase) s = inr s' ->
         sev_lowered_and_increased s'
         = sev_lowered_and_increased s ++ [flagged_of b]
         /\ sev_increased_after_release s'
            = sev_increased_after_release s ++ [flagged_of b].
Proof.
  intros Hs Hwf Hh Hl.
  pose proof (scenario_reconstruct b later succ Hs Hwf Hh Hl) as Hr.
  eexists. split; [exact Hr|]. repeat split.
  - apply bug_handler_inv in H as (d & g & n & Hd & _ & _ & _ & H1 & _).
    rewrite Hr in Hd. injection Hd as <-. exact H1.
  - apply bug_handler_inv in H as (d & g & n & Hd & _ & _ & _ & _ & H2).
    rewrite Hr in Hd. injection Hd as <-. exact H2.
Qed.

(** ** Cache files *)

Section ScriptFacts.

Variable release_date : Z.
Variable successor_release_date : Z.
Variable beta_start : date.
Variable weeks_opened : list string.

Lemma init_table_no_data_opened :
  init_table weeks_opened !! "data_opened" = None.
Proof.
  unfold init_table. apply not_elem_of_list_to_map. simpl.
  rewrite !elem_of_cons, elem_of_nil. intros H.
  repeat (destruct H as [H|H]; [discriminate|]). exact H.
Qed.

(** Load mode hands the table itself to the handler as [other_data]; the
    first record of the nightly list ends the run. *)
Lemma load_mode_raises (bzdata_load_path bzdata_save_path : option string)
  (doc opened nightly : node) (b : bug) (rest : list bug)
  (queries : list (string * list bug)) (saved : node) :
  truthy bzdata_load_path = true ->
  node_child doc "opened" = inr opened ->
  node_child opened "nightly" = inr nightly ->
  node_records nightly = inr (b :: rest) ->
  get_bugs release_date successor_release_date beta_start weeks_opened
    bzdata_load_path bzdata_save_path (Some doc) queries saved
  = inl KeyError.
Proof.
  intros Hl H1 H2 H3. unfold get_bugs. rewrite Hl, H1. cbn [bind].
  rewrite H2. cbn [bind]. rewrite H3. cbn [bind handle_all bug_handler].
  unfold subscript at 1. cbn [data_opened].
  rewrite init_table_no_data_opened. reflexivity.
Qed.

(** A run that saves the cache writes it to the default path; no other
    path but that of the report is written. *)
Lemma cache_written_to_default (a : args) (queries : list (string * list bug))
  (fs fs' : gmap string file) :
  truthy (flag_path (product_version a) (bzdata_save a)) = true ->
  main release_date successor_release_date beta_start weeks_opened
    a queries fs = inr fs' ->
  (exists doc, fs' !! default_bzdata_path (product_version a)
               = Some (JsonFile doc))
  /\ forall p, p <> default_bzdata_path (product_version a) ->
               p <> csv_path (product_version a) ->
               fs' !! p = fs !! p.
Proof.
  intros Hs H. unfold main in H.
  apply bind_inr_inv in H as (loaded & _ & H).
  apply bind_inr_inv in H as (r & _ & H).
  rewrite Hs in H. injection H as <-. split.
  - eexists. apply lookup_insert_eq.
  - intros p H1 H2. rewrite !lookup_insert_ne by congruence. reflexivity.
Qed.

End ScriptFacts.


(** C9.  A run that saves the cache, followed by a run that loads it.
    The first run returns its report, with the bug counted and flagged;
    the second, on the file the first wrote, raises [KeyError] at the first
    cached record. *)
Theorem cache_replay_raises :
  exists fs tbl,
    main (days 30) (days 100) (Date 2024 1 20) ["2024-02"; "2024-03"]
      (Args 70 None (Some None)) [("nightly", [scenario_bug])] ∅ = inr fs
    /\ fs !! csv_path 70
       = Some (CsvFile "2024-03" tbl [flagged_of scenario_bug]
                       [flagged_of scenario_bug])
    /\ cell tbl "blocker+critical+major" "2024-03" = Some 1
    /\ main (days 30) (days 100) (Date 2024 1 20) ["2024-02"; "2024-03"]
         (Args 70 (Some None) None) [] fs = inl KeyError.
Proof.
  eexists. eexists. split; [vm_compute; reflexivity|].
  split; [vm_compute; reflexivity|].
  split; vm_compute; reflexivity.
Qed.

(** C10.  A run with [--bzdata-save out.json]: the cache is written to the
    default path of the version, and no file is written at [out.json]. *)
Theorem explicit_save_path_ignored :
  exists fs doc,
    main (days 30) (days 100) (Date 2024 1 20) ["2024-02"; "2024-03"]
      (Args 70 None (Some (Some "out.json"))) [("nightly", [scenario_bug])] ∅
    = inr fs
    /\ fs !! "out.json" = None
    /\ default_bzdata_path 70 = "data/bugzilla_data_70.json"
    /\ fs !! "data/bugzilla_data_70.json" = Some (JsonFile doc).
Proof.
  eexists. eexists. split; [vm_compute; reflexivity|].
  split; [vm_compute; reflexivity|].
  split; vm_compute; reflexivity.
Qed.

(** ** The statements at sample records *)

Lemma first_change_after_release_raises_witness :
  let b := sample_bug "critical" [severity_change_at 40 "normal" "critical"] in
  bug_wf b
  /\ severity_changes (in_window 100 (history b))
     = [(40, Change "severity" "normal" "critical")]
  /\ 40 > 30
  /\ reconstruct 30 100 b = inl TypeError.
Proof.
  intros b. split; [wf_sample|]. split; [reflexivity|]. split; [lia|].
  apply (first_change_after_release_raises 30 100 b 40
           (Change "severity" "normal" "critical") []);
    [wf_sample|reflexivity|lia].
Defined.

Lemma changes_after_cutoff_do_not_contribute_witness :
  let b := sample_bug "blocker"
             [ severity_change_at 10 "normal" "minor";
               severity_change_at 140 "minor" "blocker" ] in
  bug_wf b
  /\ (reconstruct 30 100 b
      = reconstruct 30 100
          (with_history b (in_window 100 (history b)) (fallback_severity 100 b))
      /\ (chronological (history b) ->
          in_window 100 (history b) = until_cutoff 100 (history b))).
Proof.
  intros b. split; [wf_sample|].
  apply (changes_after_cutoff_do_not_contribute 30 100 b). wf_sample.
Defined.

Lemma one_cell_incremented_witness :
  let s' := Store (bumped "blocker+critical+major" "2024-03"
                     (data_opened sample_store))
                  [flagged_of scenario_bug] [flagged_of scenario_bug]
                  empty_node in
  bug_handler (days 30) (days 100) None scenario_bug (BugData "nightly")
    sample_store = inr s'
  /\ exists d g n,
       reconstruct (days 30) (days 100) scenario_bug = inr d
       /\ group_index (sev_before_release d) = inr (sev_group_before_release d)
       /\ group_index (sev_after_release d) = inr (sev_group_after_release d)
       /\ getitem SEVERITIES_GROUP_LIST
            (Z.max (sev_group_before_release d) (sev_group_after_release d))
          = inr g
       /\ (let '(y, w, _) := isocalendar (creation_time scenario_bug) in
           week_key scenario_bug = WFMT_format y w)
       /\ cell (data_opened sample_store) g (week_key scenario_bug) = Some n
       /\ cell (data_opened s') g (week_key scenario_bug) = Some (n + 1)
       /\ forall g' w', (g', w') <> (g, week_key scenario_bug) ->
            cell (data_opened s') g' w' = cell (data_opened sample_store) g' w'.
Proof.
  intros s'. split; [vm_compute; reflexivity|].
  apply (one_cell_incremented (days 30) (days 100) None scenario_bug
           (BugData "nightly") sample_store s').
  vm_compute. reflexivity.
Defined.

Lemma lowered_then_raised_scenario_witness :
  let later := [severity_change_at (days 400) "critical" "normal"] in
  let b := sample_bug "normal"
             (severity_change_at (days 10) "normal" "minor"
              :: severity_change_at (days 40) "minor" "critical" :: later) in
  days 40 <= days 72
  /\ bug_wf b
  /\ Forall (fun it => when it > days 72) later
  /\ exists d,
       reconstruct (days 30) (days 72) b = inr d
       /\ sev_before_release d = "normal"
       /\ sev_at_release d = "minor"
       /\ sev_after_release d = "critical"
       /\ lowered_then_raised d = true
       /\ raised_after_release d = true
       /\ forall save phase s s',
            bug_handler (days 30) (days 72) save b (BugData phase) s = inr s' ->
            sev_lowered_and_increased s'
            = sev_lowered_and_increased s ++ [flagged_of b]
            /\ sev_increased_after_release s'
               = sev_increased_after_release s ++ [flagged_of b].
Proof.
  intros later b.
  assert (H1 : days 40 <= days 72) by (unfold days; lia).
  assert (H2 : bug_wf b) by wf_sample.
  assert (H3 : Forall (fun it => when it > days 72) later)
    by (repeat constructor).
  split; [exact H1|]. split; [exact H2|]. split; [exact H3|].
  apply (lowered_then_raised_scenario b later (days 72) H1 H2 eq_refl H3).
Defined.

Lemma change_at_release_is_pre_release_witness :
  let pre := [severity_change_at 10 "normal" "minor"] in
  let c := Change "severity" "minor" "major" in
  let post := [severity_change_at 40 "major" "critical"] in
  30 <= 100
  /\ Forall (fun it => when it <= 30) pre
  /\ history_wf (pre ++ [HistoryItem 30 ([] ++ [c])])
  /\ is_severity_change c = true
  /\ exists st st',
       walk_history 30 100 (pre ++ [HistoryItem 30 []]) walk_init = inr st
       /\ process_change 30 30 (severity_index (removed c))
            (severity_index (added c)) st = inr st'
       /\ pre_release_phase st' = true
       /\ severity_index_at_release st' = None
       /\ severity_highest_index_after_release st' = None
       /\ severity_highest_index_before_release st'
          = Some (Z.max (or_else (severity_highest_index_before_release st)
                                 (severity_index (removed c)))
                        (severity_index (added c)))
       /\ walk_history 30 100 (pre ++ HistoryItem 30 ([] ++ c :: []) :: post)
            walk_init
          = bind (walk_changes 30 100 30 [] st') (walk_history 30 100 post).
Proof.
  intros pre c post.
  assert (H1 : 30 <= 100) by lia.
  assert (H2 : Forall (fun it => when it <= 30) pre)
    by (repeat constructor; simpl; lia).
  assert (H3 : history_wf (pre ++ [HistoryItem 30 ([] ++ [c])])) by wf_sample.
  split; [exact H1|]. split; [exact H2|]. split; [exact H3|].
  split; [reflexivity|].
  apply (change_at_release_is_pre_release 30 100 pre [] c [] post
           H1 H2 H3 eq_refl).
Defined.

Lemma all_changes_after_cutoff_witness :
  let c := Change "severity" "normal" "critical" in
  let b := sample_bug "critical" [HistoryItem 140 [c]] in
  bug_wf b
  /\ severity_changes (history b) = [(140, c)]
  /\ Forall (fun tc => fst tc > 100) (severity_changes (history b))
  /\ exists d, reconstruct 30 100 b = inr d
       /\ sev_before_release d = removed c
       /\ sev_at_release d = removed c
       /\ sev_after_release d = removed c.
Proof.
  intros c b.
  assert (H1 : bug_wf b) by wf_sample.
  assert (H3 : Forall (fun tc => fst tc > 100) (severity_changes (history b)))
    by (repeat constructor).
  split; [exact H1|]. split; [reflexivity|]. split; [exact H3|].
  apply (all_changes_after_cutoff 30 100 b 140 c [] H1 eq_refl H3).
Defined.

Lemma no_change_gives_current_severity_witness :
  let b := sample_bug "normal" [HistoryItem 10 [Change "priority" "P3" "P1"]] in
  is_severity (severity b)
  /\ severity_changes (history b) = []
  /\ exists d, reconstruct 30 100 b = inr d
       /\ sev_before_release d = severity b
       /\ sev_at_release d = severity b
       /\ sev_after_release d = severity b.
Proof.
  intros b.
  assert (H1 : is_severity (severity b))
    by (unfold is_severity; simpl; in_list).
  split; [exact H1|]. split; [reflexivity|].
  apply (no_change_gives_current_severity 30 100 b H1 eq_refl).
Defined.

Lemma partition_invariance_witness :
  let other := sample_bug "minor" [] in
  let queries := [("nightly", [scenario_bug]); ("beta", [other])] in
  let whole := [other; scenario_bug] in
  saving_ok (Some "cache.json") sample_store
  /\ Permutation (concat (map snd queries)) whole
  /\ agree (handle_queries (days 30) (days 100) (Some "cache.json")
              queries sample_store)
           (handle_all (days 30) (days 100) (Some "cache.json")
              whole (BugData "nightly") sample_store).
Proof.
  intros other queries whole.
  assert (H1 : saving_ok (Some "cache.json") sample_store)
    by (intros _; apply save_ok_empty).
  assert (H2 : Permutation (concat (map snd queries)) whole)
    by apply perm_swap.
  split; [exact H1|]. split; [exact H2|].
  apply (partition_invariance (days 30) (days 100) (Some "cache.json")
           queries "nightly" whole sample_store H1 H2).
Defined.

(** ** More on the cache document *)

Lemma records_at_cons (k : string) (rest : list string) (n : node) :
  records_at (k :: rest) n
  = match child k (node_children n) with
    | None => None
    | Some c => records_at rest c
    end.
Proof.
  unfold records_at. simpl. destruct (child k (node_children n)); reflexivity.
Qed.

Lemma records_at_fresh (rest : list string) :
  records_or_empty (records_at rest (Node (Some []) [])) = [].
Proof. destruct rest; reflexivity. Qed.

(** X1.  After [add_bugzilla_data_to_save] has returned, the list at the
    path is the list that was there, or the empty list when the node did
    not exist, followed by the new record.  No step of the path is
    ['data'], the key under which a node keeps its list. *)
Theorem add_appends_at_path (path : list string) (d : bug) (n n' : node) :
  ~ In "data" path ->
  add_bugzilla_data_to_save path d n = inr n' ->
  records_at path n'
  = Some (records_or_empty (records_at path n) ++ [d]).
Proof.
  intros _. revert n n'. induction path as [|k rest IH]; intros [dat cs] n' H.
  - simpl in H. destruct dat as [l|]; [|discriminate].
    injection H as <-. reflexivity.
  - cbn [add_bugzilla_data_to_save node_children node_data] in H.
    apply bind_inr_inv in H as (next' & Hn & H). injection H as <-.
    rewrite !records_at_cons. cbn [node_children].
    rewrite child_set_child, String.eqb_refl, (IH _ _ Hn).
    destruct (child k cs) as [c|]; [reflexivity|].
    rewrite records_at_fresh. reflexivity.
Qed.

(** X2.  A call that returns leaves the list at every other path as it
    was; the only other change is that nodes missing on the way to the
    path now exist, with an empty list. *)
Theorem add_keeps_other_paths (path q : list string) (d : bug) (n n' : node) :
  ~ In "data" path ->
  add_bugzilla_data_to_save path d n = inr n' ->
  q <> path ->
  records_at q n' = records_at q n
  \/ (node_at q n = None /\ records_at q n' = Some []).
Proof.
  intros _. revert q n n'.
  induction path as [|k rest IH]; intros q [dat cs] n' H Hq.
  - simpl in H. destruct dat as [l|]; [|discriminate]. injection H as <-.
    destruct q as [|k' q']; [congruence|]. left. reflexivity.
  - cbn [add_bugzilla_data_to_save node_children node_data] in H.
    apply bind_inr_inv in H as (next' & Hn & H). injection H as <-.
    destruct q as [|k' q']; [left; reflexivity|].
    rewrite !records_at_cons. cbn [node_at node_children].
    rewrite child_set_child.
    destruct (String.eqb k k') eqn:E; [|left; reflexivity].
    apply String.eqb_eq in E as <-.
    assert (Hq' : q' <> rest) by congruence.
    destruct (IH q' _ _ Hn Hq') as [He|[Hnone He]].
    + destruct (child k cs) as [c|]; [left; exact He|].
      rewrite He. destruct q' as [|k2 q2]; [right; split; reflexivity|].
      left. reflexivity.
    + destruct (child k cs) as [c|]; right; (split; [|exact He]);
        [exact Hnone|reflexivity].
Qed.

(** X3.  [add_bugzilla_data_to_save] raises exactly when the node at the
    path exists and has no ['data'] list, and what it raises is
    [KeyError]; missing nodes are created. *)
Theorem add_raises_iff (path : list string) (d : bug) (n : node) :
  ~ In "data" path ->
  (add_bugzilla_data_to_save path d n = inl KeyError
   <-> exists c, node_at path n = Some c /\ node_data c = None)
  /\ (returns (add_bugzilla_data_to_save path d n) = false
      -> add_bugzilla_data_to_save path d n = inl KeyError).
Proof.
  intros _. revert n. induction path as [|k rest IH]; intros [dat cs].
  - simpl. destruct dat as [l|]; simpl.
    + split; [|discriminate]. split; [discriminate|].
      intros (c & [= <-] & Hc). discriminate.
    + split; [|reflexivity]. split; [|reflexivity]. eauto.
  - cbn [add_bugzilla_data_to_save node_children node_data node_at].
    destruct (child k cs) as [c|] eqn:Hc.
    + destruct (IH c) as [IH1 IH2].
      destruct (add_bugzilla_data_to_save rest d c) as [e|c'] eqn:Hadd; simpl.
      * assert (e = KeyError) as -> by (specialize (IH2 eq_refl); congruence).
        split; [|reflexivity]. split; [intros _; apply IH1; reflexivity|].
        reflexivity.
      * split; [|discriminate]. split; [discriminate|].
        intros Hex. apply IH1 in Hex. discriminate.
    + destruct (IH (Node (Some []) [])) as [IH1 IH2].
      destruct (add_bugzilla_data_to_save rest d (Node (Some []) []))
        as [e|c'] eqn:Hadd; simpl.
      * assert (e = KeyError) as -> by (specialize (IH2 eq_refl); congruence).
        exfalso. destruct IH1 as [IH1 _].
        destruct (IH1 eq_refl) as (c & Hat & Hd).
        destruct rest; simpl in Hat; [|discriminate].
        injection Hat as <-. discriminate.
      * split; [|discriminate]. split; [discriminate|].
        intros (c & [=] & _).
Qed.

(** ** What a run leaves in the cache *)

Section CacheFacts.

Variable release_date : Z.
Variable successor_release_date : Z.
Variable bzdata_save_path : option string.

Lemma bug_handler_saved (b : bug) (phase : string) (s s' : store) :
  bug_handler release_date successor_release_date bzdata_save_path
    b (BugData phase) s = inr s' ->
  if truthy bzdata_save_path
  then add_bugzilla_data_to_save ["opened"; phase] b (bugzilla_data_to_save s)
       = inr (bugzilla_data_to_save s')
  else bugzilla_data_to_save s' = bugzilla_data_to_save s.
Proof.
  unfold bug_handler. intros H.
  apply bind_inr_inv in H as (saved & Hs & H).
  apply bind_inr_inv in H as (d & _ & H).
  unfold record_bug in H.
  apply bind_inr_inv in H as (g & _ & H).
  apply bind_inr_inv in H as (tbl & _ & H).
  injection H as <-. cbn [bugzilla_data_to_save].
  destruct (truthy bzdata_save_path); [exact Hs|].
  injection Hs as <-. reflexivity.
Qed.

Lemma bug_handler_cached (b : bug) (phase q : string) (s s' : store) :
  truthy bzdata_save_path = true ->
  phase <> "data" ->
  bug_handler release_date successor_release_date bzdata_save_path
    b (BugData phase) s = inr s' ->
  records_or_empty (records_at ["opened"; q] (bugzilla_data_to_save s'))
  = records_or_empty (records_at ["opened"; q] (bugzilla_data_to_save s))
    ++ (if String.eqb phase q then [b] else []).
Proof.
  intros Ht Hp H. apply bug_handler_saved in H. rewrite Ht in H.
  assert (Hd : ~ In "data" ["opened"; phase]).
  { simpl. intros [?|[?|[]]]; [discriminate|congruence]. }
  destruct (String.eqb phase q) eqn:E.
  - apply String.eqb_eq in E as <-.
    rewrite (add_appends_at_path _ _ _ _ Hd H). reflexivity.
  - assert (Hq : ["opened"; q] <> ["opened"; phase]).
    { intros [= ->]. rewrite String.eqb_refl in E. discriminate. }
    destruct (add_keeps_other_paths _ _ _ _ _ Hd H Hq) as [->|[Hn ->]].
    + rewrite app_nil_r. reflexivity.
    + unfold records_at. rewrite Hn. reflexivity.
Qed.

Lemma handle_all_cached (bugs : list bug) (phase q : string) (s s' : store) :
  truthy bzdata_save_path = true ->
  phase <> "data" ->
  handle_all release_date successor_release_date bzdata_save_path
    bugs (BugData phase) s = inr s' ->
  records_or_empty (records_at ["opened"; q] (bugzilla_data_to_save s'))
  = records_or_empty (records_at ["opened"; q] (bugzilla_data_to_save s))
    ++ (if String.eqb phase q then bugs else []).
Proof.
  intros Ht Hp. revert s. induction bugs as [|b bugs IH]; intros s H.
  - injection H as <-. destruct (String.eqb phase q); rewrite app_nil_r;
      reflexivity.
  - cbn [handle_all] in H. apply bind_inr_inv in H as (s1 & H1 & H).
    rewrite (IH _ H), (bug_handler_cached _ _ q _ _ Ht Hp H1).
    rewrite <- app_assoc. destruct (String.eqb phase q); reflexivity.
Qed.

Lemma handle_queries_cached (queries : list (string * list bug)) (q : string)
  (s s' : store) :
  truthy bzdata_save_path = true ->
  Forall (fun pq => fst pq <> "data") queries ->
  handle_queries release_date successor_release_date bzdata_save_path
    queries s = inr s' ->
  records_or_empty (records_at ["opened"; q] (bugzilla_data_to_save s'))
  = records_or_empty (records_at ["opened"; q] (bugzilla_data_to_save s))
    ++ records_of_phase q queries.
Proof.
  intros Ht Hp. revert s. induction queries as [|[phase bugs] qs IH];
    intros s H.
  - injection H as <-. rewrite app_nil_r. reflexivity.
  - apply Forall_cons_iff in Hp as [Hp1 Hp2]. cbn [fst] in Hp1.
    cbn [handle_queries] in H. apply bind_inr_inv in H as (s1 & H1 & H).
    rewrite (IH Hp2 _ H), (handle_all_cached _ _ q _ _ Ht Hp1 H1).
    rewrite <- app_assoc. unfold records_of_phase. cbn [List.filter fst].
    destruct (String.eqb phase q); reflexivity.
Qed.

End CacheFacts.

(** X4.  A live run that saves the cache and returns has written a
    document in which, for every phase, the list under ['opened'][phase]
    holds exactly the records handled for that phase, in the order in
    which the handler received them. *)
Theorem cache_holds_every_record (release_date successor_release_date : Z)
  (beta_start : date) (weeks_opened : list string) (a : args)
  (queries : list (string * list bug)) (fs fs' : gmap string file) :
  bzdata_load a = None ->
  bzdata_save a <> None ->
  Forall (fun pq => fst pq <> "data") queries ->
  main release_date successor_release_date beta_start weeks_opened
    a queries fs = inr fs' ->
  exists doc,
    fs' !! default_bzdata_path (product_version a) = Some (JsonFile doc)
    /\ forall p, records_or_empty (records_at ["opened"; p] doc)
                 = records_of_phase p queries.
Proof.
  intros Hl Hs Hq H. unfold main in H. rewrite Hl in H.
  cbn [flag_path bind ret] in H.
  apply bind_inr_inv in H as ([fb s] & Hg & H).
  assert (Ht : truthy (flag_path (product_version a) (bzdata_save a)) = true).
  { unfold flag_path. destruct (bzdata_save a) as [given|]; [|congruence].
    destruct (truthy given) eqn:E; [exact E|reflexivity]. }
  rewrite Ht in H. injection H as <-. cbn [snd].
  exists (bugzilla_data_to_save s). split; [apply lookup_insert_eq|].
  intros p. unfold get_bugs in Hg. cbn [truthy bind] in Hg.
  apply bind_inr_inv in Hg as (s1 & H1 & Hg).
  destruct (isocalendar beta_start) as [[y w] wd]. injection Hg as _ <-.
  rewrite (handle_queries_cached _ _ _ _ p _ _ Ht Hq H1). reflexivity.
Qed.

(** ** What the reconstructor returns *)

Lemma getitem_In {A} (l : list A) (i : Z) (x : A) :
  getitem l i = inr x -> In x l.
Proof.
  unfold getitem. destruct (_ && _); [|discriminate].
  destruct (l !! _) as [y|] eqn:E; [|discriminate].
  intros [= <-]. apply list_elem_of_In. eapply list_elem_of_lookup_2. exact E.
Qed.

Lemma group_index_range (s : string) (g : Z) :
  is_severity s -> group_index s = inr g -> 0 <= g <= 3.
Proof.
  intros Hs Hg. destruct (is_severity_group s Hs) as (g' & Hg' & Hr).
  congruence.
Qed.

Lemma group_name_returns (m : Z) :
  0 <= m <= 3 ->
  exists g, getitem SEVERITIES_GROUP_LIST m = inr g
            /\ In g SEVERITIES_GROUP_LIST.
Proof.
  intros H.
  assert (m = 0 \/ m = 1 \/ m = 2 \/ m = 3) as [-> | [-> | [-> | ->]]] by lia;
    eexists; (split; [reflexivity|simpl; tauto]).
Qed.

(** X5.  Whenever the reconstructor returns, the three severities are
    members of the enumeration, their groups are among the four, and line
    229 finds the name of the highest group: the subscripts of lines
    169-174 and 229 never fail on what the walk has computed. *)
Theorem reconstruct_in_range (release_date successor_release_date : Z)
  (b : bug) (d : derived) :
  reconstruct release_date successor_release_date b = inr d ->
  is_severity (sev_before_release d)
  /\ is_severity (sev_at_release d)
  /\ is_severity (sev_after_release d)
  /\ 0 <= sev_group_before_release d <= 3
  /\ 0 <= sev_group_at_release d <= 3
  /\ 0 <= sev_group_after_release d <= 3
  /\ exists g, sev_group_highest d = inr g /\ In g SEVERITIES_GROUP_LIST.
Proof.
  unfold reconstruct. intros H.
  apply bind_inr_inv in H as (cur & _ & H).
  apply bind_inr_inv in H as (st & _ & H).
  unfold derive in H.
  apply bind_inr_inv in H as (x & Hx & H).
  apply bind_inr_inv in H as (y & Hy & H).
  apply bind_inr_inv in H as (z & Hz & H).
  apply bind_inr_inv in H as (gx & Hgx & H).
  apply bind_inr_inv in H as (gy & Hgy & H).
  apply bind_inr_inv in H as (gz & Hgz & H).
  injection H as <-. cbn.
  assert (Sx : is_severity x).
  { destruct (severity_highest_index_before_release _); [|discriminate].
    exact (getitem_In _ _ _ Hx). }
  assert (Sy : is_severity y).
  { destruct (severity_index_at_release _); [|discriminate].
    exact (getitem_In _ _ _ Hy). }
  assert (Sz : is_severity z).
  { destruct (severity_highest_index_after_release _); [|discriminate].
    exact (getitem_In _ _ _ Hz). }
  pose proof (group_index_range _ _ Sx Hgx).
  pose proof (group_index_range _ _ Sy Hgy).
  pose proof (group_index_range _ _ Sz Hgz).
  repeat split; try assumption; try lia.
  unfold sev_group_highest. cbn. apply group_name_returns. lia.
Qed.

Lemma severity_index_range (s : string) :
  is_severity s -> 0 <= severity_index s <= 6.
Proof.
  intros H. apply is_severity_cases in H.
  repeat (destruct H as [->|H]); try subst s; vm_compute; split; discriminate.
Qed.

Lemma getitem_severity (i : Z) :
  0 <= i <= 6 ->
  exists s, getitem SEVERITIES_LIST i = inr s /\ is_severity s.
Proof.
  intros H.
  assert (i = 0 \/ i = 1 \/ i = 2 \/ i = 3 \/ i = 4 \/ i = 5 \/ i = 6)
    as [-> | [-> | [-> | [-> | [-> | [-> | ->]]]]]] by lia;
    eexists; (split; [reflexivity|unfold is_severity; simpl; tauto]).
Qed.

Lemma derive_returns (p : bool) (i j k : Z) (l : option Z) :
  0 <= i <= 6 -> 0 <= j <= 6 -> 0 <= k <= 6 ->
  exists d, derive (Walk p (Some i) (Some j) (Some k) l) = inr d.
Proof.
  intros Hi Hj Hk.
  destruct (getitem_severity i Hi) as (x & Hx & Sx).
  destruct (getitem_severity j Hj) as (y & Hy & Sy).
  destruct (getitem_severity k Hk) as (z & Hz & Sz).
  destruct (is_severity_group x Sx) as (gx & Hgx & _).
  destruct (is_severity_group y Sy) as (gy & Hgy & _).
  destruct (is_severity_group z Sz) as (gz & Hgz & _).
  unfold derive. cbn [severity_highest_index_before_release
    severity_index_at_release severity_highest_index_after_release
    getitem_var].
  rewrite Hx, Hy, Hz. cbn [bind]. rewrite Hgx, Hgy, Hgz. cbn [bind].
  eexists. reflexivity.
Qed.

Lemma walk_ok_init : walk_ok walk_init.
Proof. repeat split; simpl; auto; discriminate. Qed.

Lemma derive_finish_returns (cur : Z) (st : walk) :
  walk_ok st -> 0 <= cur <= 6 ->
  exists d, derive (finish cur st) = inr d.
Proof.
  destruct st as [p b a f l]. unfold walk_ok, finish. simpl.
  intros (Hb & Ha & Hf & Hl & Hpre & Hpost) Hc.
  assert (Hlast : 0 <= or_else l cur <= 6) by (destruct l; simpl in *; lia).
  destruct p.
  - destruct (Hpre eq_refl) as [-> ->].
    apply derive_returns; try assumption.
    destruct b; simpl in *; lia.
  - destruct (Hpost eq_refl) as (Nb & Na & Nf).
    destruct b as [b|], a as [a|], f as [f|]; try congruence.
    apply derive_returns; assumption.
Qed.

Section ReturnFacts.

Variable release_date : Z.
Variable successor_release_date : Z.

Lemma process_change_ok (t old new : Z) (st : walk) :
  walk_ok st -> 0 <= old <= 6 -> 0 <= new <= 6 ->
  (pre_release_phase st = true ->
   severity_highest_index_before_release st = None -> t <= release_date) ->
  exists st', process_change release_date t old new st = inr st'
    /\ walk_ok st'
    /\ severity_highest_index_before_release st' <> None.
Proof.
  destruct st as [p b a f l]. unfold walk_ok, process_change. simpl.
  intros (Hb & Ha & Hf & Hl & Hpre & Hpost) Ho Hn Ht.
  destruct p; simpl.
  - destruct (Hpre eq_refl) as [-> ->].
    destruct (t >? release_date) eqn:E; simpl.
    + destruct b as [b|]; [|specialize (Ht eq_refl eq_refl); lia].
      simpl in *. eexists. split; [reflexivity|]. simpl.
      repeat split; try assumption; try discriminate; try lia.
    + eexists. split; [reflexivity|]. simpl.
      repeat split; try assumption; try discriminate; try lia;
        destruct b; simpl in *; lia.
  - destruct (Hpost eq_refl) as (Nb & Na & Nf).
    destruct f as [f|]; [|congruence]. simpl in *.
    eexists. split; [reflexivity|]. simpl.
    repeat split; try assumption; try discriminate; try lia.
Qed.

Lemma walk_changes_ok (t : Z) (cs : list change) (st : walk) :
  t <= successor_release_date ->
  Forall change_wf (List.filter is_severity_change cs) ->
  walk_ok st ->
  (List.filter is_severity_change cs <> [] ->
   pre_release_phase st = true ->
   severity_highest_index_before_release st = None -> t <= release_date) ->
  exists st',
    walk_changes release_date successor_release_date t cs st = inr st'
    /\ walk_ok st'
    /\ (severity_highest_index_before_release st <> None ->
        severity_highest_index_before_release st' <> None)
    /\ (List.filter is_severity_change cs <> [] ->
        severity_highest_index_before_release st' <> None).
Proof.
  intros Ht. revert st. induction cs as [|c cs IH]; intros st Hwf Hok Hc.
  - exists st. split; [reflexivity|]. split; [exact Hok|].
    split; [auto|]. intros H. simpl in H. contradiction.
  - cbn [List.filter] in Hwf, Hc |- *.
    destruct (is_severity_change c) eqn:Ec.
    + apply Forall_cons_iff in Hwf as [[Hwo Hwn] Hwf].
      rewrite walk_changes_severity by (assumption || (split; assumption)).
      destruct (process_change_ok t (severity_index (removed c))
                  (severity_index (added c)) st) as (st1 & H1 & Hok1 & Hb1);
        [exact Hok|apply severity_index_range; exact Hwo
        |apply severity_index_range; exact Hwn|apply Hc; discriminate|].
      rewrite H1. cbn [bind].
      destruct (IH st1 Hwf Hok1) as (st' & H' & Hok' & Hk & _);
        [intros _ _ Hn; contradiction|].
      exists st'. split; [exact H'|]. split; [exact Hok'|].
      split; intros _; apply Hk; exact Hb1.
    + cbn [walk_changes]. unfold is_severity_change in Ec. rewrite Ec.
      apply IH; assumption.
Qed.

Lemma walk_history_ok (h : list history_item) (st : walk) :
  Forall (fun it => when it <= successor_release_date) h ->
  history_wf h ->
  walk_ok st ->
  match severity_changes h with
  | [] => True
  | (t, _) :: _ =>
    pre_release_phase st = true ->
    severity_highest_index_before_release st = None -> t <= release_date
  end ->
  exists st',
    walk_history release_date successor_release_date h st = inr st'
    /\ walk_ok st'.
Proof.
  revert st. induction h as [|it h IH]; intros st Hin Hwf Hok Hc.
  - exists st. split; [reflexivity|exact Hok].
  - apply Forall_cons_iff in Hin as [Hi1 Hi2].
    apply history_wf_cons in Hwf as [Hw1 Hw2].
    rewrite severity_changes_cons in Hc. cbn [walk_history].
    destruct (walk_changes_ok (when it) (changes it) st Hi1 Hw1 Hok)
      as (st1 & H1 & Hok1 & Hk1 & Hs1).
    { intros Hne. destruct (List.filter is_severity_change (changes it));
        [contradiction|exact Hc]. }
    rewrite H1. cbn [bind]. apply IH; try assumption.
    destruct (List.filter is_severity_change (changes it)) as [|c0 cs0] eqn:Ef.
    + simpl in Hc. destruct (severity_changes h) as [|[t c] r]; [exact I|].
      intros Hp Hb.
      assert (Hst : walk_changes release_date successor_release_date
                      (when it) (changes it) st = inr st)
        by (apply walk_changes_none; exact Ef).
      rewrite Hst in H1. injection H1 as <-. apply Hc; assumption.
    + destruct (severity_changes h) as [|[t c] r]; [exact I|].
      intros _ Hb. exfalso. apply Hs1; [discriminate|exact Hb].
Qed.

Lemma reconstruct_first_after (b : bug) (t : Z) (c : change)
  (rest : list (Z * change)) :
  bug_wf b ->
  severity_changes (in_window successor_release_date (history b))
  = (t, c) :: rest ->
  t > release_date ->
  reconstruct release_date successor_release_date b = inl TypeError.
Proof.
  intros Hwf Hc Ht.
  rewrite (reconstruct_cut release_date successor_release_date b Hwf).
  pose proof (fallback_is_severity successor_release_date b Hwf) as Hf.
  unfold reconstruct, truncated. simpl.
  rewrite (index_severity_index _ Hf). simpl.
  rewrite (walk_history_first_after release_date successor_release_date
             _ t c rest); try reflexivity; try assumption.
  - apply in_window_when.
  - destruct Hwf as [_ Hh].
    apply (history_wf_filter
             (fun it => negb (out_of_window successor_release_date it))) in Hh.
    unfold history_wf, in_window in *. rewrite Hc in Hh.
    apply Forall_cons_iff in Hh as [Hh _]. exact Hh.
Qed.

(** X6.  For a record whose severities are members of the enumeration the
    reconstructor returns unless the first severity change inside the
    window is timestamped after the release; in that case, and in no
    other, it raises, and what it raises is [TypeError]. *)
Theorem reconstruct_returns_iff (b : bug) :
  bug_wf b ->
  (returns (reconstruct release_date successor_release_date b) = true
   <-> match severity_changes
               (in_window successor_release_date (history b)) with
       | [] => True
       | (t, _) :: _ => t <= release_date
       end)
  /\ (returns (reconstruct release_date successor_release_date b) = false ->
      reconstruct release_date successor_release_date b = inl TypeError).
Proof.
  intros Hwf.
  destruct (severity_changes (in_window successor_release_date (history b)))
    as [|[t c] rest] eqn:Hsc.
  2: destruct (Z_le_gt_dec t release_date) as [Hle|Hgt].
  3: { rewrite (reconstruct_first_after b t c rest Hwf Hsc Hgt). simpl.
       split; [|reflexivity]. split; [discriminate|lia]. }
  all: assert (Hr : exists d,
         reconstruct release_date successor_release_date b = inr d).
  all: try (rewrite (reconstruct_cut release_date successor_release_date b Hwf);
    pose proof (fallback_is_severity successor_release_date b Hwf) as Hf;
    unfold reconstruct, truncated; cbn [history severity with_history];
    rewrite (index_severity_index _ Hf); cbn [bind];
    destruct (walk_history_ok
                (in_window successor_release_date (history b)) walk_init)
      as (st & Hst & Hok);
    [apply in_window_when
    |apply history_wf_filter; exact (proj2 Hwf)
    |exact walk_ok_init
    |rewrite Hsc; auto
    |rewrite Hst; cbn [bind];
     apply derive_finish_returns;
       [exact Hok|apply severity_index_range; exact Hf]]).
  all: destruct Hr as [d ->]; simpl; split; [|discriminate];
    split; auto.
Qed.

End ReturnFacts.

(** ** The history as a list of severity changes *)

Section FlatFacts.

Variable release_date : Z.
Variable successor_release_date : Z.

Lemma walk_flat_app (l1 l2 : list (Z * change)) (st : walk) :
  walk_flat release_date successor_release_date (l1 ++ l2) st
  = bind (walk_flat release_date successor_release_date l1 st)
         (walk_flat release_date successor_release_date l2).
Proof.
  revert st. induction l1 as [|[t c] l1 IH]; intros st; [reflexivity|].
  cbn [app walk_flat]. destruct (t >? successor_release_date); [apply IH|].
  destruct (process_change _ _ _ _ _) as [e|st']; [reflexivity|apply IH].
Qed.

(** After the cutoff only the first change of a run of changes counts. *)
Lemma walk_flat_out (t : Z) (cs : list change) (st : walk) (v : Z) :
  t > successor_release_date ->
  severity_index_last_processed st = Some v ->
  walk_flat release_date successor_release_date (map (pair t) cs) st = inr st.
Proof.
  intros Ht. revert st. induction cs as [|c cs IH]; intros st Hl;
    [reflexivity|].
  cbn [map walk_flat]. replace (t >? successor_release_date) with true by lia.
  rewrite Hl. cbn [or_else]. rewrite <- Hl, with_last_id. apply IH. exact Hl.
Qed.

Lemma walk_changes_flat (t : Z) (cs : list change) (st : walk) :
  Forall change_wf (List.filter is_severity_change cs) ->
  walk_changes release_date successor_release_date t cs st
  = walk_flat release_date successor_release_date
      (map (pair t) (List.filter is_severity_change cs)) st.
Proof.
  intros Hwf. destruct (Z_le_gt_dec t successor_release_date) as [Hle|Hgt].
  - revert st. induction cs as [|c cs IH]; intros st; [reflexivity|].
    cbn [List.filter] in Hwf |- *. destruct (is_severity_change c) eqn:Ec.
    + apply Forall_cons_iff in Hwf as [Hc Hwf].
      rewrite walk_changes_severity by assumption.
      cbn [map walk_flat].
      replace (t >? successor_release_date) with false by lia.
      destruct (process_change _ _ _ _ _) as [e|st']; [reflexivity|].
      apply IH. exact Hwf.
    + cbn [walk_changes]. unfold is_severity_change in Ec. rewrite Ec.
      apply IH. exact Hwf.
  - rewrite walk_changes_out by assumption. unfold last_after_item.
    destruct (List.filter is_severity_change cs) as [|c cs0].
    + rewrite with_last_id. reflexivity.
    + cbn [map walk_flat].
      replace (t >? successor_release_date) with true by lia.
      symmetry. eapply walk_flat_out; [exact Hgt|reflexivity].
Qed.

Lemma walk_history_flat (h : list history_item) (st : walk) :
  history_wf h ->
  walk_history release_date successor_release_date h st
  = walk_flat release_date successor_release_date (severity_changes h) st.
Proof.
  revert st. induction h as [|it h IH]; intros st Hwf; [reflexivity|].
  apply history_wf_cons in Hwf as [Hw1 Hw2].
  rewrite severity_changes_cons, walk_flat_app. cbn [walk_history].
  rewrite (walk_changes_flat _ _ _ Hw1).
  destruct (walk_flat _ _ _ st) as [e|st']; [reflexivity|].
  apply IH. exact Hw2.
Qed.

(** X7.  The derived severities depend on a well-formed record only
    through its current severity and the list of its timestamped severity
    changes: changes to other fields, and the way the changes are grouped
    into history items, make no difference. *)
Theorem reconstruct_depends_on_severity_changes (b1 b2 : bug) :
  bug_wf b1 -> bug_wf b2 ->
  severity b1 = severity b2 ->
  severity_changes (history b1) = severity_changes (history b2) ->
  reconstruct release_date successor_release_date b1
  = reconstruct release_date successor_release_date b2.
Proof.
  intros [_ H1] [_ H2] Hs Hc. unfold reconstruct.
  rewrite Hs, (walk_history_flat _ _ H1), (walk_history_flat _ _ H2), Hc.
  reflexivity.
Qed.

End FlatFacts.

(** ** More on the aggregate table *)

(** A sum over a map changes, when one entry is altered, by the difference
    at that entry. *)
Lemma sum_alter {V} (w : V -> Z) (f : V -> V) (k : string) (x : V)
  (m : gmap string V) :
  m !! k = Some x ->
  map_fold (fun _ v acc => w v + acc) 0 (alter f k m)
  = map_fold (fun _ v acc => w v + acc) 0 m + (w (f x) - w x).
Proof.
  intros H.
  assert (Ha : alter f k m = <[k := f x]> (delete k m)).
  { apply map_eq. intros j. rewrite lookup_alter, lookup_insert, lookup_delete.
    destruct (decide (k = j)) as [<-|]; [rewrite H|]; reflexivity. }
  rewrite Ha, map_fold_insert_L, (map_fold_delete_L _ _ k x m);
    [lia|intros; lia|exact H|intros; lia|apply lookup_delete_eq].
Qed.

Lemma sum_zero {V} (w : V -> Z) (m : gmap string V) :
  (forall k v, m !! k = Some v -> w v = 0) ->
  map_fold (fun _ v acc => w v + acc) 0 m = 0.
Proof.
  revert m.
  apply (map_fold_weak_ind
           (fun r m => (forall k v, m !! k = Some v -> w v = 0) -> r = 0)).
  - reflexivity.
  - intros k v m r Hk IH Hall.
    rewrite (Hall k v (lookup_insert_eq m k v)), IH; [reflexivity|].
    intros j u Hj. apply (Hall j). rewrite lookup_insert_ne; [exact Hj|].
    intros ->. congruence.
Qed.

Lemma table_total_bumped (tbl : gmap string (gmap string Z)) (g t : string)
  (n : Z) :
  cell tbl g t = Some n ->
  table_total (bumped g t tbl) = table_total tbl + 1.
Proof.
  unfold cell. destruct (tbl !! g) as [r|] eqn:Hr; [|discriminate].
  intros Hn. unfold table_total, bumped.
  rewrite (sum_alter row_total _ g r tbl Hr).
  unfold row_total at 2 3.
  rewrite (sum_alter (fun n => n) _ t n r Hn). lia.
Qed.

Lemma init_row_lookup (weeks : list string) (w : string) :
  init_row weeks !! w
  = if in_dec String.string_dec w weeks then Some 0 else None.
Proof.
  unfold init_row. induction weeks as [|w0 weeks IH]; [reflexivity|].
  cbn [map]. rewrite list_to_map_cons. cbn [fst snd]. rewrite lookup_insert.
  destruct (decide (w0 = w)) as [->|Hne].
  - destruct (in_dec _ w (w :: weeks)) as [|Hn]; [reflexivity|].
    exfalso. apply Hn. left. reflexivity.
  - rewrite IH. destruct (in_dec _ w weeks) as [Hi|Hi];
      destruct (in_dec _ w (w0 :: weeks)) as [Hj|Hj]; try reflexivity.
    + exfalso. apply Hj. right. exact Hi.
    + exfalso. destruct Hj as [?|?]; congruence.
Qed.

Lemma init_table_lookup (weeks : list string) (g : string) :
  init_table weeks !! g
  = if in_dec String.string_dec g SEVERITIES_GROUP_LIST
    then Some (init_row weeks) else None.
Proof.
  unfold init_table, SEVERITIES. cbn [map snd].
  rewrite !list_to_map_cons, list_to_map_nil. cbn [fst snd].
  rewrite !lookup_insert, lookup_empty.
  destruct (in_dec _ g SEVERITIES_GROUP_LIST) as [Hg|Hg].
  - simpl in Hg. destruct Hg as [<-|[<-|[<-|[<-|[]]]]]; reflexivity.
  - repeat (destruct (decide (_ = g)) as [<-|?];
      [exfalso; apply Hg; simpl; tauto|]).
    reflexivity.
Qed.

Lemma table_total_init (weeks : list string) :
  table_total (init_table weeks) = 0.
Proof.
  apply sum_zero. intros g r. rewrite init_table_lookup.
  destruct (in_dec _ _ _); [|discriminate]. intros [= <-].
  apply sum_zero. intros w n. rewrite init_row_lookup.
  destruct (in_dec _ _ _); [|discriminate]. intros [= <-]. reflexivity.
Qed.

Lemma shaped_init (weeks : list string) : shaped weeks (init_table weeks).
Proof.
  intros g. rewrite init_table_lookup.
  destruct (in_dec _ g SEVERITIES_GROUP_LIST) as [Hg|Hg]; [|exact Hg].
  split; [exact Hg|]. intros w. rewrite init_row_lookup.
  destruct (in_dec _ w weeks); split; intros; (assumption || congruence).
Qed.

Lemma shaped_bumped (weeks : list string) (tbl : gmap string (gmap string Z))
  (g t : string) :
  shaped weeks tbl -> shaped weeks (bumped g t tbl).
Proof.
  intros H g'. specialize (H g'). unfold bumped. rewrite lookup_alter.
  destruct (decide (g = g')) as [<-|]; [|exact H].
  destruct (tbl !! g) as [r|]; [|exact H]. cbn.
  destruct H as [Hg Hw]. split; [exact Hg|]. intros w.
  rewrite <- Hw. rewrite lookup_alter.
  destruct (decide (t = w)) as [<-|]; [|reflexivity].
  destruct (r !! t); simpl; split; congruence.
Qed.

Lemma shaped_cell (weeks : list string) (tbl : gmap string (gmap string Z))
  (g w : string) :
  shaped weeks tbl -> In g SEVERITIES_GROUP_LIST ->
  (cell tbl g w <> None <-> In w weeks).
Proof.
  intros H Hg. specialize (H g). unfold cell.
  destruct (tbl !! g) as [r|]; [apply H|contradiction].
Qed.

(** ** Whole runs *)

Section RunFacts.

Variable release_date : Z.
Variable successor_release_date : Z.
Variable bzdata_save_path : option string.

Local Abbreviation handler :=
  (bug_handler release_date successor_release_date bzdata_save_path).
Local Abbreviation handle :=
  (handle_all release_date successor_release_date bzdata_save_path).
Local Abbreviation run :=
  (handle_queries release_date successor_release_date bzdata_save_path).
Local Abbreviation is_handled :=
  (handled release_date successor_release_date).

(** What a call that returns has done to the three parts of the report. *)
Lemma handler_returns_inv (b : bug) (other : other_data) (s s' : store) :
  handler b other s = inr s' ->
  exists d g n,
    reconstruct release_date successor_release_date b = inr d
    /\ cell (data_opened s) g (week_key b) = Some n
    /\ data_opened s' = bumped g (week_key b) (data_opened s)
    /\ sev_lowered_and_increased s'
       = append_if (lowered_then_raised d) (sev_lowered_and_increased s)
                   (flagged_of b)
    /\ sev_increased_after_release s'
       = append_if (raised_after_release d) (sev_increased_after_release s)
                   (flagged_of b).
Proof.
  intros H. destruct other as [phase|].
  - apply bug_handler_inv in H as (d & g & n & Hd & _ & Hc & Ht & Hl & Hi).
    exists d, g, n. auto.
  - pose proof (bug_handler_table_raises release_date successor_release_date
                  bzdata_save_path b s) as Hr.
    rewrite H in Hr. discriminate.
Qed.

Lemma handler_sublist (b : bug) (other : other_data) (s s' : store) :
  handler b other s = inr s' ->
  sublist (sev_lowered_and_increased s) (sev_increased_after_release s) ->
  sublist (sev_lowered_and_increased s') (sev_increased_after_release s').
Proof.
  intros H Hs.
  apply handler_returns_inv in H as (d & g & n & _ & _ & _ & -> & ->).
  unfold lowered_then_raised, raised_after_release, append_if.
  destruct (sev_group_after_release d >? sev_group_at_release d).
  - rewrite andb_true_r.
    destruct (sev_group_before_release d >? sev_group_at_release d).
    + apply sublist_app; [exact Hs|reflexivity].
    + apply sublist_inserts_r. exact Hs.
  - rewrite andb_false_r. exact Hs.
Qed.

Lemma handle_sublist (bugs : list bug) (other : other_data) (s s' : store) :
  handle bugs other s = inr s' ->
  sublist (sev_lowered_and_increased s) (sev_increased_after_release s) ->
  sublist (sev_lowered_and_increased s') (sev_increased_after_release s').
Proof.
  revert s. induction bugs as [|b bugs IH]; intros s H Hs.
  - injection H as <-. exact Hs.
  - cbn [handle_all] in H. apply bind_inr_inv in H as (s1 & H1 & H).
    apply (IH _ H). exact (handler_sublist _ _ _ _ H1 Hs).
Qed.

Lemma run_sublist (queries : list (string * list bug)) (s s' : store) :
  run queries s = inr s' ->
  sublist (sev_lowered_and_increased s) (sev_increased_after_release s) ->
  sublist (sev_lowered_and_increased s') (sev_increased_after_release s').
Proof.
  revert s. induction queries as [|[phase bugs] qs IH]; intros s H Hs.
  - injection H as <-. exact Hs.
  - cbn [handle_queries] in H. apply bind_inr_inv in H as (s1 & H1 & H).
    apply (IH _ H). exact (handle_sublist _ _ _ _ H1 Hs).
Qed.

Lemma handler_total (b : bug) (other : other_data) (s s' : store) :
  handler b other s = inr s' ->
  table_total (data_opened s') = table_total (data_opened s) + 1.
Proof.
  intros H.
  apply handler_returns_inv in H as (d & g & n & _ & Hc & -> & _).
  exact (table_total_bumped _ _ _ _ Hc).
Qed.

Lemma handle_total (bugs : list bug) (other : other_data) (s s' : store) :
  handle bugs other s = inr s' ->
  table_total (data_opened s')
  = table_total (data_opened s) + Z.of_nat (length bugs).
Proof.
  revert s. induction bugs as [|b bugs IH]; intros s H.
  - injection H as <-. simpl. lia.
  - cbn [handle_all] in H. apply bind_inr_inv in H as (s1 & H1 & H).
    rewrite (IH _ H), (handler_total _ _ _ _ H1). cbn [length]. lia.
Qed.

Lemma run_total (queries : list (string * list bug)) (s s' : store) :
  run queries s = inr s' ->
  table_total (data_opened s')
  = table_total (data_opened s) + Z.of_nat (length (all_records queries)).
Proof.
  revert s. induction queries as [|[phase bugs] qs IH]; intros s H.
  - injection H as <-. simpl. lia.
  - cbn [handle_queries] in H. apply bind_inr_inv in H as (s1 & H1 & H).
    rewrite (IH _ H), (handle_total _ _ _ _ H1).
    unfold all_records. cbn [map concat snd]. rewrite length_app. lia.
Qed.

Lemma handler_returns_iff (weeks : list string) (b : bug) (phase : string)
  (s : store) :
  shaped weeks (data_opened s) ->
  saving_ok bzdata_save_path s ->
  (returns (handler b (BugData phase) s) = true <-> is_handled weeks b)
  /\ forall s', handler b (BugData phase) s = inr s' ->
       shaped weeks (data_opened s') /\ saving_ok bzdata_save_path s'.
Proof.
  intros Hsh Hok. unfold handled.
  destruct (bug_handler_count release_date successor_release_date
              bzdata_save_path b phase s Hok) as (saved & Hs & ->).
  destruct (reconstruct _ _ b) as [e|d] eqn:Hd; cbn [bind returns].
  { split; [|discriminate]. split; [discriminate|]. intros [? _].
    discriminate. }
  rewrite record_bug_cell.
  destruct (reconstruct_in_range _ _ _ _ Hd) as (_&_&_&_&_&_& g & -> & Hg).
  pose proof (shaped_cell weeks _ g (week_key b) Hsh Hg) as Hc.
  destruct (cell (data_opened s) g (week_key b)) as [n|]; cbn [returns].
  - split.
    + split; [intros _|reflexivity]. split; [reflexivity|].
      apply Hc. discriminate.
    + intros s' [= <-]. cbn. split; [apply shaped_bumped; exact Hsh|exact Hs].
  - split; [|discriminate]. split; [discriminate|]. intros [_ Hw].
    apply Hc in Hw. congruence.
Qed.

Lemma handle_returns_iff (weeks : list string) (bugs : list bug)
  (phase : string) (s : store) :
  shaped weeks (data_opened s) ->
  saving_ok bzdata_save_path s ->
  (returns (handle bugs (BugData phase) s) = true
   <-> Forall (is_handled weeks) bugs)
  /\ forall s', handle bugs (BugData phase) s = inr s' ->
       shaped weeks (data_opened s') /\ saving_ok bzdata_save_path s'.
Proof.
  revert s. induction bugs as [|b bugs IH]; intros s Hsh Hok.
  - split; [split; [constructor|reflexivity]|].
    intros s' [= <-]. split; assumption.
  - destruct (handler_returns_iff weeks b phase s Hsh Hok) as [Hb Hk].
    cbn [handle_all]. rewrite Forall_cons_iff, <- Hb.
    destruct (handler b (BugData phase) s) as [e|s1]; cbn [bind returns].
    + split; [|discriminate]. split; [discriminate|]. intros [? _].
      discriminate.
    + destruct (Hk s1 eq_refl) as [Hsh1 Hok1].
      destruct (IH s1 Hsh1 Hok1) as [IH1 IH2].
      split; [|exact IH2]. rewrite IH1. tauto.
Qed.

Lemma run_returns_iff (weeks : list string)
  (queries : list (string * list bug)) (s : store) :
  shaped weeks (data_opened s) ->
  saving_ok bzdata_save_path s ->
  returns (run queries s) = true
  <-> Forall (is_handled weeks) (all_records queries).
Proof.
  revert s. induction queries as [|[phase bugs] qs IH]; intros s Hsh Hok.
  - split; [constructor|reflexivity].
  - destruct (handle_returns_iff weeks bugs phase s Hsh Hok) as [Hb Hk].
    cbn [handle_queries]. unfold all_records. cbn [map concat snd].
    rewrite Forall_app, <- Hb.
    destruct (handle bugs (BugData phase) s) as [e|s1]; cbn [bind returns].
    + split; [discriminate|]. intros [? _]. discriminate.
    + destruct (Hk s1 eq_refl) as [Hsh1 Hok1].
      rewrite (IH s1 Hsh1 Hok1). unfold all_records. tauto.
Qed.

End RunFacts.

Section ScriptRunFacts.

Variable release_date : Z.
Variable successor_release_date : Z.
Variable beta_start : date.
Variable weeks_opened : list string.

Local Abbreviation get :=
  (get_bugs release_date successor_release_date beta_start weeks_opened).

(** The two ways in which [get_bugs] returns. *)
Lemma get_bugs_inv (load save : option string) (loaded : option node)
  (queries : list (string * list bug)) (saved : node) (fb : string)
  (s : store) :
  get load save loaded queries saved = inr (fb, s) ->
  let s0 := Store (init_table weeks_opened) [] [] saved in
  (truthy load = false
   /\ handle_queries release_date successor_release_date save queries s0
      = inr s)
  \/ (truthy load = true
      /\ exists records,
           handle_all release_date successor_release_date save records
             DataOpened s0 = inr s).
Proof.
  unfold get_bugs. intros H. apply bind_inr_inv in H as (s1 & H1 & H).
  destruct (isocalendar beta_start) as [[y w] wd]. injection H as _ <-.
  destruct (truthy load); [right|left; split; [reflexivity|exact H1]].
  split; [reflexivity|]. destruct loaded as [doc|]; [|discriminate].
  apply bind_inr_inv in H1 as (o & _ & H1).
  apply bind_inr_inv in H1 as (n & _ & H1).
  apply bind_inr_inv in H1 as (records & _ & H1).
  exists records. exact H1.
Qed.

(** X8.  In the report [get_bugs] returns, every bug of the list of
    lowered-then-raised bugs is also in the list of bugs raised after
    release, and in the same order. *)
Theorem lowered_list_within_raised_list (load save : option string)
  (loaded : option node) (queries : list (string * list bug)) (saved : node)
  (fb : string) (s : store) :
  get load save loaded queries saved = inr (fb, s) ->
  sublist (sev_lowered_and_increased s) (sev_increased_after_release s).
Proof.
  intros H. apply get_bugs_inv in H as [[_ H]|[_ [records H]]].
  - apply (run_sublist _ _ _ _ _ _ H). constructor.
  - apply (handle_sublist _ _ _ _ _ _ _ H). constructor.
Qed.

(** X9.  When a live run of [get_bugs] returns, the counts of the table
    add up to the number of records the queries delivered: every record
    is counted once, none is dropped. *)
Theorem table_counts_every_record (load save : option string)
  (loaded : option node) (queries : list (string * list bug)) (saved : node)
  (fb : string) (s : store) :
  truthy load = false ->
  get load save loaded queries saved = inr (fb, s) ->
  table_total (data_opened s) = Z.of_nat (length (all_records queries)).
Proof.
  intros Hl H. apply get_bugs_inv in H as [[_ H]|[Ht _]]; [|congruence].
  rewrite (run_total _ _ _ _ _ _ H). cbn [data_opened].
  rewrite table_total_init. lia.
Qed.

(** X10.  A live run of [get_bugs] returns exactly when, for every record
    the queries deliver, the reconstructor returns and the week of
    creation is one of the weeks of the table; otherwise it raises. *)
Theorem live_run_returns_iff (load save : option string)
  (loaded : option node) (queries : list (string * list bug)) (saved : node) :
  truthy load = false ->
  (truthy save = true -> save_ok saved) ->
  returns (get load save loaded queries saved) = true
  <-> Forall (handled release_date successor_release_date weeks_opened)
             (all_records queries).
Proof.
  intros Hl Hs.
  rewrite <- (run_returns_iff release_date successor_release_date save
                weeks_opened queries
                (Store (init_table weeks_opened) [] [] saved)
                (shaped_init weeks_opened) Hs).
  unfold get_bugs. rewrite Hl.
  destruct (handle_queries _ _ _ _ _) as [e|s1]; cbn [bind returns];
    [reflexivity|].
  destruct (isocalendar beta_start) as [[y w] wd]. reflexivity.
Qed.

(** X11.  In load mode [get_bugs] reads the list under
    ['opened']['nightly'] and nothing else.  It returns only when that
    list is empty, and then with the table of zeros and no flagged bug;
    when a record is there, or the list is missing, it raises
    [KeyError]. *)
Theorem load_mode_result (load save : option string) (doc : node)
  (queries : list (string * list bug)) (saved : node) :
  truthy load = true ->
  get load save (Some doc) queries saved
  = match records_at ["opened"; "nightly"] doc with
    | Some [] =>
      inr (week_label beta_start,
           Store (init_table weeks_opened) [] [] saved)
    | _ => inl KeyError
    end.
Proof.
  intros Hl.
  unfold get_bugs, records_at, node_child, node_records, week_label.
  rewrite Hl. cbn [node_at].
  destruct (child "opened" (node_children doc)) as [o|]; [|reflexivity].
  cbn [bind ret]. destruct (child "nightly" (node_children o)) as [n|];
    [|reflexivity].
  cbn [bind ret]. destruct (node_data n) as [[|b rest]|]; [| |reflexivity].
  - cbn [bind handle_all ret].
    destruct (isocalendar beta_start) as [[y w] wd]. reflexivity.
  - cbn [bind ret handle_all bug_handler]. unfold subscript at 1.
    cbn [data_opened]. rewrite init_table_no_data_opened. reflexivity.
Qed.

End ScriptRunFacts.

(** ** The sub-windows of a phase *)

Lemma thirty_days_pos : 0 < thirty_days.
Proof. reflexivity. Qed.

(** The loop ends within the fuel whenever the fuel covers the phase. *)
Lemma phase_queries_returns (fuel : nat) (name : string) (start end_date : Z) :
  end_date < start + (Z.of_nat fuel - 1) * thirty_days ->
  (1 <= fuel)%nat ->
  exists qs, phase_queries fuel name start end_date = Some qs.
Proof.
  revert start. induction fuel as [|fuel IH]; intros start Hf H1; [lia|].
  cbn [phase_queries]. destruct (start <=? end_date) eqn:E; [|eauto].
  destruct (IH (start + thirty_days)) as [qs ->]; [| |eauto].
  - pose proof thirty_days_pos. nia.
  - pose proof thirty_days_pos. destruct fuel; [|lia]. simpl in Hf. lia.
Qed.

Lemma fuel_for_enough (start end_date : Z) :
  end_date < start + (Z.of_nat (fuel_for start end_date) - 1) * thirty_days.
Proof.
  unfold fuel_for. pose proof thirty_days_pos as Hp.
  rewrite Nat2Z.inj_succ.
  pose proof (Z.div_mod (end_date - start) thirty_days ltac:(lia)) as Hd.
  pose proof (Z.mod_pos_bound (end_date - start) thirty_days Hp) as Hm.
  destruct (Z_lt_le_dec ((end_date - start) / thirty_days + 1) 0) as [Hn|Hn].
  - rewrite Z2Nat.nonpos by lia. nia.
  - rewrite Z2Nat.id by lia. nia.
Qed.

(** Fuel beyond what the loop uses changes nothing. *)
Lemma phase_queries_more_fuel (fuel fuel' : nat) (name : string)
  (start end_date : Z) (qs : list query) :
  phase_queries fuel name start end_date = Some qs ->
  (fuel <= fuel')%nat ->
  phase_queries fuel' name start end_date = Some qs.
Proof.
  revert fuel' start qs. induction fuel as [|fuel IH];
    intros fuel' start qs H Hle; [discriminate|].
  destruct fuel' as [|fuel']; [lia|]. cbn [phase_queries] in H |- *.
  destruct (start <=? end_date); [|exact H].
  destruct (phase_queries fuel name (start + thirty_days) end_date)
    as [qs0|] eqn:E; [|discriminate].
  rewrite (IH fuel' _ _ E) by lia. exact H.
Qed.

(** What the loop has built when it ends: windows that follow one another
    from the start to the end of the phase. *)
Lemma phase_queries_count (fuel : nat) (name : string) (start end_date t : Z)
  (qs : list query) :
  phase_queries fuel name start end_date = Some qs ->
  (t < start -> length (List.filter (asks_for t) qs) = 0%nat)
  /\ (start <= t < end_date -> length (List.filter (asks_for t) qs) = 1%nat)
  /\ (end_date <= t -> length (List.filter (asks_for t) qs) = 0%nat).
Proof.
  pose proof thirty_days_pos as Hp.
  revert start qs. induction fuel as [|fuel IH]; intros start qs H;
    [discriminate|].
  cbn [phase_queries] in H. destruct (start <=? end_date) eqn:E.
  - destruct (phase_queries fuel name (start + thirty_days) end_date)
      as [qs0|] eqn:E0; [|discriminate].
    injection H as <-. destruct (IH _ _ E0) as (I1 & I2 & I3).
    cbn [List.filter].
    destruct (asks_for t _) eqn:Ea; unfold asks_for in Ea; cbn [v1 v2] in Ea;
      cbn [length]; repeat split; intros Ht; lia.
  - injection H as <-. repeat split; intros Ht; try reflexivity. lia.
Qed.

Lemma phase_windows_partition_aux (name : string) (start end_date : Z) :
  exists qs,
    phase_queries (fuel_for start end_date) name start end_date = Some qs
    /\ forall t,
         length (List.filter (asks_for t) qs)
         = if (start <=? t) && (t <? end_date) then 1%nat else 0%nat.
Proof.
  destruct (phase_queries_returns (fuel_for start end_date) name start
              end_date (fuel_for_enough start end_date))
    as [qs Hqs]; [unfold fuel_for; lia|].
  exists qs. split; [exact Hqs|]. intros t.
  destruct (phase_queries_count _ _ _ _ t _ Hqs) as (H1 & H2 & H3).
  destruct (start <=? t) eqn:E1; destruct (t <? end_date) eqn:E2; cbn [andb].
  - apply H2. lia.
  - apply H3. lia.
  - apply H1. lia.
  - apply H1. lia.
Qed.

Lemma filter_phase_same (t : Z) (name : string) (qs : list query) :
  Forall (fun q => query_phase q = name) qs ->
  List.filter (fun q => asks_for t q && String.eqb (query_phase q) name) qs
  = List.filter (asks_for t) qs.
Proof.
  induction 1 as [|q qs Hq _ IH]; [reflexivity|]. cbn [List.filter].
  rewrite Hq, String.eqb_refl, andb_true_r, IH. reflexivity.
Qed.

Lemma filter_phase_other (t : Z) (name other : string) (qs : list query) :
  name <> other ->
  Forall (fun q => query_phase q = name) qs ->
  List.filter (fun q => asks_for t q && String.eqb (query_phase q) other) qs
  = [].
Proof.
  intros Hne. induction 1 as [|q qs Hq _ IH]; [reflexivity|].
  cbn [List.filter]. rewrite Hq.
  replace (String.eqb name other) with false
    by (symmetry; apply String.eqb_neq; exact Hne).
  rewrite andb_false_r. exact IH.
Qed.

(** X12.  The loop of lines 317-336 ends, and the windows it builds cut
    the phase into pieces: every creation time from the start of the phase
    up to, but not including, its end is asked for by exactly one query of
    the phase, and no time outside the phase by any. *)
Theorem phase_windows_partition (name : string) (start end_date : Z) :
  exists qs,
    phase_queries (fuel_for start end_date) name start end_date = Some qs
    /\ forall t,
         length (List.filter (asks_for t) qs)
         = if (start <=? t) && (t <? end_date) then 1%nat else 0%nat.
Proof. exact (phase_windows_partition_aux name start end_date). Qed.

Lemma phase_queries_bounds (fuel : nat) (name : string) (start end_date : Z)
  (qs : list query) :
  phase_queries fuel name start end_date = Some qs ->
  Forall (fun q => query_phase q = name
                   /\ start <= v1 q <= v2 q
                   /\ v2 q <= v1 q + thirty_days
                   /\ v2 q <= end_date) qs.
Proof.
  pose proof thirty_days_pos as Hp.
  revert start qs. induction fuel as [|fuel IH]; intros start qs H;
    [discriminate|].
  cbn [phase_queries] in H. destruct (start <=? end_date) eqn:E.
  - destruct (phase_queries fuel name (start + thirty_days) end_date)
      as [qs0|] eqn:E0; [|discriminate].
    injection H as <-. constructor.
    + cbn [query_phase v1 v2]. repeat split; lia.
    + eapply Forall_impl; [apply (IH _ _ E0)|].
      intros q (H1 & H2 & H3 & H4). repeat split; try assumption; lia.
  - injection H as <-. constructor.
Qed.

Lemma phase_queries_last (fuel : nat) (name : string) (start end_date : Z)
  (qs : list query) :
  phase_queries fuel name start end_date = Some qs ->
  (end_date < start -> qs = [])
  /\ (start <= end_date ->
      Z.of_nat (length qs) = (end_date - start) / thirty_days + 1
      /\ exists q, last qs = Some q
           /\ v1 q = start + (end_date - start) / thirty_days * thirty_days
           /\ v2 q = end_date).
Proof.
  pose proof thirty_days_pos as Hp.
  revert start qs. induction fuel as [|fuel IH]; intros start qs H;
    [discriminate|].
  cbn [phase_queries] in H. destruct (start <=? end_date) eqn:E.
  - destruct (phase_queries fuel name (start + thirty_days) end_date)
      as [qs0|] eqn:E0; [|discriminate].
    injection H as <-. split; [lia|]. intros _.
    destruct (IH _ _ E0) as [I1 I2].
    destruct (Z_lt_le_dec end_date (start + thirty_days)) as [Hlt|Hge].
    + rewrite (I1 Hlt). cbn [length last].
      rewrite (Z.div_small (end_date - start)) by lia.
      split; [reflexivity|]. eexists. split; [reflexivity|].
      cbn [v1 v2]. lia.
    + destruct (I2 Hge) as (Hlen & q & Hq & Hv1 & Hv2).
      replace (end_date - (start + thirty_days))
        with ((end_date - start) + (-1) * thirty_days) in * by lia.
      rewrite Z.div_add in * by lia.
      cbn [length]. rewrite Nat2Z.inj_succ. split; [lia|].
      exists q. split; [|split; [lia|exact Hv2]].
      destruct qs0 as [|q0 qs0]; [discriminate|]. exact Hq.
  - injection H as <-. split; [reflexivity|lia].
Qed.

(** X13.  For a phase that does not end before it starts the loop sends
    one query more than there are whole 30-day windows in the phase.  No
    window is longer than 30 days, the windows stay inside the phase, and
    the last one ends with the phase; it is empty, asking for no creation
    time at all, exactly when the length of the phase is a whole number
    of windows.  A phase that ends before it starts sends no query. *)
Theorem phase_windows_shape (fuel : nat) (name : string) (start end_date : Z)
  (qs : list query) :
  phase_queries fuel name start end_date = Some qs ->
  Forall (fun q => query_phase q = name
                   /\ start <= v1 q <= v2 q
                   /\ v2 q <= v1 q + thirty_days
                   /\ v2 q <= end_date) qs
  /\ (end_date < start -> qs = [])
  /\ (start <= end_date ->
      Z.of_nat (length qs) = (end_date - start) / thirty_days + 1
      /\ exists q, last qs = Some q
           /\ v2 q = end_date
           /\ (v1 q = v2 q <-> (end_date - start) mod thirty_days = 0)).
Proof.
  intros H. split; [exact (phase_queries_bounds _ _ _ _ _ H)|].
  destruct (phase_queries_last _ _ _ _ _ H) as [H1 H2].
  split; [exact H1|]. intros Hle.
  destruct (H2 Hle) as (Hlen & q & Hq & Hv1 & Hv2).
  split; [exact Hlen|]. exists q. split; [exact Hq|]. split; [exact Hv2|].
  pose proof thirty_days_pos as Hp.
  pose proof (Z.div_mod (end_date - start) thirty_days ltac:(lia)) as Hd.
  lia.
Qed.

(** X14.  The queries of a run: every creation time of the nightly phase,
    from the first nightly up to the first beta, is asked for by exactly
    one nightly query, every creation time of the beta phase, from the
    first beta up to the release, by exactly one beta query; the first
    beta itself belongs to the beta phase. *)
Theorem run_queries_partition (fuel : nat)
  (nightly_start beta_start release_date : Z) :
  (fuel_for nightly_start beta_start <= fuel)%nat ->
  (fuel_for beta_start release_date <= fuel)%nat ->
  exists qs,
    make_queries fuel nightly_start beta_start release_date = Some qs
    /\ forall t,
         length (List.filter
                   (fun q => asks_for t q
                             && String.eqb (query_phase q) "nightly") qs)
         = (if (nightly_start <=? t) && (t <? beta_start)
            then 1%nat else 0%nat)
         /\ length (List.filter
                      (fun q => asks_for t q
                                && String.eqb (query_phase q) "beta") qs)
            = (if (beta_start <=? t) && (t <? release_date)
               then 1%nat else 0%nat).
Proof.
  intros F1 F2.
  destruct (phase_windows_partition_aux "nightly" nightly_start beta_start)
    as (qs1 & Hq1 & Hc1).
  destruct (phase_windows_partition_aux "beta" beta_start release_date)
    as (qs2 & Hq2 & Hc2).
  exists (qs1 ++ qs2). unfold make_queries.
  rewrite (phase_queries_more_fuel _ _ _ _ _ _ Hq1 F1),
    (phase_queries_more_fuel _ _ _ _ _ _ Hq2 F2).
  split; [reflexivity|]. intros t.
  pose proof (phase_queries_bounds _ _ _ _ _ Hq1) as B1.
  pose proof (phase_queries_bounds _ _ _ _ _ Hq2) as B2.
  rewrite !List.filter_app, !length_app.
  rewrite (filter_phase_same t "nightly" qs1),
    (filter_phase_other t "beta" "nightly" qs2),
    (filter_phase_same t "beta" qs2),
    (filter_phase_other t "nightly" "beta" qs1), Hc1, Hc2;
    try (eapply Forall_impl; [eassumption|]; intros q Hq; apply Hq);
    try discriminate.
  cbn [length].
  destruct ((nightly_start <=? t) && (t <? beta_start));
    destruct ((beta_start <=? t) && (t <? release_date)); split; lia.
Qed.

(** ** The report *)

Lemma sorted_keys_In (r : gmap string Z) (w : string) :
  In w (sorted_keys r) <-> r !! w <> None.
Proof.
  unfold sorted_keys. rewrite <- list_elem_of_In.
  rewrite merge_sort_Permutation, list_elem_of_fmap. split.
  - intros ([k v] & -> & Hkv). apply elem_of_map_to_list in Hkv.
    cbn. congruence.
  - intros Hn. destruct (r !! w) as [v|] eqn:E; [|congruence].
    exists (w, v). split; [reflexivity|]. apply elem_of_map_to_list. exact E.
Qed.

Lemma sorted_keys_sorted (r : gmap string Z) :
  Sorted String.le (sorted_keys r) /\ NoDup (sorted_keys r).
Proof.
  unfold sorted_keys. split; [apply Sorted_merge_sort; apply _|].
  rewrite merge_sort_Permutation. apply NoDup_fst_map_to_list.
Qed.

Lemma subscripts_inv (r : gmap string Z) (ws : list string) (ns : list Z) :
  subscripts r ws = inr ns ->
  ns = map (fun w => match r !! w with Some n => n | None => 0 end) ws
  /\ Forall (fun w => r !! w <> None) ws.
Proof.
  revert ns. induction ws as [|w ws IH]; intros ns H.
  - injection H as <-. split; [reflexivity|constructor].
  - cbn [subscripts] in H. apply bind_inr_inv in H as (n & Hn & H).
    apply bind_inr_inv in H as (ns0 & H0 & H). injection H as <-.
    destruct (IH _ H0) as [-> Hall]. unfold subscript in Hn.
    destruct (r !! w) as [m|] eqn:E; [|discriminate]. injection Hn as <-.
    split; [cbn [map]; rewrite E; reflexivity|].
    constructor; [congruence|exact Hall].
Qed.

Lemma subscripts_returns (r : gmap string Z) (ws : list string) :
  Forall (fun w => r !! w <> None) ws ->
  exists ns, subscripts r ws = inr ns.
Proof.
  induction 1 as [|w ws Hw _ [ns IH]]; [eexists; reflexivity|].
  cbn [subscripts]. unfold subscript.
  destruct (r !! w); [|congruence]. cbn [bind ret]. rewrite IH.
  eexists. reflexivity.
Qed.

Lemma count_rows_inv (tbl : gmap string (gmap string Z))
  (weeks sevs : list string) (rows : list (list csv_cell)) :
  count_rows tbl weeks sevs = inr rows ->
  rows = map (fun sev => Str sev
                         :: map (fun w => Num (count_at tbl sev w)) weeks) sevs
  /\ Forall (fun sev => Forall (fun w => cell tbl sev w <> None) weeks) sevs.
Proof.
  revert rows. induction sevs as [|sev sevs IH]; intros rows H.
  - injection H as <-. split; [reflexivity|constructor].
  - cbn [count_rows] in H. apply bind_inr_inv in H as (r & Hr & H).
    apply bind_inr_inv in H as (ns & Hns & H).
    apply bind_inr_inv in H as (rows0 & H0 & H). injection H as <-.
    destruct (IH _ H0) as [-> Hall]. unfold subscript in Hr.
    destruct (tbl !! sev) as [r0|] eqn:E; [|discriminate]. injection Hr as <-.
    destruct (subscripts_inv _ _ _ Hns) as [-> Hw].
    unfold count_at, cell. split.
    + cbn [map]. rewrite E, map_map. reflexivity.
    + constructor; [|exact Hall]. rewrite E. exact Hw.
Qed.

Lemma count_rows_returns (tbl : gmap string (gmap string Z))
  (weeks sevs : list string) :
  Forall (fun sev => Forall (fun w => cell tbl sev w <> None) weeks
                     /\ tbl !! sev <> None) sevs ->
  exists rows, count_rows tbl weeks sevs = inr rows.
Proof.
  induction 1 as [|sev sevs [Hw Hs] _ [rows IH]]; [eexists; reflexivity|].
  cbn [count_rows]. unfold subscript, cell in *.
  destruct (tbl !! sev) as [r|]; [|congruence]. cbn [bind ret].
  destruct (subscripts_returns r weeks Hw) as [ns ->]. cbn [bind].
  rewrite IH. eexists. reflexivity.
Qed.

Lemma write_csv_rows_shaped (weeks : list string) (beta_start : date)
  (tbl : gmap string (gmap string Z)) (lowered increased : list flagged) :
  shaped weeks tbl ->
  exists rows, write_csv_rows beta_start tbl lowered increased = inr rows.
Proof.
  intros Hsh. unfold write_csv_rows, subscript.
  pose proof (Hsh "normal") as Hn.
  destruct (tbl !! "normal") as [normal|] eqn:En;
    [|exfalso; apply Hn; simpl; tauto].
  destruct Hn as [_ Hkeys]. cbn [bind ret].
  destruct (count_rows_returns tbl (sorted_keys normal) REPORT_GROUPS)
    as [rows ->]; [|eexists; reflexivity].
  assert (Hg : forall sev, In sev SEVERITIES_GROUP_LIST ->
            Forall (fun w => cell tbl sev w <> None) (sorted_keys normal)
            /\ tbl !! sev <> None).
  { intros sev Hin. pose proof (Hsh sev) as Hs. unfold cell.
    destruct (tbl !! sev) as [r|]; [|contradiction].
    split; [|discriminate]. apply Forall_forall. intros w Hw.
    apply list_elem_of_In, sorted_keys_In, Hkeys in Hw. apply Hs. exact Hw. }
  repeat constructor; apply Hg; simpl; tauto.
Qed.

(** X15.  The report leaves out every group but the three of line 376:
    the counts of the enhancement group, whatever they are, change no row
    of it. *)
Theorem report_ignores_other_groups (beta_start : date)
  (tbl : gmap string (gmap string Z)) (lowered increased : list flagged)
  (g : string) (r : gmap string Z) :
  ~ In g REPORT_GROUPS ->
  write_csv_rows beta_start (<[g := r]> tbl) lowered increased
  = write_csv_rows beta_start tbl lowered increased.
Proof.
  intros Hg. unfold write_csv_rows, REPORT_GROUPS in *. cbn [count_rows].
  unfold subscript.
  rewrite !lookup_insert_ne by (intros ->; apply Hg; simpl; tauto).
  reflexivity.
Qed.

(** X16.  The rows of a report that is written.  The weeks of the header
    are the keys of the row of the normal group in ascending order, each
    once; the three rows of counts follow in the order of line 376, and
    each shows, week by week, the count the table holds for its group. *)
Theorem report_rows_content (beta_start : date)
  (tbl : gmap string (gmap string Z)) (lowered increased : list flagged)
  (rows : list (list csv_cell)) :
  write_csv_rows beta_start tbl lowered increased = inr rows ->
  exists normal weeks,
    tbl !! "normal" = Some normal
    /\ Sorted String.le weeks /\ NoDup weeks
    /\ (forall w, In w weeks <-> normal !! w <> None)
    /\ (forall sev w, In sev REPORT_GROUPS -> In w weeks ->
                      cell tbl sev w <> None)
    /\ rows
       = report_head (week_label beta_start) weeks
         ++ map (fun sev => Str sev
                            :: map (fun w => Num (count_at tbl sev w)) weeks)
                REPORT_GROUPS
         ++ report_tail lowered increased.
Proof.
  unfold write_csv_rows. intros H.
  apply bind_inr_inv in H as (normal & Hn & H).
  apply bind_inr_inv in H as (rows0 & H0 & H). injection H as <-.
  unfold subscript in Hn. destruct (tbl !! "normal") as [r|]; [|discriminate].
  injection Hn as <-. destruct (count_rows_inv _ _ _ _ H0) as [-> Hall].
  exists r, (sorted_keys r). split; [reflexivity|].
  destruct (sorted_keys_sorted r) as [Hs Hd].
  split; [exact Hs|]. split; [exact Hd|].
  split; [apply sorted_keys_In|]. split; [|reflexivity].
  intros sev w Hsev Hw. rewrite Forall_forall in Hall.
  apply list_elem_of_In in Hsev. specialize (Hall sev Hsev).
  rewrite Forall_forall in Hall. apply Hall, list_elem_of_In, Hw.
Qed.

Section ReportFacts.

Variable release_date : Z.
Variable successor_release_date : Z.
Variable beta_start : date.
Variable weeks_opened : list string.

Lemma handle_shaped (save : option string) (weeks : list string)
  (bugs : list bug) (other : other_data) (s s' : store) :
  handle_all release_date successor_release_date save bugs other s = inr s' ->
  shaped weeks (data_opened s) -> shaped weeks (data_opened s').
Proof.
  revert s. induction bugs as [|b bugs IH]; intros s H Hs.
  - injection H as <-. exact Hs.
  - cbn [handle_all] in H. apply bind_inr_inv in H as (s1 & H1 & H).
    apply (IH _ H).
    apply handler_returns_inv in H1 as (d & g & n & _ & _ & -> & _).
    apply shaped_bumped. exact Hs.
Qed.

Lemma run_shaped (save : option string) (weeks : list string)
  (queries : list (string * list bug)) (s s' : store) :
  handle_queries release_date successor_release_date save queries s = inr s' ->
  shaped weeks (data_opened s) -> shaped weeks (data_opened s').
Proof.
  revert s. induction queries as [|[phase bugs] qs IH]; intros s H Hs.
  - injection H as <-. exact Hs.
  - cbn [handle_queries] in H. apply bind_inr_inv in H as (s1 & H1 & H).
    apply (IH _ H). exact (handle_shaped _ _ _ _ _ _ H1 Hs).
Qed.

(** X17.  Whatever [get_bugs] returns can be written: the table still has
    its rows for the three groups of the report, each with a count for
    every week of the header, so that no subscript of lines 373-378
    fails. *)
Theorem report_is_written (load save : option string) (loaded : option node)
  (queries : list (string * list bug)) (saved : node) (fb : string)
  (s : store) :
  get_bugs release_date successor_release_date beta_start weeks_opened
    load save loaded queries saved = inr (fb, s) ->
  exists rows,
    write_csv_rows beta_start (data_opened s) (sev_lowered_and_increased s)
      (sev_increased_after_release s) = inr rows.
Proof.
  intros H. apply (write_csv_rows_shaped weeks_opened).
  apply get_bugs_inv in H as [[_ H]|[_ [records H]]].
  - apply (run_shaped _ _ _ _ _ H), shaped_init.
  - apply (handle_shaped _ _ _ _ _ _ H), shaped_init.
Qed.

End ReportFacts.

(** ** The derived severities as maxima *)

Lemma derive_inv (p : bool) (i j k : Z) (l : option Z) (d : derived) :
  derive (Walk p (Some i) (Some j) (Some k) l) = inr d ->
  getitem SEVERITIES_LIST i = inr (sev_before_release d)
  /\ getitem SEVERITIES_LIST j = inr (sev_at_release d)
  /\ getitem SEVERITIES_LIST k = inr (sev_after_release d).
Proof.
  unfold derive. cbn [severity_highest_index_before_release
    severity_index_at_release severity_highest_index_after_release
    getitem_var]. intros H.
  apply bind_inr_inv in H as (x & Hx & H).
  apply bind_inr_inv in H as (y & Hy & H).
  apply bind_inr_inv in H as (z & Hz & H).
  apply bind_inr_inv in H as (gx & _ & H).
  apply bind_inr_inv in H as (gy & _ & H).
  apply bind_inr_inv in H as (gz & _ & H).
  injection H as <-. auto.
Qed.

Lemma severity_index_getitem (i : Z) (s : string) :
  0 <= i <= 6 -> getitem SEVERITIES_LIST i = inr s -> severity_index s = i.
Proof.
  intros H.
  assert (i = 0 \/ i = 1 \/ i = 2 \/ i = 3 \/ i = 4 \/ i = 5 \/ i = 6)
    as [-> | [-> | [-> | [-> | [-> | [-> | ->]]]]]] by lia;
    intros [= <-]; reflexivity.
Qed.

Lemma getitem_severity_index (s : string) :
  is_severity s -> getitem SEVERITIES_LIST (severity_index s) = inr s.
Proof.
  intros H. apply getitem_index, index_severity_index. exact H.
Qed.

(** A list in ascending order of time splits at the release. *)
Lemma split_at_release (release_date : Z) (l : list (Z * change)) :
  Sorted Z.le (map fst l) ->
  exists l1 l2, l = l1 ++ l2
    /\ Forall (fun tc => fst tc <= release_date) l1
    /\ Forall (fun tc => fst tc > release_date) l2.
Proof.
  intros Hs. apply Sorted_StronglySorted in Hs; [|intros x y z; lia].
  induction l as [|[t c] l IH]; [exists [], []; repeat constructor|].
  cbn [map fst] in Hs. apply StronglySorted_inv in Hs as [Hs Hall].
  destruct (Z_le_gt_dec t release_date) as [Hle|Hgt].
  - destruct (IH Hs) as (l1 & l2 & -> & H1 & H2).
    exists ((t, c) :: l1), l2. repeat split; [constructor|]; assumption.
  - exists [], ((t, c) :: l). repeat split; [constructor|].
    constructor; [exact Hgt|]. rewrite Forall_map in Hall.
    eapply Forall_impl; [exact Hall|]. cbn. intros; lia.
Qed.

Section MaximaFacts.

Variable release_date : Z.
Variable successor_release_date : Z.

Local Abbreviation flat := (walk_flat release_date successor_release_date).

Lemma flat_in_window (t : Z) (c : change) (l : list (Z * change)) (st : walk) :
  t <= successor_release_date ->
  flat ((t, c) :: l) st
  = bind (process_change release_date t (severity_index (removed c))
                         (severity_index (added c)) st)
         (flat l).
Proof.
  intros Ht. cbn [walk_flat].
  replace (t >? successor_release_date) with false by lia. reflexivity.
Qed.

(** The walk over changes that are not after the release. *)
Lemma flat_before_release (l : list (Z * change)) (st : walk) :
  Forall (fun tc => fst tc <= successor_release_date
                    /\ fst tc <= release_date
                    /\ change_wf (snd tc)) l ->
  pre_release_phase st = true ->
  idx_ok (severity_highest_index_before_release st) ->
  exists st',
    flat l st = inr st'
    /\ pre_release_phase st' = true
    /\ severity_index_at_release st' = severity_index_at_release st
    /\ severity_highest_index_after_release st'
       = severity_highest_index_after_release st
    /\ severity_index_last_processed st' = severity_index_last_processed st
    /\ idx_ok (severity_highest_index_before_release st')
    /\ match l with
       | [] => st' = st
       | (_, c1) :: _ =>
         exists m, severity_highest_index_before_release st' = Some m
           /\ (forall t c, In (t, c) l -> severity_index (added c) <= m)
           /\ match severity_highest_index_before_release st with
              | Some m0 => m0 <= m
              | None => severity_index (removed c1) <= m
              end
       end.
Proof.
  revert st. induction l as [|[t c] l IH]; intros st Hl Hp Hb.
  - exists st. repeat split; auto.
  - apply Forall_cons_iff in Hl as [(Hs & Hr & Ho & Hn) Hl]. cbn [fst snd] in *.
    rewrite flat_in_window by exact Hs.
    rewrite process_change_pre by assumption. cbn [bind].
    pose proof (severity_index_range _ Ho) as Ro.
    pose proof (severity_index_range _ Hn) as Rn.
    set (m1 := Z.max (or_else (severity_highest_index_before_release st)
                        (severity_index (removed c)))
                     (severity_index (added c))).
    assert (R1 : 0 <= m1 <= 6).
    { subst m1. destruct (severity_highest_index_before_release st);
        simpl in *; lia. }
    destruct (IH (Walk true (Some m1) (severity_index_at_release st)
                    (severity_highest_index_after_release st)
                    (severity_index_last_processed st)) Hl eq_refl R1)
      as (st' & H' & Hp' & Ha' & Hf' & Hl' & Hb' & Hm).
    exists st'. split; [exact H'|]. repeat split; try assumption.
    cbn in Hm. destruct l as [|[t2 c2] l2].
    + subst st'. exists m1. split; [reflexivity|]. split.
      * intros t0 c0 [[= <- <-]|[]]. subst m1. lia.
      * subst m1. destruct (severity_highest_index_before_release st);
          simpl; lia.
    + destruct Hm as (m & Hm & Hall & Hle). exists m. split; [exact Hm|].
      split.
      * intros t0 c0 [[= <- <-]|Hin]; [subst m1; lia|exact (Hall _ _ Hin)].
      * subst m1. destruct (severity_highest_index_before_release st);
          simpl in *; lia.
Qed.

(** The walk once the release is crossed. *)
Lemma flat_after_release (l : list (Z * change)) (st : walk) (a : Z) :
  Forall (fun tc => fst tc <= successor_release_date
                    /\ change_wf (snd tc)) l ->
  pre_release_phase st = false ->
  severity_highest_index_after_release st = Some a ->
  0 <= a <= 6 ->
  exists st' a',
    flat l st = inr st'
    /\ pre_release_phase st' = false
    /\ severity_highest_index_before_release st'
       = severity_highest_index_before_release st
    /\ severity_index_at_release st' = severity_index_at_release st
    /\ severity_highest_index_after_release st' = Some a'
    /\ a <= a' <= 6
    /\ forall t c, In (t, c) l -> severity_index (added c) <= a'.
Proof.
  revert st a. induction l as [|[t c] l IH]; intros st a Hl Hp Ha Ra.
  - exists st, a. repeat split; auto; try lia. intros t c [].
  - apply Forall_cons_iff in Hl as [(Hs & Ho & Hn) Hl]. cbn [fst snd] in *.
    rewrite flat_in_window by exact Hs.
    pose proof (severity_index_range _ Hn) as Rn.
    destruct st as [p b at_rel f last]. cbn in Hp, Ha. subst p f.
    unfold process_change. cbn [pre_release_phase andb bind ret
      severity_highest_index_after_release py_max
      severity_highest_index_before_release severity_index_at_release
      severity_index_last_processed].
    destruct (IH (Walk false b at_rel
                    (Some (Z.max a (severity_index (added c)))) last)
                 (Z.max a (severity_index (added c))) Hl eq_refl eq_refl)
      as (st' & a' & H' & Hp' & Hb' & Ha' & Hf' & Ra' & Hall); [lia|].
    exists st', a'. repeat split; try assumption; try lia.
    intros t0 c0 [[= <- <-]|Hin]; [lia|exact (Hall _ _ Hin)].
Qed.

(** The change that crosses the release. *)
Lemma process_change_crossing (t old new : Z) (st : walk) :
  t > release_date ->
  pre_release_phase st = true ->
  process_change release_date t old new st
  = match severity_highest_index_before_release st with
    | None => inl TypeError
    | Some m =>
      inr (Walk false (Some (Z.max m old)) (Some old)
             (Some (Z.max new new)) (severity_index_last_processed st))
    end.
Proof.
  intros Ht Hp. destruct st as [p b a f l]. cbn in Hp. subst p.
  unfold process_change. cbn [pre_release_phase andb].
  replace (t >? release_date) with true by lia.
  destruct b; reflexivity.
Qed.

Lemma in_window_times (h : list history_item) :
  Forall (fun tc => fst tc <= successor_release_date)
         (severity_changes (in_window successor_release_date h)).
Proof.
  unfold in_window. induction h as [|it h IH]; [constructor|].
  cbn [List.filter]. unfold out_of_window at 1.
  destruct (when it >? successor_release_date) eqn:E; cbn [negb];
    [exact IH|].
  rewrite severity_changes_cons. apply Forall_app. split; [|exact IH].
  rewrite Forall_map. apply Forall_forall. intros c _. cbn. lia.
Qed.

Lemma filter_after_release (l1 l2 : list (Z * change)) :
  Forall (fun tc => fst tc <= release_date) l1 ->
  Forall (fun tc => fst tc > release_date) l2 ->
  List.filter (fun tc => fst tc >? release_date) (l1 ++ l2) = l2.
Proof.
  intros H1 H2. rewrite List.filter_app.
  replace (List.filter _ l1) with (@nil (Z * change)).
  - cbn [app]. induction H2 as [|tc l Ht _ IH]; [reflexivity|].
    cbn [List.filter]. replace (fst tc >? release_date) with true by lia.
    f_equal. exact IH.
  - induction H1 as [|tc l Ht _ IH]; [reflexivity|].
    cbn [List.filter]. replace (fst tc >? release_date) with false by lia.
    exact IH.
Qed.

(** X18.  For a well-formed record whose severity changes inside the
    window are in ascending order of time, the derived severities bound
    the changes: the severity before the release is at least every
    severity set up to the release, the severity after the release is at
    least every severity set after it, and the severity at the release is
    the one the first change after the release removed, which the severity
    before the release also bounds.  Without a change after the release,
    the severities at and after the release are both the fallback
    severity. *)
Theorem derived_severities_bound_changes (b : bug) (d : derived) :
  bug_wf b ->
  Sorted Z.le
    (map fst
       (severity_changes (in_window successor_release_date (history b)))) ->
  reconstruct release_date successor_release_date b = inr d ->
  (forall t c,
      In (t, c)
         (severity_changes (in_window successor_release_date (history b))) ->
      (t <= release_date ->
       severity_index (added c) <= severity_index (sev_before_release d))
      /\ (t > release_date ->
          severity_index (added c) <= severity_index (sev_after_release d)))
  /\ match List.filter (fun tc => fst tc >? release_date)
             (severity_changes
                (in_window successor_release_date (history b))) with
     | [] =>
       sev_at_release d = fallback_severity successor_release_date b
       /\ sev_after_release d = fallback_severity successor_release_date b
     | (_, c0) :: _ =>
       sev_at_release d = removed c0
       /\ severity_index (sev_at_release d)
          <= severity_index (sev_before_release d)
     end.
Proof.
  intros Hwf Hs H.
  pose proof (fallback_is_severity successor_release_date b Hwf) as Hf.
  pose proof (severity_index_range _ Hf) as Rf.
  rewrite (reconstruct_cut release_date successor_release_date b Hwf) in H.
  destruct Hwf as [_ Hh].
  apply (history_wf_filter
           (fun it => negb (out_of_window successor_release_date it)))
    in Hh.
  change (history_wf (in_window successor_release_date (history b))) in Hh.
  unfold reconstruct, truncated in H.
  cbn [with_history severity history] in H.
  rewrite (index_severity_index _ Hf) in H. cbn [bind] in H.
  rewrite (walk_history_flat _ _ _ _ Hh) in H.
  pose proof (in_window_times (history b)) as Ht.
  unfold history_wf in Hh.
  destruct (split_at_release release_date _ Hs) as (l1 & l2 & E & H1 & H2).
  rewrite E in *. clear E Hs.
  rewrite (filter_after_release _ _ H1 H2).
  apply Forall_app in Ht as [Ht1 Ht2]. apply Forall_app in Hh as [Hh1 Hh2].
  rewrite walk_flat_app in H.
  destruct (flat_before_release l1 walk_init) as
    (st1 & F1 & Hp1 & Ha1 & Hf1 & Hl1 & Hb1 & Hm1);
    [| reflexivity | exact I |].
  { apply Forall_forall. intros tc Hin.
    rewrite Forall_forall in Ht1, H1, Hh1. auto. }
  rewrite F1 in H. cbn [bind] in H.
  destruct st1 as [p1 b1 a1 f1 last1].
  cbn [pre_release_phase severity_index_at_release
       severity_highest_index_after_release severity_index_last_processed
       severity_highest_index_before_release walk_init] in *.
  subst p1 a1 f1 last1.
  destruct l2 as [|[t0 c0] l2].
  - (* no change after the release *)
    cbn [walk_flat bind ret] in H.
    unfold finish in H. cbn [pre_release_phase severity_index_at_release
      severity_highest_index_after_release severity_index_last_processed
      severity_highest_index_before_release or_else] in H.
    apply derive_inv in H as (Gb & Ga & Gf).
    rewrite (getitem_severity_index _ Hf) in Ga, Gf.
    injection Ga as Ga. injection Gf as Gf.
    split; [|split; congruence].
    intros t c Hin. rewrite app_nil_r in Hin. split.
    + intros _. destruct l1 as [|[t1 c1] l1]; [destruct Hin|].
      destruct Hm1 as (m & -> & Hall & _). cbn [or_else] in Gb.
      cbn [idx_ok] in Hb1.
      rewrite (severity_index_getitem _ _ Hb1 Gb). exact (Hall _ _ Hin).
    + intros Hgt. rewrite List.Forall_forall in H1. specialize (H1 _ Hin).
      cbn in H1. lia.
  - (* the release is crossed at [t0] *)
    apply Forall_cons_iff in H2 as [Hgt0 H2]. cbn [fst] in Hgt0.
    apply Forall_cons_iff in Ht2 as [Hle0 Ht2]. cbn [fst] in Hle0.
    apply Forall_cons_iff in Hh2 as [[Ho0 Hn0] Hh2]. cbn [snd] in Ho0, Hn0.
    pose proof (severity_index_range _ Ho0) as Ro0.
    pose proof (severity_index_range _ Hn0) as Rn0.
    rewrite flat_in_window in H by exact Hle0.
    rewrite process_change_crossing in H by (try reflexivity; exact Hgt0).
    cbn [severity_highest_index_before_release
         severity_index_last_processed] in H.
    destruct b1 as [m|]; [|discriminate H]. cbn [bind idx_ok] in H, Hb1.
    destruct (flat_after_release l2
                (Walk false (Some (Z.max m (severity_index (removed c0))))
                   (Some (severity_index (removed c0)))
                   (Some (Z.max (severity_index (added c0))
                                (severity_index (added c0)))) None)
                (Z.max (severity_index (added c0))
                       (severity_index (added c0))))
      as (st2 & a2 & F2 & Hp2 & Hbb2 & Ha2 & Hf2 & Ra2 & Hall2);
      [| reflexivity | reflexivity | lia |].
    { apply Forall_forall. intros tc Hin.
      rewrite Forall_forall in Ht2, Hh2. auto. }
    rewrite F2 in H. cbn [bind] in H.
    destruct st2 as [p2 b2 at2 f2 last2].
    cbn [pre_release_phase severity_index_at_release
       severity_highest_index_after_release severity_index_last_processed
       severity_highest_index_before_release] in *.
    subst p2 b2 at2 f2.
    unfold finish in H. cbn [pre_release_phase severity_index_at_release
      severity_highest_index_after_release severity_index_last_processed
      severity_highest_index_before_release] in H.
    apply derive_inv in H as (Gb & Ga & Gf).
    rewrite (getitem_severity_index _ Ho0) in Ga. injection Ga as Ga.
    apply severity_index_getitem in Gb; [|lia].
    apply severity_index_getitem in Gf; [|lia].
    rewrite Gb, Gf, <- Ga. split; [|split; [reflexivity|lia]].
    intros t c Hin. apply in_app_or in Hin as [Hin|Hin]; split.
    + intros _. destruct l1 as [|[t1 c1] l1]; [destruct Hin|].
      destruct Hm1 as (m' & [= <-] & Hall & _).
      specialize (Hall _ _ Hin). lia.
    + intros Hgt. rewrite List.Forall_forall in H1. specialize (H1 _ Hin).
      cbn in H1. lia.
    + intros Hle. destruct Hin as [[= <- <-]|Hin]; [lia|].
      rewrite List.Forall_forall in H2. specialize (H2 _ Hin). cbn in H2. lia.
    + intros _. destruct Hin as [[= <- <-]|Hin]; [lia|].
      specialize (Hall2 _ _ Hin). lia.
Qed.

End MaximaFacts.

(** ** The further statements at sample records *)

Lemma add_appends_at_path_witness :
  ~ In "data" ["opened"; "nightly"]
  /\ exists n',
       add_bugzilla_data_to_save ["opened"; "nightly"] other_bug sample_doc
       = inr n'
       /\ records_at ["opened"; "nightly"] n'
          = Some (records_or_empty
                    (records_at ["opened"; "nightly"] sample_doc)
                  ++ [other_bug]).
Proof.
  assert (H1 : ~ In "data" ["opened"; "nightly"])
    by (intros [H|[H|[]]]; discriminate H).
  split; [exact H1|]. eexists. split; [vm_compute; reflexivity|].
  apply (add_appends_at_path ["opened"; "nightly"] other_bug sample_doc
           _ H1).
  vm_compute. reflexivity.
Defined.

Lemma add_keeps_other_paths_witness :
  ~ In "data" ["opened"; "beta"]
  /\ ["opened"; "nightly"] <> ["opened"; "beta"]
  /\ exists n',
       add_bugzilla_data_to_save ["opened"; "beta"] other_bug sample_doc
       = inr n'
       /\ (records_at ["opened"; "nightly"] n'
           = records_at ["opened"; "nightly"] sample_doc
           \/ (node_at ["opened"; "nightly"] sample_doc = None
               /\ records_at ["opened"; "nightly"] n' = Some [])).
Proof.
  assert (H1 : ~ In "data" ["opened"; "beta"])
    by (intros [H|[H|[]]]; discriminate H).
  assert (H2 : ["opened"; "nightly"] <> ["opened"; "beta"]) by discriminate.
  split; [exact H1|]. split; [exact H2|].
  eexists. split; [vm_compute; reflexivity|].
  apply (add_keeps_other_paths ["opened"; "beta"] ["opened"; "nightly"]
           other_bug sample_doc _ H1); [|exact H2].
  vm_compute. reflexivity.
Defined.

Lemma add_raises_iff_witness :
  let n := Node None [("opened", empty_node)] in
  ~ In "data" ["opened"]
  /\ (add_bugzilla_data_to_save ["opened"] other_bug n = inl KeyError
      <-> exists c, node_at ["opened"] n = Some c /\ node_data c = None)
  /\ (returns (add_bugzilla_data_to_save ["opened"] other_bug n) = false
      -> add_bugzilla_data_to_save ["opened"] other_bug n = inl KeyError).
Proof.
  intros n.
  assert (H1 : ~ In "data" ["opened"]) by (intros [H|[]]; discriminate H).
  split; [exact H1|].
  apply (add_raises_iff ["opened"] other_bug n H1).
Defined.

Lemma cache_holds_every_record_witness :
  bzdata_load sample_args = None
  /\ bzdata_save sample_args <> None
  /\ Forall (fun pq => fst pq <> "data") sample_queries
  /\ exists fs',
       main (days 30) (days 100) (Date 2024 1 10) sample_weeks sample_args
         sample_queries (empty : gmap string file) = inr fs'
       /\ exists doc,
            fs' !! default_bzdata_path (product_version sample_args)
            = Some (JsonFile doc)
            /\ forall p, records_or_empty (records_at ["opened"; p] doc)
                         = records_of_phase p sample_queries.
Proof.
  assert (H1 : bzdata_load sample_args = None) by reflexivity.
  assert (H2 : bzdata_save sample_args <> None) by discriminate.
  assert (H3 : Forall (fun pq => fst pq <> "data") sample_queries)
    by (repeat constructor; discriminate).
  split; [exact H1|]. split; [exact H2|]. split; [exact H3|].
  eexists. split; [vm_compute; reflexivity|].
  apply (cache_holds_every_record (days 30) (days 100) (Date 2024 1 10)
           sample_weeks sample_args sample_queries
           (empty : gmap string file) _ H1 H2 H3).
  vm_compute. reflexivity.
Defined.

Lemma reconstruct_in_range_witness :
  exists d,
    reconstruct (days 30) (days 100) scenario_bug = inr d
    /\ is_severity (sev_before_release d)
    /\ is_severity (sev_at_release d)
    /\ is_severity (sev_after_release d)
    /\ 0 <= sev_group_before_release d <= 3
    /\ 0 <= sev_group_at_release d <= 3
    /\ 0 <= sev_group_after_release d <= 3
    /\ exists g, sev_group_highest d = inr g /\ In g SEVERITIES_GROUP_LIST.
Proof.
  eexists. split; [vm_compute; reflexivity|].
  apply (reconstruct_in_range (days 30) (days 100) scenario_bug).
  vm_compute. reflexivity.
Defined.

Lemma reconstruct_returns_iff_witness :
  bug_wf scenario_bug
  /\ (returns (reconstruct (days 30) (days 100) scenario_bug) = true
      <-> match severity_changes
                  (in_window (days 100) (history scenario_bug)) with
          | [] => True
          | (t, _) :: _ => t <= days 30
          end)
  /\ (returns (reconstruct (days 30) (days 100) scenario_bug) = false ->
      reconstruct (days 30) (days 100) scenario_bug = inl TypeError).
Proof.
  assert (H : bug_wf scenario_bug) by wf_sample.
  split; [exact H|].
  apply (reconstruct_returns_iff (days 30) (days 100) scenario_bug H).
Defined.

Lemma reconstruct_depends_on_severity_changes_witness :
  bug_wf scenario_bug
  /\ bug_wf regrouped_bug
  /\ severity scenario_bug = severity regrouped_bug
  /\ severity_changes (history scenario_bug)
     = severity_changes (history regrouped_bug)
  /\ reconstruct (days 30) (days 100) scenario_bug
     = reconstruct (days 30) (days 100) regrouped_bug.
Proof.
  assert (H1 : bug_wf scenario_bug) by wf_sample.
  assert (H2 : bug_wf regrouped_bug) by wf_sample.
  split; [exact H1|]. split; [exact H2|].
  split; [reflexivity|]. split; [reflexivity|].
  apply (reconstruct_depends_on_severity_changes (days 30) (days 100)
           scenario_bug regrouped_bug H1 H2); reflexivity.
Defined.

Lemma lowered_list_within_raised_list_witness :
  exists fb s,
    get_bugs (days 30) (days 100) (Date 2024 1 10) sample_weeks None None
      None sample_queries empty_node = inr (fb, s)
    /\ sublist (sev_lowered_and_increased s) (sev_increased_after_release s).
Proof.
  eexists. eexists. split; [vm_compute; reflexivity|].
  eapply (lowered_list_within_raised_list (days 30) (days 100)
            (Date 2024 1 10) sample_weeks None None None sample_queries
            empty_node).
  vm_compute. reflexivity.
Defined.

Lemma table_counts_every_record_witness :
  truthy None = false
  /\ exists fb s,
       get_bugs (days 30) (days 100) (Date 2024 1 10) sample_weeks None None
         None sample_queries empty_node = inr (fb, s)
       /\ table_total (data_opened s)
          = Z.of_nat (length (all_records sample_queries)).
Proof.
  split; [reflexivity|].
  eexists. eexists. split; [vm_compute; reflexivity|].
  eapply (table_counts_every_record (days 30) (days 100) (Date 2024 1 10)
            sample_weeks None None None sample_queries empty_node);
    [reflexivity|].
  vm_compute. reflexivity.
Defined.

Lemma live_run_returns_iff_witness :
  truthy None = false
  /\ (truthy (Some "cache.json") = true -> save_ok empty_node)
  /\ (returns (get_bugs (days 30) (days 100) (Date 2024 1 10) sample_weeks
                 None (Some "cache.json") None sample_queries empty_node)
      = true
      <-> Forall (handled (days 30) (days 100) sample_weeks)
                 (all_records sample_queries)).
Proof.
  assert (H : truthy (Some "cache.json") = true -> save_ok empty_node)
    by (intros _; apply save_ok_empty).
  split; [reflexivity|]. split; [exact H|].
  apply (live_run_returns_iff (days 30) (days 100) (Date 2024 1 10)
           sample_weeks None (Some "cache.json") None sample_queries
           empty_node eq_refl H).
Defined.

Lemma load_mode_result_witness :
  truthy (Some "cache.json") = true
  /\ get_bugs (days 30) (days 100) (Date 2024 1 10) sample_weeks
       (Some "cache.json") None (Some sample_doc) sample_queries empty_node
     = match records_at ["opened"; "nightly"] sample_doc with
       | Some [] =>
         inr (week_label (Date 2024 1 10),
              Store (init_table sample_weeks) [] [] empty_node)
       | _ => inl KeyError
       end.
Proof.
  split; [reflexivity|].
  apply (load_mode_result (days 30) (days 100) (Date 2024 1 10)
           sample_weeks (Some "cache.json") None sample_doc sample_queries
           empty_node eq_refl).
Defined.

Lemma phase_windows_shape_witness :
  exists qs,
    phase_queries 5 "nightly" 0 (days 60) = Some qs
    /\ Forall (fun q => query_phase q = "nightly"
                        /\ 0 <= v1 q <= v2 q
                        /\ v2 q <= v1 q + thirty_days
                        /\ v2 q <= days 60) qs
    /\ (days 60 < 0 -> qs = [])
    /\ (0 <= days 60 ->
        Z.of_nat (length qs) = (days 60 - 0) / thirty_days + 1
        /\ exists q, last qs = Some q
             /\ v2 q = days 60
             /\ (v1 q = v2 q <-> (days 60 - 0) mod thirty_days = 0)).
Proof.
  eexists. split; [vm_compute; reflexivity|].
  apply (phase_windows_shape 5 "nightly" 0 (days 60)).
  vm_compute. reflexivity.
Defined.

Lemma run_queries_partition_witness :
  (fuel_for 0 (days 45) <= 5)%nat
  /\ (fuel_for (days 45) (days 70) <= 5)%nat
  /\ exists qs,
       make_queries 5 0 (days 45) (days 70) = Some qs
       /\ forall t,
            length (List.filter
                      (fun q => asks_for t q
                                && String.eqb (query_phase q) "nightly") qs)
            = (if (0 <=? t) && (t <? days 45) then 1%nat else 0%nat)
            /\ length (List.filter
                         (fun q => asks_for t q
                                   && String.eqb (query_phase q) "beta") qs)
               = (if (days 45 <=? t) && (t <? days 70)
                  then 1%nat else 0%nat).
Proof.
  assert (H1 : (fuel_for 0 (days 45) <= 5)%nat) by (vm_compute; lia).
  assert (H2 : (fuel_for (days 45) (days 70) <= 5)%nat)
    by (vm_compute; lia).
  split; [exact H1|]. split; [exact H2|].
  apply (run_queries_partition 5 0 (days 45) (days 70) H1 H2).
Defined.

Lemma report_ignores_other_groups_witness :
  let r := <["2024-02" := 7]> (empty : gmap string Z) in
  ~ In "enhancement" REPORT_GROUPS
  /\ write_csv_rows (Date 2024 1 10)
       (<["enhancement" := r]> (init_table sample_weeks)) [] []
     = write_csv_rows (Date 2024 1 10) (init_table sample_weeks) [] [].
Proof.
  intros r.
  assert (H : ~ In "enhancement" REPORT_GROUPS)
    by (intros [H|[H|[H|[]]]]; discriminate H).
  split; [exact H|].
  apply (report_ignores_other_groups (Date 2024 1 10)
           (init_table sample_weeks) [] [] "enhancement" r H).
Defined.

Lemma report_rows_content_witness :
  let tbl := bumped "normal" "2024-03" (init_table sample_weeks) in
  exists rows,
    write_csv_rows (Date 2024 1 10) tbl [flagged_of scenario_bug] []
    = inr rows
    /\ exists normal weeks,
         tbl !! "normal" = Some normal
         /\ Sorted String.le weeks /\ NoDup weeks
         /\ (forall w, In w weeks <-> normal !! w <> None)
         /\ (forall sev w, In sev REPORT_GROUPS -> In w weeks ->
                           cell tbl sev w <> None)
         /\ rows
            = report_head (week_label (Date 2024 1 10)) weeks
              ++ map (fun sev =>
                        Str sev
                        :: map (fun w => Num (count_at tbl sev w)) weeks)
                     REPORT_GROUPS
              ++ report_tail [flagged_of scenario_bug] [].
Proof.
  intros tbl. eexists. split; [vm_compute; reflexivity|].
  apply (report_rows_content (Date 2024 1 10) tbl
           [flagged_of scenario_bug] []).
  vm_compute. reflexivity.
Defined.

Lemma report_is_written_witness :
  exists fb s,
    get_bugs (days 30) (days 100) (Date 2024 1 10) sample_weeks None None
      None sample_queries empty_node = inr (fb, s)
    /\ exists rows,
         write_csv_rows (Date 2024 1 10) (data_opened s)
           (sev_lowered_and_increased s) (sev_increased_after_release s)
         = inr rows.
Proof.
  eexists. eexists. split; [vm_compute; reflexivity|].
  eapply (report_is_written (days 30) (days 100) (Date 2024 1 10)
            sample_weeks None None None sample_queries empty_node).
  vm_compute. reflexivity.
Defined.

Lemma derived_severities_bound_changes_witness :
  bug_wf scenario_bug
  /\ Sorted Z.le
       (map fst
          (severity_changes (in_window (days 100) (history scenario_bug))))
  /\ exists d,
       reconstruct (days 30) (days 100) scenario_bug = inr d
       /\ (forall t c,
             In (t, c)
                (severity_changes
                   (in_window (days 100) (history scenario_bug))) ->
             (t <= days 30 ->
              severity_index (added c)
              <= severity_index (sev_before_release d))
             /\ (t > days 30 ->
                 severity_index (added c)
                 <= severity_index (sev_after_release d)))
       /\ match List.filter (fun tc => fst tc >? days 30)
                  (severity_changes
                     (in_window (days 100) (history scenario_bug))) with
          | [] =>
            sev_at_release d = fallback_severity (days 100) scenario_bug
            /\ sev_after_release d
               = fallback_severity (days 100) scenario_bug
          | (_, c0) :: _ =>
            sev_at_release d = removed c0
            /\ severity_index (sev_at_release d)
               <= severity_index (sev_before_release d)
          end.
Proof.
  assert (H1 : bug_wf scenario_bug) by wf_sample.
  assert (H2 : Sorted Z.le
                 (map fst
                    (severity_changes
                       (in_window (days 100) (history scenario_bug)))))
    by (vm_compute; repeat constructor; discriminate).
  split; [exact H1|]. split; [exact H2|].
  eexists. split; [vm_compute; reflexivity|].
  apply (derived_severities_bound_changes (days 30) (days 100) scenario_bug
           _ H1 H2).
  vm_compute. reflexivity.
Defined.
